(** * Passkey wallet demo: key derivation, base64url codec, sponsored memo
      transactions.

    A shallow embedding of [lib/solana.ts], [lib/passkey.ts],
    [lib/lazorkit.ts] and the wallet API route.  JavaScript numbers that the code only uses as small
    integers are [Z]; a [Uint8Array] is a [list Z] whose elements lie in
    [0, 256); the values [undefined] and [NaN] are kept apart from numbers. *)

From Stdlib Require Import ZArith QArith List Lia Bool Ascii String.
From stdpp Require Import base option list strings gmap.

Local Open Scope Z_scope.

(** ** JavaScript number primitives *)

(** [ToInt32]: the conversion the bitwise operators apply to their operands. *)
Definition ToInt32 (x : Z) : Z :=
  let m := x mod 2 ^ 32 in
  if 2 ^ 31 <=? m then m - 2 ^ 32 else m.

(** [ToUint8]: the conversion a store into a [Uint8Array] applies. *)
Definition ToUint8 (x : Z) : Z := x mod 256.

(** A JavaScript value of the kind the derivation loop meets: a number,
    [NaN] or [undefined]. *)
Inductive jsval : Type :=
| JNum (n : Z)
| JNaN
| JUndefined.

(** [a % b] on non-negative integers; [NaN] when the divisor is zero. *)
Definition js_rem (a b : Z) : jsval :=
  if b =? 0 then JNaN else JNum (Z.rem a b).

(** [ToInt32] of a value: [NaN] and [undefined] both convert to 0. *)
Definition jsval_ToInt32 (v : jsval) : Z :=
  match v with
  | JNum n => ToInt32 n
  | JNaN | JUndefined => 0
  end.

(** [x ^ y] *)
Definition js_xor (x y : jsval) : Z :=
  Z.lxor (jsval_ToInt32 x) (jsval_ToInt32 y).

(** ** Typed arrays *)

Abbreviation Uint8Array := (list Z) (only parsing).

(** Every element is a byte. *)
Definition u8_array (a : Uint8Array) : Prop := Forall (fun x => 0 <= x < 256) a.

(** The same, as a test. *)
Definition is_u8 (x : Z) : bool := (0 <=? x) && (x <? 256).

Definition u8_arrayb (a : Uint8Array) : bool := forallb is_u8 a.

(** [new Uint8Array(n)] *)
Definition Uint8Array_new (n : nat) : Uint8Array := replicate n 0.

(** [a.length] *)
Definition ua_length (a : Uint8Array) : Z := Z.of_nat (length a).

(** [a[k]]: an index that is not an integer in range reads [undefined]. *)
Definition ua_get (a : Uint8Array) (k : jsval) : jsval :=
  match k with
  | JNum i =>
      if i <? 0 then JUndefined
      else match a !! Z.to_nat i with
           | Some x => JNum x
           | None => JUndefined
           end
  | JNaN | JUndefined => JUndefined
  end.

(** [a[i] = v]: the value is converted with [ToUint8]; a store out of range
    is ignored. *)
Definition ua_set (a : Uint8Array) (i : Z) (v : Z) : Uint8Array :=
  if i <? 0 then a else <[Z.to_nat i := ToUint8 v]> a.

(** [for (let i = start; i < bound; i++) a = body(a, i)], with [n]
    iterations left: the shape of both loops of the code, each of which
    stores into one array. *)
Fixpoint for_loop (body : Uint8Array -> Z -> Uint8Array) (n : nat) (i : Z)
         (a : Uint8Array) : Uint8Array :=
  match n with
  | O => a
  | S n' => for_loop body n' (i + 1) (body a i)
  end.

(** ** Errors *)

(** A thrown JavaScript error: its [name] and its [message]. *)
Record JsError : Type := mkError { err_name : string; err_message : string }.

(** [new Error(message)] *)
Definition Error_new (message : string) : JsError :=
  {| err_name := "Error"; err_message := message |}.

(** The [DOMException] that [btoa] and [atob] throw. *)
Definition InvalidCharacterError : JsError :=
  {| err_name := "InvalidCharacterError"; err_message := "invalid character" |}.

Inductive result (A : Type) : Type :=
| Ok (a : A)
| Throw (e : JsError).
Arguments Ok {A} a.
Arguments Throw {A} e.

Definition result_bind {A B} (r : result A) (k : A -> result B) : result B :=
  match r with
  | Ok a => k a
  | Throw e => Throw e
  end.

(** ** Ledger client data (of [@solana/web3.js])

    The objects of the client library, with the fields the code reads and
    writes: [keys], [programId] and [data] of an instruction, [feePayer]
    and [recentBlockhash] of a transaction, [publicKey] of a keypair; a
    transaction also holds its signature slots. *)

(** A public key is its 32 bytes. *)
Record PublicKey : Type := mkPublicKey { toBytes : list Z }.

Record Keypair : Type := mkKeypair {
  publicKey : PublicKey;
  secretKey : list Z
}.

Record AccountMeta : Type := mkAccountMeta {
  pubkey : PublicKey;
  isSigner : bool;
  isWritable : bool
}.

Record TransactionInstruction : Type := mkInstruction {
  keys : list AccountMeta;
  programId : PublicKey;
  data : list Z
}.

Record SignaturePubkeyPair : Type := mkSigPair {
  signature : option (list Z);
  sig_publicKey : PublicKey
}.

(** The fields of a [Transaction]; [None] is an unset field. *)
Record Transaction : Type := mkTransaction {
  signatures : list SignaturePubkeyPair;
  feePayer : option PublicKey;
  instructions : list TransactionInstruction;
  recentBlockhash : option string
}.

(** [new Transaction()] *)
Definition Transaction_new : Transaction :=
  {| signatures := []; feePayer := None; instructions := [];
     recentBlockhash := None |}.

(** [transaction.add(instruction)] *)
Definition Transaction_add (t : Transaction) (ix : TransactionInstruction)
  : Transaction :=
  {| signatures := signatures t; feePayer := feePayer t;
     instructions := instructions t ++ [ix];
     recentBlockhash := recentBlockhash t |}.

(** [transaction.feePayer = pk] *)
Definition set_feePayer (t : Transaction) (pk : PublicKey) : Transaction :=
  {| signatures := signatures t; feePayer := Some pk;
     instructions := instructions t;
     recentBlockhash := recentBlockhash t |}.

(** [transaction.recentBlockhash = h] *)
Definition set_recentBlockhash (t : Transaction) (h : option string)
  : Transaction :=
  {| signatures := signatures t; feePayer := feePayer t;
     instructions := instructions t;
     recentBlockhash := h |}.

(** The functions of the client libraries ([@solana/web3.js], [bs58],
    [Buffer]) that the code calls and does not define. *)
Class Library : Type := {
  (** [Keypair.fromSeed]: the ledger's seed-to-keypair expansion.  It throws
      on a seed that is not 32 bytes long, and only then. *)
  Keypair_fromSeed : list Z -> result Keypair;
  Keypair_fromSeed_32 :
    forall seed, length seed = 32%nat -> exists kp, Keypair_fromSeed seed = Ok kp;
  (** [Keypair.fromSecretKey] *)
  Keypair_fromSecretKey : list Z -> result Keypair;
  (** [new PublicKey(base58)] *)
  PublicKey_new : string -> result PublicKey;
  (** [pk.toBase58()] *)
  toBase58 : PublicKey -> string;
  (** [bs58.encode] and [bs58.decode] *)
  bs58_encode : list Z -> string;
  bs58_decode : string -> result (list Z);
  (** [Buffer.from(text, 'utf-8')] *)
  Buffer_from_utf8 : string -> list Z;
  (** [transaction.partialSign(signer)] *)
  partialSign : Transaction -> Keypair -> result Transaction;
  (** The wire format of a transaction. *)
  wire_bytes : Transaction -> list Z
}.

(** ** KeyDeriver ([lib/solana.ts]) *)

Section KeyDeriver.
Context `{Library}.

(** The body of the loop at index [i]:
    [seed[i] = passkeyPublicKey[i % passkeyPublicKey.length] ^ (i * 7)]. *)
Definition derive_step (passkeyPublicKey : Uint8Array) (seed : Uint8Array)
           (i : Z) : Uint8Array :=
  ua_set seed i
    (js_xor (ua_get passkeyPublicKey (js_rem i (ua_length passkeyPublicKey)))
            (JNum (i * 7))).

(** [const seed = new Uint8Array(32); for (let i = 0; i < 32; i++) ...]:
    the seed the function builds before expanding it. *)
Definition derive_seed (passkeyPublicKey : Uint8Array) : Uint8Array :=
  for_loop (derive_step passkeyPublicKey) 32 0 (Uint8Array_new 32).

Definition deriveKeypairFromPasskey (passkeyPublicKey : Uint8Array)
  : result Keypair :=
  let seed := derive_seed passkeyPublicKey in
  result_bind (Keypair_fromSeed seed) (fun keypair =>
  Ok keypair).

Record Wallet : Type := mkWallet {
  w_keypair : Keypair;
  w_address : string;
  w_publicKey : string
}.

Definition createWalletFromPasskey (passkeyPublicKey : Uint8Array)
  : result Wallet :=
  result_bind (deriveKeypairFromPasskey passkeyPublicKey) (fun keypair =>
  let address := toBase58 (publicKey keypair) in
  let publicKey := bs58_encode (toBytes (publicKey keypair)) in
  Ok {| w_keypair := keypair; w_address := address;
        w_publicKey := publicKey |}).

(** The value the loop stores at index [i]. *)
Definition derive_byte (passkeyPublicKey : Uint8Array) (i : Z) : Z :=
  ToUint8
    (js_xor (ua_get passkeyPublicKey (js_rem i (ua_length passkeyPublicKey)))
            (JNum (i * 7))).

End KeyDeriver.

(** ** Strings of [lib/passkey.ts]

    A JavaScript string is the list of its UTF-16 code units. *)

Abbreviation jsstring := (list Z) (only parsing).

(** The code unit of an ASCII character. *)
Definition cc (c : ascii) : Z := Z.of_N (N_of_ascii c).

(** [String.fromCharCode(...codes)]: each argument is taken modulo 2^16. *)
Definition String_fromCharCode (codes : list Z) : jsstring :=
  map (fun c => c mod 65536) codes.

(** [s.replace(/c/g, d)] for a single character [c] and a replacement
    string [d]. *)
Definition replace_all (c : Z) (d : jsstring) (s : jsstring) : jsstring :=
  flat_map (fun x => if x =? c then d else [x]) s.

(** [s.padEnd(targetLength, c)] for a single character [c]. *)
Definition padEnd (s : jsstring) (targetLength : Z) (c : Z) : jsstring :=
  s ++ replicate (Z.to_nat (targetLength - Z.of_nat (length s))) c.

(** [s.charCodeAt(i)]; [NaN] out of range. *)
Definition charCodeAt (s : jsstring) (i : Z) : jsval :=
  if i <? 0 then JNaN
  else match s !! Z.to_nat i with
       | Some c => JNum c
       | None => JNaN
       end.

(** *** [btoa] and [atob]

    The two browser built-ins, after the base64 alphabet of RFC 4648 and the
    forgiving-base64 decoder of the WHATWG Infra standard. *)

(** The character of a 6-bit value. *)
Definition b64_char (v : Z) : Z :=
  if v <? 26 then cc "A" + v
  else if v <? 52 then cc "a" + (v - 26)
  else if v <? 62 then cc "0" + (v - 52)
  else if v =? 62 then cc "+"
  else cc "/".

(** The 6-bit value of a character of the alphabet. *)
Definition b64_value (c : Z) : option Z :=
  if (cc "A" <=? c) && (c <=? cc "Z") then Some (c - cc "A")
  else if (cc "a" <=? c) && (c <=? cc "z") then Some (c - cc "a" + 26)
  else if (cc "0" <=? c) && (c <=? cc "9") then Some (c - cc "0" + 52)
  else if c =? cc "+" then Some 62
  else if c =? cc "/" then Some 63
  else None.

(** Base64 of a byte sequence, with [=] padding. *)
Fixpoint b64_encode (bs : list Z) : jsstring :=
  match bs with
  | [] => []
  | [a] =>
      [b64_char (a / 4); b64_char (a mod 4 * 16); cc "="; cc "="]
  | [a; b] =>
      [b64_char (a / 4); b64_char (a mod 4 * 16 + b / 16);
       b64_char (b mod 16 * 4); cc "="]
  | a :: b :: c :: rest =>
      b64_char (a / 4) :: b64_char (a mod 4 * 16 + b / 16)
      :: b64_char (b mod 16 * 4 + c / 64) :: b64_char (c mod 64)
      :: b64_encode rest
  end.

(** [btoa(s)]: throws when a code unit exceeds 255. *)
Definition btoa (s : jsstring) : result jsstring :=
  if forallb (fun c => c <=? 255) s then Ok (b64_encode s)
  else Throw InvalidCharacterError.

Definition is_ascii_whitespace (c : Z) : bool :=
  (c =? 9) || (c =? 10) || (c =? 12) || (c =? 13) || (c =? 32).

(** Remove one or two trailing [=]. *)
Definition strip_padding (s : jsstring) : jsstring :=
  match rev s with
  | c1 :: r1 =>
      if c1 =? cc "=" then
        match r1 with
        | c2 :: r2 => if c2 =? cc "=" then rev r2 else rev r1
        | [] => rev r1
        end
      else s
  | [] => s
  end.

(** The 6-bit values of a string, if every character is in the alphabet. *)
Fixpoint b64_values (s : jsstring) : option (list Z) :=
  match s with
  | [] => Some []
  | c :: s' =>
      match b64_value c, b64_values s' with
      | Some v, Some vs => Some (v :: vs)
      | _, _ => None
      end
  end.

(** Bytes of a sequence of 6-bit values; a final group of two or three values
    yields one or two bytes, its last 4 or 2 bits being dropped. *)
Fixpoint b64_bytes (vs : list Z) : list Z :=
  match vs with
  | a :: b :: c :: d :: rest =>
      (a * 4 + b / 16) :: (b mod 16 * 16 + c / 4) :: (c mod 4 * 64 + d)
      :: b64_bytes rest
  | [a; b; c] => [a * 4 + b / 16; b mod 16 * 16 + c / 4]
  | [a; b] => [a * 4 + b / 16]
  | _ => []
  end.

(** [atob(s)] *)
Definition atob (s : jsstring) : result jsstring :=
  let data := List.filter (fun c => negb (is_ascii_whitespace c)) s in
  let data :=
    if Z.of_nat (length data) mod 4 =? 0 then strip_padding data else data in
  if Z.of_nat (length data) mod 4 =? 1 then Throw InvalidCharacterError
  else match b64_values data with
       | Some vs => Ok (b64_bytes vs)
       | None => Throw InvalidCharacterError
       end.

(** *** The codec of [lib/passkey.ts] *)

Definition bufferToBase64url (buffer : Uint8Array) : result jsstring :=
  result_bind (btoa (String_fromCharCode buffer)) (fun base64 =>
  Ok (replace_all (cc "=") []
        (replace_all (cc "/") [cc "_"]
           (replace_all (cc "+") [cc "-"] base64)))).

(** The body of the loop at index [i]:
    [bytes[i] = binary.charCodeAt(i)]. *)
Definition copy_step (binary : jsstring) (bytes : Uint8Array) (i : Z)
  : Uint8Array :=
  match charCodeAt binary i with
  | JNum c => ua_set bytes i c
  | JNaN | JUndefined => ua_set bytes i 0
  end.

Definition base64urlToBuffer (base64url : jsstring) : result Uint8Array :=
  let base64 :=
    replace_all (cc "_") [cc "/"] (replace_all (cc "-") [cc "+"] base64url) in
  let len := Z.of_nat (length base64) in
  let padded := padEnd base64 (len + (4 - len mod 4) mod 4) (cc "=") in
  result_bind (atob padded) (fun binary =>
  let bytes := Uint8Array_new (length binary) in
  Ok (for_loop (copy_step binary) (length binary) 0 bytes)).

(** ** The environment of the asynchronous code

    The functions of [lib/lazorkit.ts] and the transaction functions of
    [lib/solana.ts] read the process environment, draw random keys, write to
    the console and call the ledger over RPC.  [World] holds what they read
    and what they leave behind; an [await] is sequencing. *)

Inductive ConsoleLevel : Type := LogLevel | WarnLevel | ErrorLevel.

(** A console call: its level and its arguments as printed. *)
Record ConsoleEntry : Type := mkEntry {
  level : ConsoleLevel;
  printed : list string
}.

(** A request sent to the ledger. *)
Inductive RpcRequest : Type :=
| GetLatestBlockhash
| SendRawTransaction (bytes : list Z)
| ConfirmTransaction (sig : string).

Record World : Type := mkWorld {
  (** [process.env] *)
  env : gmap string string;
  (** the keys [Keypair.generate] will draw, and how many it has drawn *)
  entropy : nat -> Keypair;
  drawn : nat;
  (** console output, oldest first *)
  console : list ConsoleEntry;
  (** the ledger's answers *)
  rpc_blockhash : result (option string);
  rpc_send : list Z -> result string;
  rpc_confirm : string -> result unit;
  (** requests sent to the ledger, oldest first *)
  requests : list RpcRequest
}.

(** A computation that may throw and may change the world. *)
Definition M (A : Type) : Type := World -> result A * World.

Definition ret {A} (a : A) : M A := fun w => (Ok a, w).

Definition throw {A} (e : JsError) : M A := fun w => (Throw e, w).

Definition bind {A B} (m : M A) (k : A -> M B) : M B :=
  fun w =>
    match m w with
    | (Ok a, w') => k a w'
    | (Throw e, w') => (Throw e, w')
    end.

(** [try { m } catch (error) { h error }] *)
Definition try_catch {A} (m : M A) (h : JsError -> M A) : M A :=
  fun w =>
    match m w with
    | (Ok a, w') => (Ok a, w')
    | (Throw e, w') => h e w'
    end.

(** A synchronous library call that may throw. *)
Definition lift {A} (r : result A) : M A := fun w => (r, w).

Declare Scope js_scope.
Delimit Scope js_scope with js.
Notation "'let!' x := m 'in' k" := (bind m (fun x => k))
  (at level 10, x name, m at level 100, k at level 200) : js_scope.

Definition with_console (w : World) (c : list ConsoleEntry) : World :=
  {| env := env w; entropy := entropy w; drawn := drawn w; console := c;
     rpc_blockhash := rpc_blockhash w; rpc_send := rpc_send w;
     rpc_confirm := rpc_confirm w; requests := requests w |}.

Definition with_requests (w : World) (r : list RpcRequest) : World :=
  {| env := env w; entropy := entropy w; drawn := drawn w;
     console := console w;
     rpc_blockhash := rpc_blockhash w; rpc_send := rpc_send w;
     rpc_confirm := rpc_confirm w; requests := r |}.

Definition with_drawn (w : World) (n : nat) : World :=
  {| env := env w; entropy := entropy w; drawn := n; console := console w;
     rpc_blockhash := rpc_blockhash w; rpc_send := rpc_send w;
     rpc_confirm := rpc_confirm w; requests := requests w |}.

Definition console_write (l : ConsoleLevel) (args : list string) : M unit :=
  fun w =>
    (Ok tt, with_console w (console w ++ [{| level := l; printed := args |}])).

Definition console_log := console_write LogLevel.
Definition console_warn := console_write WarnLevel.
Definition console_error := console_write ErrorLevel.

(** [process.env[name]] *)
Definition getenv (name : string) : M (option string) :=
  fun w => (Ok (env w !! name), w).

(** [Keypair.generate()] *)
Definition Keypair_generate : M Keypair :=
  fun w => (Ok (entropy w (drawn w)), with_drawn w (S (drawn w))).

Definition rpc {A} (q : RpcRequest) (answer : World -> result A) : M A :=
  fun w => (answer w, with_requests w (requests w ++ [q])).

(** [connection.getLatestBlockhash()], reduced to its [blockhash] field *)
Definition getLatestBlockhash : M (option string) :=
  rpc GetLatestBlockhash rpc_blockhash.

(** [connection.sendRawTransaction(bytes, options)] *)
Definition sendRawTransaction (bytes : list Z) : M string :=
  rpc (SendRawTransaction bytes) (fun w => rpc_send w bytes).

(** [connection.confirmTransaction(signature, 'confirmed')] *)
Definition confirmTransaction (sig : string) : M unit :=
  rpc (ConfirmTransaction sig) (fun w => rpc_confirm w sig).

(** ** SponsoredTxBuilder ([lib/solana.ts]) *)

Definition PublicKey_eqb (a b : PublicKey) : bool :=
  bool_decide (toBytes a = toBytes b).

(** The key [pk] has a signature in the transaction. *)
Definition signed_by (t : Transaction) (pk : PublicKey) : bool :=
  existsb (fun p => PublicKey_eqb (sig_publicKey p) pk
                    && bool_decide (is_Some (signature p)))
          (signatures t).

(** Modelled from the spec: the required signers of an envelope, which the
    client library computes and [src/] does not hold: "every identity
    referenced as a required signer in any instruction, plus the fee-payer
    identity". *)
Definition requiredSigners (t : Transaction) : list PublicKey :=
  match feePayer t with Some pk => [pk] | None => [] end
  ++ flat_map (fun ix => map pubkey (List.filter isSigner (keys ix)))
       (instructions t).

(** Modelled from the spec: the error [serialize] fails with, which [src/]
    does not hold. *)
Definition IncompleteSignatureError : JsError :=
  {| err_name := "IncompleteSignatureError";
     err_message := "Signature verification failed" |}.

Section SponsoredTxBuilder.
Context `{Library}.
Local Open Scope js_scope.

(** Modelled from the spec: [transaction.serialize()] of the client
    library, which [src/] does not hold: it "fails with
    IncompleteSignatureError if any required signer slot is unsigned" and
    otherwise produces the wire-format bytes. *)
Definition serialize (t : Transaction) : result (list Z) :=
  if forallb (signed_by t) (requiredSigners t) then Ok (wire_bytes t)
  else Throw IncompleteSignatureError.

Definition MEMO_PROGRAM_ID_text : string :=
  "MemoSq4gqABAXKb96qnH8TysNcWxMyWCqXgDLGmfcHr".

Definition createMemoTransaction (userWallet : PublicKey) (memo : string)
           (sponsorKeypair : Keypair) : M Transaction :=
  let! MEMO_PROGRAM_ID := lift (PublicKey_new MEMO_PROGRAM_ID_text) in
  let memoInstruction :=
    {| keys := [{| pubkey := userWallet; isSigner := true;
                   isWritable := false |}];
       programId := MEMO_PROGRAM_ID;
       data := Buffer_from_utf8 memo |} in
  let transaction := Transaction_new in
  let transaction := Transaction_add transaction memoInstruction in
  let transaction := set_feePayer transaction (publicKey sponsorKeypair) in
  let! blockhash := getLatestBlockhash in
  let transaction := set_recentBlockhash transaction blockhash in
  ret transaction.

Definition sendSponsoredTransaction (transaction : Transaction)
           (userKeypair sponsorKeypair : Keypair) : M string :=
  try_catch
    (let! transaction := lift (partialSign transaction userKeypair) in
     let! transaction := lift (partialSign transaction sponsorKeypair) in
     let! bytes := lift (serialize transaction) in
     let! signature := sendRawTransaction bytes in
     let! _ := confirmTransaction signature in
     ret signature)
    (fun error =>
       let! _ := console_error ["Transaction failed:"; err_message error] in
       throw (Error_new ("Transaction failed: " ++ err_message error))).

End SponsoredTxBuilder.

(** ** The integration layer ([lib/lazorkit.ts]) *)

Record LazorkitWallet : Type := mkLazorkitWallet {
  address : string;
  lw_publicKey : string;
  credentialId : string;
  keypair : Keypair
}.

Record GaslessResult : Type := mkGaslessResult {
  gr_signature : string;
  sponsor : string;
  feeSaved : Q
}.

Section Lazorkit.
Context `{Library}.
Local Open Scope js_scope.

Definition sponsor_placeholder : string :=
  "your_base58_encoded_private_key_here".

(** A string is truthy when it is not empty. *)
Definition truthy (s : string) : bool := negb (String.eqb s "").

Definition getSponsorWallet : M Keypair :=
  let! sponsorKey := getenv "LAZORKIT_SPONSOR_PRIVATE_KEY" in
  match sponsorKey with
  | Some key =>
      if truthy key && negb (String.eqb key sponsor_placeholder) then
        try_catch
          (let! secret := lift (bs58_decode key) in
           lift (Keypair_fromSecretKey secret))
          (fun error =>
             let! _ := console_warn
                         ["Invalid sponsor key, using random sponsor"] in
             Keypair_generate)
      else Keypair_generate
  | None => Keypair_generate
  end.

Definition executeGaslessTransaction (wallet : LazorkitWallet)
           (memo : string) : M GaslessResult :=
  try_catch
    (let! _ := console_log ["Creating gasless transaction..."] in
     let! sponsor := getSponsorWallet in
     let! userWallet := lift (PublicKey_new (address wallet)) in
     let! transaction := createMemoTransaction userWallet memo sponsor in
     let! _ := console_log ["Transaction created with sponsor:";
                            toBase58 (publicKey sponsor)] in
     let! _ := console_log ["Fee payer:";
                            match feePayer transaction with
                            | Some pk => toBase58 pk
                            | None => "undefined"
                            end] in
     let! signature :=
       sendSponsoredTransaction transaction (keypair wallet) sponsor in
     let! _ := console_log ["Transaction sent:"; signature] in
     let feeSaved := (5 # 1000000)%Q in
     ret {| gr_signature := signature;
            sponsor := toBase58 (publicKey sponsor);
            feeSaved := feeSaved |})
    (fun error =>
       let! _ := console_error ["Gasless transaction failed:";
                                err_message error] in
       throw error).

End Lazorkit.

(** ** Session storage ([lib/passkey.ts], [lib/lazorkit.ts])

    [window], when the code runs in a browser, reduced to its
    [localStorage], a map from keys to strings; [None] is the server side,
    where [typeof window] is ['undefined'].  The storage is taken to accept
    every write. *)

Abbreviation Window := (option (gmap string string)) (only parsing).

Definition storeCredentialId (credentialId : string) (window : Window)
  : Window :=
  match window with
  | Some localStorage =>
      Some (<["passkey_credential_id" := credentialId]> localStorage)
  | None => None
  end.

Definition getStoredCredentialId (window : Window) : option string :=
  match window with
  | Some localStorage => localStorage !! "passkey_credential_id"
  | None => None
  end.

Definition clearStoredCredential (window : Window) : Window :=
  match window with
  | Some localStorage =>
      Some (delete "wallet_public_key"
              (delete "wallet_address"
                 (delete "passkey_credential_id" localStorage)))
  | None => None
  end.

(** A string or [null] is truthy when it is a non-empty string. *)
Definition truthy_item (item : option string) : bool :=
  match item with
  | Some s => truthy s
  | None => false
  end.

Definition hasExistingSession (window : Window) : bool :=
  match window with
  | None => false
  | Some localStorage =>
      let credentialId := getStoredCredentialId window in
      let walletAddress := localStorage !! "wallet_address" in
      truthy_item credentialId && truthy_item walletAddress
  end.

Definition clearWalletSession (window : Window) : Window :=
  match window with
  | None => None
  | Some localStorage =>
      Some (delete "wallet_public_key"
              (delete "wallet_address"
                 (delete "passkey_credential_id" localStorage)))
  end.

Definition getSessionWallet (window : Window) : option (string * string) :=
  match window with
  | None => None
  | Some localStorage =>
      let address := localStorage !! "wallet_address" in
      let publicKey := localStorage !! "wallet_public_key" in
      if negb (truthy_item address) || negb (truthy_item publicKey) then None
      else match address, publicKey with
           | Some a, Some p => Some (a, p)
           | _, _ => None
           end
  end.

(** ** The browser side ([lib/passkey.ts], [lib/lazorkit.ts])

    Creating and recovering a wallet also draw random bytes, ask the
    authenticator and use the session storage.  [Browser] adds these to the
    world. *)

(** The options of [startRegistration], with the fields the code sets. *)
Record CreationOptions : Type := mkCreationOptions {
  co_challenge : list Z;
  co_rp_name : string;
  co_rp_id : string;
  co_user_id : list Z;
  co_user_name : string;
  co_user_displayName : string;
  co_pubKeyCredParams : list (Z * string);
  co_timeout : Z;
  co_attestation : string;
  co_authenticatorAttachment : string;
  co_requireResidentKey : bool;
  co_residentKey : string;
  co_userVerification : string
}.

(** The options of [startAuthentication]. *)
Record RequestOptions : Type := mkRequestOptions {
  ro_challenge : list Z;
  ro_timeout : Z;
  ro_rpId : string;
  ro_userVerification : string
}.

(** What [startRegistration] resolves to, with the fields the code reads:
    [id], [rawId] and [response.publicKey], which may be missing. *)
Record RegistrationCredential : Type := mkRegistration {
  rc_id : string;
  rc_rawId : list Z;
  rc_publicKey : option (list Z)
}.

(** What [startAuthentication] resolves to: [id] and the three fields of
    [response]. *)
Record AuthenticationCredential : Type := mkAuthentication {
  ac_id : string;
  ac_signature : list Z;
  ac_authenticatorData : list Z;
  ac_clientDataJSON : list Z
}.

Record Browser : Type := mkBrowser {
  world : World;
  (** [window.localStorage]; [None] without a [window] *)
  window : option (gmap string string);
  (** the values [crypto.getRandomValues] will draw, and how many it has
      drawn *)
  random_values : nat -> Z;
  random_drawn : nat;
  (** the authenticator's answers *)
  startRegistration : CreationOptions -> result RegistrationCredential;
  startAuthentication : RequestOptions -> result AuthenticationCredential
}.

(** A computation in the browser. *)
Definition BM (A : Type) : Type := Browser -> result A * Browser.

Definition bret {A} (a : A) : BM A := fun b => (Ok a, b).

Definition bthrow {A} (e : JsError) : BM A := fun b => (Throw e, b).

Definition bbind {A B} (m : BM A) (k : A -> BM B) : BM B :=
  fun b =>
    match m b with
    | (Ok a, b') => k a b'
    | (Throw e, b') => (Throw e, b')
    end.

Definition btry_catch {A} (m : BM A) (h : JsError -> BM A) : BM A :=
  fun b =>
    match m b with
    | (Ok a, b') => (Ok a, b')
    | (Throw e, b') => h e b'
    end.

Definition blift {A} (r : result A) : BM A := fun b => (r, b).

Declare Scope browser_scope.
Delimit Scope browser_scope with browser.
Notation "'let!' x := m 'in' k" := (bbind m (fun x => k))
  (at level 10, x name, m at level 100, k at level 200) : browser_scope.

Definition with_world (b : Browser) (w : World) : Browser :=
  {| world := w; window := window b; random_values := random_values b;
     random_drawn := random_drawn b;
     startRegistration := startRegistration b;
     startAuthentication := startAuthentication b |}.

Definition with_window (b : Browser) (win : option (gmap string string))
  : Browser :=
  {| world := world b; window := win; random_values := random_values b;
     random_drawn := random_drawn b;
     startRegistration := startRegistration b;
     startAuthentication := startAuthentication b |}.

Definition with_random_drawn (b : Browser) (n : nat) : Browser :=
  {| world := world b; window := window b;
     random_values := random_values b; random_drawn := n;
     startRegistration := startRegistration b;
     startAuthentication := startAuthentication b |}.

(** A computation on the world, run in the browser. *)
Definition in_world {A} (m : M A) : BM A :=
  fun b => let (r, w') := m (world b) in (r, with_world b w').

(** [crypto.getRandomValues(new Uint8Array(n))] *)
Definition getRandomValues (n : nat) : BM (list Z) :=
  fun b =>
    (Ok (map (fun k => ToUint8 (random_values b (random_drawn b + k)%nat))
           (seq 0 n)),
     with_random_drawn b (random_drawn b + n)%nat).

(** [process.env[name] || fallback] *)
Definition env_or (name fallback : string) : BM string :=
  fun b =>
    (Ok (match env (world b) !! name with
         | Some s => if truthy s then s else fallback
         | None => fallback
         end), b).

Definition RP_NAME : BM string :=
  env_or "NEXT_PUBLIC_RP_NAME" "Lazorkit Passkey Demo".

Definition RP_ID : BM string := env_or "NEXT_PUBLIC_RP_ID" "localhost".

Definition generateChallenge : BM (list Z) := getRandomValues 32.

(** The [TypeError] of a method call on [undefined]. *)
Definition TypeError_undefined : JsError :=
  {| err_name := "TypeError";
     err_message := "Cannot read properties of undefined (reading 'replace')" |}.

Record PasskeyCreated : Type := mkPasskeyCreated {
  pc_credentialId : string;
  pc_publicKey : list Z;
  pc_rawId : list Z
}.

Record PasskeyAuthenticated : Type := mkPasskeyAuthenticated {
  pa_credentialId : string;
  pa_signature : list Z;
  pa_authenticatorData : list Z;
  pa_clientDataJSON : list Z
}.

Section Passkey.
Local Open Scope browser_scope.

Definition createPasskey (username : string) : BM PasskeyCreated :=
  btry_catch
    (let! challenge := generateChallenge in
     let! userId := getRandomValues 32 in
     let! challengeText := blift (bufferToBase64url challenge) in
     let! rpName := RP_NAME in
     let! rpId := RP_ID in
     let! userIdText := blift (bufferToBase64url userId) in
     let options :=
       {| co_challenge := challengeText;
          co_rp_name := rpName;
          co_rp_id := rpId;
          co_user_id := userIdText;
          co_user_name := username;
          co_user_displayName := username;
          co_pubKeyCredParams := [(-7, "public-key"); (-257, "public-key")];
          co_timeout := 60000;
          co_attestation := "none";
          co_authenticatorAttachment := "platform";
          co_requireResidentKey := true;
          co_residentKey := "required";
          co_userVerification := "required" |} in
     let! credential := (fun b => (startRegistration b options, b)) in
     let! publicKeyBytes :=
       blift (match rc_publicKey credential with
              | Some text => base64urlToBuffer text
              | None => Throw TypeError_undefined
              end) in
     let! rawIdBytes := blift (base64urlToBuffer (rc_rawId credential)) in
     bret {| pc_credentialId := rc_id credential;
             pc_publicKey := publicKeyBytes;
             pc_rawId := rawIdBytes |})
    (fun error =>
       let! _ := in_world (console_error ["Passkey creation failed:";
                                          err_message error]) in
       bthrow (Error_new ("Failed to create passkey: "
                          ++ err_message error))).

Definition authenticatePasskey : BM PasskeyAuthenticated :=
  btry_catch
    (let! challenge := generateChallenge in
     let! challengeText := blift (bufferToBase64url challenge) in
     let! rpId := RP_ID in
     let options :=
       {| ro_challenge := challengeText;
          ro_timeout := 60000;
          ro_rpId := rpId;
          ro_userVerification := "required" |} in
     let! credential := (fun b => (startAuthentication b options, b)) in
     let! signature := blift (base64urlToBuffer (ac_signature credential)) in
     let! authenticatorData :=
       blift (base64urlToBuffer (ac_authenticatorData credential)) in
     let! clientDataJSON :=
       blift (base64urlToBuffer (ac_clientDataJSON credential)) in
     bret {| pa_credentialId := ac_id credential;
             pa_signature := signature;
             pa_authenticatorData := authenticatorData;
             pa_clientDataJSON := clientDataJSON |})
    (fun error =>
       let! _ := in_world (console_error ["Passkey authentication failed:";
                                          err_message error]) in
       bthrow (Error_new ("Failed to authenticate with passkey: "
                          ++ err_message error))).

End Passkey.

Section LazorkitWallets.
Context `{Library}.
Local Open Scope browser_scope.

(** [localStorage.setItem(key, value)], where there is a [window]. *)
Definition localStorage_setItem (key value : string) : BM unit :=
  fun b =>
    match window b with
    | Some localStorage =>
        (Ok tt, with_window b (Some (<[key := value]> localStorage)))
    | None =>
        (Throw {| err_name := "ReferenceError";
                  err_message := "localStorage is not defined" |}, b)
    end.

(** [localStorage.getItem(key)], where there is a [window]. *)
Definition localStorage_getItem (key : string) : BM (option string) :=
  fun b =>
    match window b with
    | Some localStorage => (Ok (localStorage !! key), b)
    | None =>
        (Throw {| err_name := "ReferenceError";
                  err_message := "localStorage is not defined" |}, b)
    end.

Definition createLazorkitWallet (username : string) : BM LazorkitWallet :=
  btry_catch
    (let! _ := in_world (console_log ["Creating passkey credential..."]) in
     let! created := createPasskey username in
     let credentialId := pc_credentialId created in
     let publicKey := pc_publicKey created in
     let! _ := in_world (console_log ["Deriving wallet from passkey..."]) in
     let! wallet := blift (createWalletFromPasskey publicKey) in
     let keypair := w_keypair wallet in
     let address := w_address wallet in
     let walletPublicKey := w_publicKey wallet in
     let! _ := (fun b =>
                  (Ok tt, with_window b
                            (storeCredentialId credentialId (window b)))) in
     let! _ := (fun b =>
                  match window b with
                  | Some _ =>
                      (let! _ := localStorage_setItem "wallet_address"
                                   address in
                       localStorage_setItem "wallet_public_key"
                         walletPublicKey) b
                  | None => (Ok tt, b)
                  end) in
     let! _ := in_world (console_log ["Lazorkit wallet created:"; address]) in
     bret {| address := address;
             lw_publicKey := walletPublicKey;
             credentialId := credentialId;
             keypair := keypair |})
    (fun error =>
       let! _ := in_world (console_error ["Failed to create Lazorkit wallet:";
                                          err_message error]) in
       bthrow error).

Definition recoverLazorkitWallet : BM LazorkitWallet :=
  btry_catch
    (let! _ := in_world (console_log ["Authenticating with passkey..."]) in
     let! authenticated := authenticatePasskey in
     let credentialId := pa_credentialId authenticated in
     let! storedAddress :=
       (fun b =>
          match window b with
          | Some _ => localStorage_getItem "wallet_address" b
          | None => (Ok None, b)
          end) in
     match storedAddress with
     | Some storedAddress =>
         if truthy storedAddress then
           let! item := localStorage_getItem "wallet_public_key" in
           let storedPublicKey :=
             if truthy_item item then default "" item else "" in
           let! _ := in_world (console_log ["Wallet recovered:";
                                            storedAddress]) in
           let! fresh := in_world Keypair_generate in
           bret {| address := storedAddress;
                   lw_publicKey := storedPublicKey;
                   credentialId := credentialId;
                   keypair := fresh |}
         else bthrow (Error_new "No wallet found. Please create a new wallet.")
     | None => bthrow (Error_new "No wallet found. Please create a new wallet.")
     end)
    (fun error =>
       let! _ := in_world (console_error ["Failed to recover wallet:";
                                          err_message error]) in
       bthrow error).

End LazorkitWallets.

(** ** The wallet API route ([app/api/wallet/route.ts])

    A parsed JSON value.  The route never computes with a number: it only
    tests whether one is truthy, so the type of numbers is a parameter. *)

#[warnings="-register-all"]
Inductive json (number : Type) : Type :=
| JsonNull
| JsonBool (b : bool)
| JsonNumber (n : number)
| JsonString (s : string)
| JsonArray (items : list (json number))
| JsonObject (fields : gmap string (json number)).
Arguments JsonNull {number}.
Arguments JsonBool {number} b.
Arguments JsonNumber {number} n.
Arguments JsonString {number} s.
Arguments JsonArray {number} items.
Arguments JsonObject {number} fields.

(** What [NextResponse.json(payload, { status })] carries. *)
Record Response (number : Type) : Type := mkResponse {
  status : Z;
  payload : json number
}.
Arguments mkResponse {number} status payload.
Arguments status {number} r.
Arguments payload {number} r.

Section Route.
Context {number : Type} (number_truthy : number -> bool) `{Library}.
Local Open Scope js_scope.

(** [body.name], for a body that is not [null]: [None] is [undefined]. *)
Definition json_field (body : json number) (name : string)
  : option (json number) :=
  match body with
  | JsonObject fields => fields !! name
  | _ => None
  end.

(** Whether a value, or [undefined], is truthy. *)
Definition json_truthy (v : option (json number)) : bool :=
  match v with
  | None => false
  | Some JsonNull => false
  | Some (JsonBool b) => b
  | Some (JsonNumber n) => number_truthy n
  | Some (JsonString s) => truthy s
  | Some (JsonArray _) => true
  | Some (JsonObject _) => true
  end.

(** [NextResponse.json(payload)] *)
Definition respond (payload : json number) : Response number :=
  {| status := 200; payload := payload |}.

Definition handleGetSponsor : M (Response number) :=
  let! sponsorKey := getenv "LAZORKIT_SPONSOR_PRIVATE_KEY" in
  let demo :=
    let! demoSponsor := Keypair_generate in
    ret (respond
           (JsonObject
              {[ "sponsor" := JsonString (toBase58 (publicKey demoSponsor));
                 "isDemo" := JsonBool true ]})) in
  match sponsorKey with
  | Some key =>
      if truthy key && negb (String.eqb key sponsor_placeholder) then
        try_catch
          (let! secret := lift (bs58_decode key) in
           let! keypair := lift (Keypair_fromSecretKey secret) in
           ret (respond
                  (JsonObject
                     {[ "sponsor" :=
                          JsonString (toBase58 (publicKey keypair)) ]})))
          (fun error =>
             let! _ := console_error ["Invalid sponsor key"] in
             demo)
      else demo
  | None => demo
  end.

Definition handleValidateSession (body : json number) : Response number :=
  let credentialId := json_field body "credentialId" in
  let walletAddress := json_field body "walletAddress" in
  if negb (json_truthy credentialId) || negb (json_truthy walletAddress) then
    {| status := 400;
       payload := JsonObject {[ "valid" := JsonBool false;
                               "error" := JsonString "Missing credentials" ]} |}
  else
    respond (JsonObject
               (match walletAddress with
                | Some address =>
                    {[ "valid" := JsonBool true; "walletAddress" := address ]}
                | None => {[ "valid" := JsonBool true ]}
                end)).

(** The [TypeError] of destructuring [null]. *)
Definition TypeError_null : JsError :=
  {| err_name := "TypeError";
     err_message :=
       "Cannot destructure property 'action' of 'body' as it is null." |}.

(** [POST(request)], given what [request.json()] resolves to or throws. *)
Definition POST (parsed : result (json number)) : M (Response number) :=
  try_catch
    (let! body := lift parsed in
     let! action :=
       lift (match body with
             | JsonNull => Throw TypeError_null
             | _ => Ok (json_field body "action")
             end) in
     match action with
     | Some (JsonString name) =>
         if String.eqb name "get_sponsor" then handleGetSponsor
         else if String.eqb name "validate_session"
              then ret (handleValidateSession body)
              else ret {| status := 400;
                          payload :=
                            JsonObject
                              {[ "error" := JsonString "Invalid action" ]} |}
     | _ => ret {| status := 400;
                   payload :=
                     JsonObject
                       {[ "error" := JsonString "Invalid action" ]} |}
     end)
    (fun error =>
       let! _ := console_error ["API error:"; err_message error] in
       ret {| status := 500;
              payload :=
                JsonObject
                  {[ "error" := JsonString "Internal server error" ]} |}).

End Route.

(** ** Helpers for the statements *)

(** The input with bit [k] of its byte [j] flipped. *)
Definition flip_bit (b : Uint8Array) (j : nat) (k : Z) : Uint8Array :=
  match b !! j with
  | Some x => <[j := Z.lxor x (2 ^ k)]> b
  | None => b
  end.

(** The indices [0 .. n-1] as numbers. *)
Definition indices (n : nat) : list Z := map Z.of_nat (seq 0 n).

Definition text_bytes (s : string) : list Z := map cc (list_ascii_of_string s).

Definition bytes_text (l : list Z) : string :=
  string_of_list_ascii (map (fun x => ascii_of_N (Z.to_N x)) l).

(** The 6-bit values of a byte sequence, before they are written as
    characters. *)
Fixpoint b64_sextets (bs : list Z) : list Z :=
  match bs with
  | [] => []
  | [a] => [a / 4; a mod 4 * 16]
  | [a; b] => [a / 4; a mod 4 * 16 + b / 16; b mod 16 * 4]
  | a :: b :: c :: rest =>
      a / 4 :: (a mod 4 * 16 + b / 16) :: (b mod 16 * 4 + c / 64)
      :: c mod 64 :: b64_sextets rest
  end.

(** The number of [=] that pad the encoding of a byte sequence. *)
Fixpoint b64_padding (bs : list Z) : nat :=
  match bs with
  | [] => 0
  | [_] => 2
  | [_; _] => 1
  | _ :: _ :: _ :: rest => b64_padding rest
  end.

(** The URL-safe character of a 6-bit value. *)
Definition url_char (v : Z) : Z :=
  let c := b64_char v in
  let c := if c =? cc "+" then cc "-" else c in
  if c =? cc "/" then cc "_" else c.

(** A character of the URL-safe alphabet: a letter, a digit, [-] or [_]. *)
Definition is_url_safe (c : Z) : bool :=
  ((cc "A" <=? c) && (c <=? cc "Z"))
  || ((cc "a" <=? c) && (c <=? cc "z"))
  || ((cc "0" <=? c) && (c <=? cc "9"))
  || (c =? cc "-") || (c =? cc "_").

(** The session keys after a wallet has been stored. *)
Definition stored_session (credentialId address walletPublicKey : string)
           (win : option (gmap string string))
  : option (gmap string string) :=
  match win with
  | Some localStorage =>
      Some (<["wallet_public_key" := walletPublicKey]>
              (<["wallet_address" := address]>
                 (<["passkey_credential_id" := credentialId]> localStorage)))
  | None => None
  end.

(** The browser after a console line. *)
Definition with_line (b : Browser) (l : ConsoleLevel) (args : list string)
  : Browser :=
  with_world b
    (with_console (world b)
       (console (world b) ++ [{| level := l; printed := args |}])).

(** What [recoverLazorkitWallet] leaves when no wallet address is stored. *)
Definition no_wallet_found (b : Browser) : result LazorkitWallet * Browser :=
  (Throw (Error_new "No wallet found. Please create a new wallet."),
   with_line b ErrorLevel
     ["Failed to recover wallet:";
      "No wallet found. Please create a new wallet."]).

(** The bytes [crypto.getRandomValues] yields for an array of [n] bytes
    when [start] values have been drawn. *)
Definition random_bytes_at (b : Browser) (start n : nat) : list Z :=
  map (fun k => ToUint8 (random_values b (start + k)%nat)) (seq 0 n).

(** The relying-party strings, as the environment gives them. *)
Definition rp_name_of (b : Browser) : string :=
  match env (world b) !! "NEXT_PUBLIC_RP_NAME" with
  | Some s => if truthy s then s else "Lazorkit Passkey Demo"
  | None => "Lazorkit Passkey Demo"
  end.

Definition rp_id_of (b : Browser) : string :=
  match env (world b) !! "NEXT_PUBLIC_RP_ID" with
  | Some s => if truthy s then s else "localhost"
  | None => "localhost"
  end.

(** The options [createPasskey] hands to the authenticator. *)
Definition creation_options (username : string) (b : Browser)
  : CreationOptions :=
  {| co_challenge :=
       map url_char (b64_sextets (random_bytes_at b (random_drawn b) 32));
     co_rp_name := rp_name_of b;
     co_rp_id := rp_id_of b;
     co_user_id :=
       map url_char
         (b64_sextets (random_bytes_at b (random_drawn b + 32) 32));
     co_user_name := username;
     co_user_displayName := username;
     co_pubKeyCredParams := [(-7, "public-key"); (-257, "public-key")];
     co_timeout := 60000;
     co_attestation := "none";
     co_authenticatorAttachment := "platform";
     co_requireResidentKey := true;
     co_residentKey := "required";
     co_userVerification := "required" |}.

(** The options [authenticatePasskey] hands to the authenticator. *)
Definition request_options (b : Browser) : RequestOptions :=
  {| ro_challenge :=
       map url_char (b64_sextets (random_bytes_at b (random_drawn b) 32));
     ro_timeout := 60000;
     ro_rpId := rp_id_of b;
     ro_userVerification := "required" |}.

(** What the error handler of [createPasskey] leaves. *)
Definition passkey_failure {A} (prefix : string) (line : string)
           (cause : JsError) (b : Browser) : result A * Browser :=
  (Throw (Error_new (prefix ++ err_message cause)),
   with_line b ErrorLevel [line; err_message cause]).

(** A small library on which the statements are evaluated: the public key of
    a seed is the seed, text is encoded character by character, and signing
    fills the signer's slot. *)
Definition toy_fromSeed (seed : list Z) : result Keypair :=
  if bool_decide (length seed = 32%nat)
  then Ok {| publicKey := mkPublicKey seed; secretKey := seed ++ seed |}
  else Throw (Error_new "bad seed size").

Definition toy_fromSecretKey (sk : list Z) : result Keypair :=
  if bool_decide (length sk = 64%nat)
  then Ok {| publicKey := mkPublicKey (drop 32 sk); secretKey := sk |}
  else Throw (Error_new "bad secret key size").

Definition toy_PublicKey_new (s : string) : result PublicKey :=
  if String.eqb s "" then Throw (Error_new "Invalid public key input")
  else Ok (mkPublicKey (text_bytes s)).

Definition toy_partialSign (t : Transaction) (kp : Keypair)
  : result Transaction :=
  if existsb (PublicKey_eqb (publicKey kp)) (requiredSigners t)
  then Ok {| signatures :=
               signatures t ++ [{| signature := Some (secretKey kp);
                                   sig_publicKey := publicKey kp |}];
             feePayer := feePayer t; instructions := instructions t;
             recentBlockhash := recentBlockhash t |}
  else Throw (Error_new "unknown signer").

Definition toy_wire_bytes (t : Transaction) : list Z :=
  Z.of_nat (length (signatures t))
  :: flat_map (fun p => toBytes (sig_publicKey p)) (signatures t).

Lemma toy_fromSeed_32 (seed : list Z) :
  length seed = 32%nat -> exists kp, toy_fromSeed seed = Ok kp.
Proof.
  intros Hlen. unfold toy_fromSeed.
  rewrite bool_decide_eq_true_2 by exact Hlen. eauto.
Qed.

Definition toy_library : Library :=
  {| Keypair_fromSeed := toy_fromSeed;
     Keypair_fromSeed_32 := toy_fromSeed_32;
     Keypair_fromSecretKey := toy_fromSecretKey;
     PublicKey_new := toy_PublicKey_new;
     toBase58 := fun pk => bytes_text (toBytes pk);
     bs58_encode := bytes_text;
     bs58_decode := fun s => Ok (text_bytes s);
     Buffer_from_utf8 := text_bytes;
     partialSign := toy_partialSign;
     wire_bytes := toy_wire_bytes |}.

(** Worlds on which the statements are evaluated: the ledger answers every
    request, and the random keys are numbered. *)
Definition toy_key (n : nat) : Keypair :=
  {| publicKey := mkPublicKey (replicate 32 (65 + Z.of_nat n));
     secretKey := replicate 64 (65 + Z.of_nat n) |}.

Definition toy_world (sponsorKey : option string)
           (blockhash : option string) : World :=
  {| env := match sponsorKey with
            | Some k => {[ "LAZORKIT_SPONSOR_PRIVATE_KEY" := k ]}
            | None => ∅
            end;
     entropy := toy_key;
     drawn := 0;
     console := [];
     rpc_blockhash := Ok blockhash;
     rpc_send := fun _ => Ok "5VERv8NMvzbJMEkV8xnrLkEaWRtSz9CosKDYjCJjBRnb";
     rpc_confirm := fun _ => Ok tt;
     requests := [] |}.

(** The memo instruction the builder makes for a subject and a note. *)
Definition memo_instruction `{Library} (memoProgram subject : PublicKey)
           (memo : string) : TransactionInstruction :=
  {| keys := [{| pubkey := subject; isSigner := true; isWritable := false |}];
     programId := memoProgram;
     data := Buffer_from_utf8 memo |}.

Definition toy_memo_program : PublicKey :=
  mkPublicKey (text_bytes "MemoSq4gqABAXKb96qnH8TysNcWxMyWCqXgDLGmfcHr").

(** An envelope for subject [toy_key 1] and sponsor [toy_key 2], signed by
    the subject alone. *)
Definition toy_subject_signed : Transaction :=
  {| signatures := [{| signature := Some (secretKey (toy_key 1));
                       sig_publicKey := publicKey (toy_key 1) |}];
     feePayer := Some (publicKey (toy_key 2));
     instructions :=
       [@memo_instruction toy_library toy_memo_program
          (publicKey (toy_key 1)) "hello"];
     recentBlockhash := Some "H" |}.

(** An unsigned envelope for the same subject and sponsor in which a second
    instruction names a further signer, [toy_key 3]. *)
Definition toy_three_signers : Transaction :=
  {| signatures := [];
     feePayer := Some (publicKey (toy_key 2));
     instructions :=
       [@memo_instruction toy_library toy_memo_program
          (publicKey (toy_key 1)) "hello";
        @memo_instruction toy_library toy_memo_program
          (publicKey (toy_key 3)) "hello"];
     recentBlockhash := Some "H" |}.

(** The wallet of subject [toy_key 1]. *)
Definition toy_wallet : LazorkitWallet :=
  {| address := "BBBBBBBBBBBBBBBBBBBBBBBBBBBBBBBB";
     lw_publicKey := "BBBBBBBBBBBBBBBBBBBBBBBBBBBBBBBB";
     credentialId := "credential";
     keypair := toy_key 1 |}.

(** The secret that decodes to [toy_key 0]. *)
Definition toy_sponsor_secret : string :=
  "AAAAAAAAAAAAAAAAAAAAAAAAAAAAAAAAAAAAAAAAAAAAAAAAAAAAAAAAAAAAAAAA".

(** The answers of the route to a request it cannot serve. *)
Definition invalid_action {number : Type} : Response number :=
  {| status := 400;
     payload := JsonObject {[ "error" := JsonString "Invalid action" ]} |}.

Definition internal_error {number : Type} : Response number :=
  {| status := 500;
     payload :=
       JsonObject {[ "error" := JsonString "Internal server error" ]} |}.

(** The sponsor key that the configuration yields: the decoded secret, when
    one is set, is not the placeholder, and decodes. *)
Definition configured_sponsor `{Library} (w : World) : option Keypair :=
  match env w !! "LAZORKIT_SPONSOR_PRIVATE_KEY" with
  | Some key =>
      if truthy key && negb (String.eqb key sponsor_placeholder) then
        match result_bind (bs58_decode key) Keypair_fromSecretKey with
        | Ok kp => Some kp
        | Throw _ => None
        end
      else None
  | None => None
  end.

(** The sponsor secret is not configured: the variable is unset, empty, or
    holds the placeholder of the sample configuration. *)
Definition sponsor_unconfigured (w : World) : Prop :=
  env w !! "LAZORKIT_SPONSOR_PRIVATE_KEY" = None
  \/ env w !! "LAZORKIT_SPONSOR_PRIVATE_KEY" = Some ""
  \/ env w !! "LAZORKIT_SPONSOR_PRIVATE_KEY"
     = Some "your_base58_encoded_private_key_here".

(** What a caller can observe of a world besides the results returned to
    it: the console, the ledger's behaviour and the requests sent. *)
Definition same_outside (w1 w2 : World) : Prop :=
  console w1 = console w2
  /\ rpc_blockhash w1 = rpc_blockhash w2
  /\ rpc_send w1 = rpc_send w2
  /\ rpc_confirm w1 = rpc_confirm w2
  /\ requests w1 = requests w2.

(** Run in two worlds, the computation returns the same result and leaves
    the same observations. *)
Definition agree {A} (m : M A) (w1 w2 : World) : Prop :=
  (m w1).1 = (m w2).1 /\ same_outside (m w1).2 (m w2).2.

(** A computation that neither reads the environment variables nor draws
    random keys. *)
Definition oblivious {A} (m : M A) : Prop :=
  forall w1 w2, same_outside w1 w2 -> agree m w1 w2.

(** What the error handler leaves: the wrapped error and one console line. *)
Definition send_failure (cause : JsError) (w : World) : result string * World :=
  (Throw (Error_new ("Transaction failed: " ++ err_message cause)),
   with_console w
     (console w ++ [{| level := ErrorLevel;
                       printed := ["Transaction failed:";
                                   err_message cause] |}])).


(** A ledger that accepts a transaction and then fails to confirm it. *)
Definition toy_world_unconfirmed : World :=
  {| env := ∅;
     entropy := toy_key;
     drawn := 0;
     console := [];
     rpc_blockhash := Ok (Some "H");
     rpc_send := fun _ => Ok "5VERv8NMvzbJMEkV8xnrLkEaWRtSz9CosKDYjCJjBRnb";
     rpc_confirm := fun _ => Throw (Error_new "block height exceeded");
     requests := [] |}.

(** The envelope for subject [toy_key 1] and sponsor [toy_key 2], unsigned. *)
Definition toy_unsigned : Transaction :=
  {| signatures := [];
     feePayer := Some (publicKey (toy_key 2));
     instructions :=
       [@memo_instruction toy_library toy_memo_program
          (publicKey (toy_key 1)) "hello"];
     recentBlockhash := Some "H" |}.

(** An authenticator that answers every request, a random source and a
    storage on which the statements are evaluated. *)
Definition toy_registration : RegistrationCredential :=
  {| rc_id := "credential-1";
     rc_rawId := [65; 81; 73; 68];
     rc_publicKey := Some [65; 81; 73; 68] |}.

Definition toy_authentication : AuthenticationCredential :=
  {| ac_id := "credential-2";
     ac_signature := [65; 81; 73; 68];
     ac_authenticatorData := [65; 81; 73; 68];
     ac_clientDataJSON := [65; 81; 73; 68] |}.

Definition toy_browser (win : option (gmap string string)) : Browser :=
  {| world := toy_world None (Some "H");
     window := win;
     random_values := fun n => Z.of_nat n * 37;
     random_drawn := 0;
     startRegistration := fun _ => Ok toy_registration;
     startAuthentication := fun _ => Ok toy_authentication |}.

(** An authenticator whose registration response carries no public key. *)
Definition toy_browser_no_key : Browser :=
  {| world := toy_world None (Some "H");
     window := Some ∅;
     random_values := fun n => Z.of_nat n * 37;
     random_drawn := 0;
     startRegistration :=
       fun _ => Ok {| rc_id := "credential-1";
                      rc_rawId := [65; 81; 73; 68];
                      rc_publicKey := None |};
     startAuthentication := fun _ => Ok toy_authentication |}.

(** A validation request that names a credential and an address of which
    the server knows nothing. *)
Definition toy_validation_request : gmap string (json Z) :=
  {[ "action" := JsonString "validate_session";
     "credentialId" := JsonString "no-such-credential";
     "walletAddress" := JsonString "not-an-address" ]}.

(** A storage that holds a wallet address and nothing else. *)
Definition toy_storage : gmap string string :=
  {[ "wallet_address" := "BBBBBBBBBBBBBBBBBBBBBBBBBBBBBBBB" ]}.

(** An authenticator that refuses to register. *)
Definition toy_browser_refusing : Browser :=
  {| world := toy_world None (Some "H");
     window := Some toy_storage;
     random_values := fun n => Z.of_nat n * 37;
     random_drawn := 0;
     startRegistration :=
       fun _ => Throw {| err_name := "NotAllowedError";
                         err_message := "The operation was not allowed" |};
     startAuthentication := fun _ => Ok toy_authentication |}.

(** * Properties *)

(** ** Numbers *)

Lemma ToInt32_small (x : Z) : 0 <= x < 2 ^ 31 -> ToInt32 x = x.
Proof.
  intros Hx. unfold ToInt32.
  rewrite Z.mod_small by lia.
  destruct (Z.leb_spec (2 ^ 31) x); lia.
Qed.

Lemma lxor_u8 (x y : Z) :
  0 <= x < 256 -> 0 <= y < 256 -> 0 <= Z.lxor x y < 256.
Proof.
  intros Hx Hy.
  assert (Hnn : 0 <= Z.lxor x y) by (apply Z.lxor_nonneg; lia).
  split; [exact Hnn |].
  destruct (Z.eq_dec (Z.lxor x y) 0) as [-> | Hne]; [lia |].
  change 256 with (2 ^ 8).
  apply Z.log2_lt_pow2; [lia |].
  pose proof (Z.log2_lxor x y ltac:(lia) ltac:(lia)) as Hlog.
  assert (Hlx : Z.log2 x < 8).
  { destruct (Z.eq_dec x 0) as [-> | ?]; [reflexivity |].
    apply Z.log2_lt_pow2; lia. }
  assert (Hly : Z.log2 y < 8).
  { destruct (Z.eq_dec y 0) as [-> | ?]; [reflexivity |].
    apply Z.log2_lt_pow2; lia. }
  lia.
Qed.

Lemma lxor_cancel_r (a b c : Z) : Z.lxor a c = Z.lxor b c -> a = b.
Proof.
  intros Heq.
  apply Z.lxor_eq.
  rewrite <- (Z.lxor_0_r (Z.lxor a b)), <- (Z.lxor_nilpotent c).
  rewrite Z.lxor_assoc, <- (Z.lxor_assoc b c c), <- Heq.
  rewrite (Z.lxor_assoc a c c), Z.lxor_nilpotent, Z.lxor_0_r.
  apply Z.lxor_nilpotent.
Qed.

Lemma u8_arrayb_spec (a : list Z) : u8_arrayb a = true -> u8_array a.
Proof.
  unfold u8_arrayb, u8_array, is_u8. rewrite forallb_forall, Forall_forall.
  intros Hall x Hx. apply list_elem_of_In in Hx. specialize (Hall x Hx).
  apply andb_true_iff in Hall as [Hlo Hhi].
  apply Z.leb_le in Hlo. apply Z.ltb_lt in Hhi. lia.
Qed.

Lemma u8_array_lookup (a : list Z) (i : nat) (x : Z) :
  u8_array a -> a !! i = Some x -> 0 <= x < 256.
Proof.
  intros Ha Hi. unfold u8_array in Ha.
  rewrite Forall_forall in Ha. apply Ha.
  apply list_elem_of_lookup. eauto.
Qed.

(** ** Loops that fill an array *)

(** A loop whose body stores [f i] at index [i], started at index [k] with
    [n] iterations left, overwrites exactly the cells [k .. k+n-1]. *)
Lemma for_loop_fill (body : list Z -> Z -> list Z) (f : Z -> Z) (n : nat) :
  (forall a k, body a (Z.of_nat k) = <[k := f (Z.of_nat k)]> a) ->
  forall (k : nat) (a : list Z),
    (k + n <= length a)%nat ->
    for_loop body n (Z.of_nat k) a =
    take k a ++ map f (map Z.of_nat (seq k n)) ++ drop (k + n) a.
Proof.
  intros Hbody.
  induction n as [| n IH]; intros k a Hlen.
  - cbn [for_loop seq map]. rewrite Nat.add_0_r.
    now rewrite app_nil_l, take_drop.
  - cbn [for_loop seq map].
    replace (Z.of_nat k + 1) with (Z.of_nat (S k)) by lia.
    rewrite Hbody, IH by (rewrite length_insert; lia).
    rewrite drop_insert_lt by lia.
    replace (S k + n)%nat with (k + S n)%nat by lia.
    rewrite (take_S_r _ k (f (Z.of_nat k))).
    + rewrite take_insert_ge by lia. now rewrite <- app_assoc.
    + apply list_lookup_insert_eq. lia.
Qed.

Lemma for_loop_fill_all (body : list Z -> Z -> list Z) (f : Z -> Z) (n : nat) :
  (forall a k, body a (Z.of_nat k) = <[k := f (Z.of_nat k)]> a) ->
  for_loop body n 0 (Uint8Array_new n) = map f (map Z.of_nat (seq 0 n)).
Proof.
  intros Hbody. change 0 with (Z.of_nat 0).
  rewrite (for_loop_fill body f n Hbody)
    by (unfold Uint8Array_new; rewrite length_replicate; lia).
  rewrite take_0, app_nil_l.
  rewrite drop_ge by (unfold Uint8Array_new; rewrite length_replicate; lia).
  apply app_nil_r.
Qed.

(** ** The derivation loop *)

Section KeyDeriverFacts.
Context `{Library}.

Lemma derive_step_insert (b seed : list Z) (k : nat) :
  derive_step b seed (Z.of_nat k) = <[k := derive_byte b (Z.of_nat k)]> seed.
Proof.
  unfold derive_step, ua_set, derive_byte.
  destruct (Z.ltb_spec (Z.of_nat k) 0); [lia |].
  now rewrite Nat2Z.id.
Qed.

Lemma derive_seed_map (b : list Z) :
  derive_seed b = map (derive_byte b) (indices 32).
Proof.
  unfold derive_seed, indices.
  apply for_loop_fill_all. intros a k. apply derive_step_insert.
Qed.

Lemma derive_seed_length (b : list Z) : length (derive_seed b) = 32%nat.
Proof. rewrite derive_seed_map. reflexivity. Qed.

Lemma derive_seed_lookup (b : list Z) (i : Z) :
  0 <= i < 32 -> derive_seed b !! Z.to_nat i = Some (derive_byte b i).
Proof.
  intros Hi. rewrite derive_seed_map. unfold indices.
  rewrite !list_lookup_fmap.
  rewrite lookup_seq_lt by lia. cbn.
  f_equal. f_equal. lia.
Qed.

(** On a non-empty array of bytes the stored value is the plain XOR. *)
Lemma derive_byte_nonempty (b : list Z) (i : Z) :
  b <> [] -> u8_array b -> 0 <= i < 32 ->
  exists x, b !! Z.to_nat (i mod Z.of_nat (length b)) = Some x
            /\ derive_byte b i = Z.lxor x (i * 7).
Proof.
  intros Hne Hb Hi.
  assert (Hlen : 0 < Z.of_nat (length b)).
  { destruct b; [congruence | cbn [length]; lia]. }
  pose proof (Z.mod_pos_bound i _ Hlen) as Hmod.
  destruct (lookup_lt_is_Some_2 b (Z.to_nat (i mod Z.of_nat (length b))))
    as [x Hx]; [lia |].
  exists x. split; [exact Hx |].
  pose proof (u8_array_lookup _ _ _ Hb Hx) as Hx8.
  unfold derive_byte, js_rem, ua_length, ua_get.
  destruct (Z.eqb_spec (Z.of_nat (length b)) 0); [lia |].
  rewrite Z.rem_mod_nonneg by lia.
  destruct (Z.ltb_spec (i mod Z.of_nat (length b)) 0); [lia |].
  rewrite Hx. unfold js_xor, jsval_ToInt32.
  rewrite !ToInt32_small by lia.
  unfold ToUint8. apply Z.mod_small.
  apply lxor_u8; lia.
Qed.

(** On the empty array the index is [NaN], the read is [undefined], and
    the stored value is [i * 7]. *)
Lemma derive_byte_empty (i : Z) : 0 <= i < 32 -> derive_byte [] i = i * 7.
Proof.
  intros Hi. unfold derive_byte, js_rem, ua_length, ua_get. cbn.
  unfold js_xor, jsval_ToInt32. rewrite ToInt32_small by lia.
  rewrite Z.lxor_0_l. unfold ToUint8. apply Z.mod_small. lia.
Qed.

End KeyDeriverFacts.

Lemma indices_range (n : nat) (x : Z) :
  In x (indices n) -> 0 <= x < Z.of_nat n.
Proof.
  unfold indices. rewrite in_map_iff. intros (m & <- & Hm).
  apply in_seq in Hm. lia.
Qed.

(** When the input has at least 32 bytes the loop reads byte [i] itself. *)
Lemma derive_byte_long (b : list Z) (i : Z) :
  0 <= i < 32 -> (32 <= length b)%nat ->
  derive_byte b i =
  ToUint8 (js_xor (match b !! Z.to_nat i with
                   | Some x => JNum x
                   | None => JUndefined
                   end) (JNum (i * 7))).
Proof.
  intros Hi Hlen. unfold derive_byte, js_rem, ua_length, ua_get.
  destruct (Z.eqb_spec (Z.of_nat (length b)) 0); [lia |].
  rewrite Z.rem_small by lia.
  destruct (Z.ltb_spec i 0); [lia | reflexivity].
Qed.

Lemma pow2_u8 (k : Z) : 0 <= k < 8 -> 0 < 2 ^ k < 256.
Proof.
  intros Hk. split; [apply Z.pow_pos_nonneg; lia |].
  change 256 with (2 ^ 8). apply Z.pow_lt_mono_r; lia.
Qed.

Lemma flip_bit_u8 (b : list Z) (j : nat) (k : Z) :
  u8_array b -> 0 <= k < 8 -> u8_array (flip_bit b j k).
Proof.
  intros Hb Hk. unfold flip_bit.
  destruct (b !! j) as [x |] eqn:Hx; [| exact Hb].
  unfold u8_array. apply Forall_insert; [exact Hb |].
  pose proof (u8_array_lookup _ _ _ Hb Hx).
  pose proof (pow2_u8 k Hk).
  apply lxor_u8; lia.
Qed.

(** ** Claims on the key derivation *)

(** C1: for a non-empty array of bytes the seed has exactly 32 bytes, byte
    [i] is [b[i mod len(b)] XOR (i * 7)], the call does not fail (also when
    [len(b) = 1]), and the keypair is the ledger's expansion of that seed. *)
Theorem derive_seed_spec `{Library} (b : list Z) :
  b <> [] -> u8_array b ->
  length (derive_seed b) = 32%nat
  /\ u8_array (derive_seed b)
  /\ (forall i, 0 <= i < 32 ->
        exists x, b !! Z.to_nat (i mod Z.of_nat (length b)) = Some x
                  /\ derive_seed b !! Z.to_nat i = Some (Z.lxor x (i * 7)))
  /\ exists kp, deriveKeypairFromPasskey b = Ok kp
                /\ Keypair_fromSeed (derive_seed b) = Ok kp.
Proof.
  intros Hne Hb.
  assert (Hbytes : forall i, 0 <= i < 32 ->
            exists x, b !! Z.to_nat (i mod Z.of_nat (length b)) = Some x
                      /\ derive_seed b !! Z.to_nat i = Some (Z.lxor x (i * 7))).
  { intros i Hi.
    destruct (derive_byte_nonempty b i Hne Hb Hi) as (x & Hx & Hbyte).
    exists x. split; [exact Hx |].
    now rewrite derive_seed_lookup, Hbyte. }
  split; [apply derive_seed_length |].
  split.
  { unfold u8_array. rewrite derive_seed_map. apply Forall_forall.
    intros y Hy. apply list_elem_of_In, in_map_iff in Hy.
    destruct Hy as (i & <- & Hi). apply indices_range in Hi.
    destruct (derive_byte_nonempty b i Hne Hb ltac:(lia)) as (x & Hx & ->).
    pose proof (u8_array_lookup _ _ _ Hb Hx).
    apply lxor_u8; lia. }
  split; [exact Hbytes |].
  destruct (Keypair_fromSeed_32 (derive_seed b) (derive_seed_length b))
    as [kp Hkp].
  exists kp. unfold deriveKeypairFromPasskey. rewrite Hkp. split; reflexivity.
Qed.

Lemma derive_seed_spec_witness :
  length (derive_seed [255]) = 32%nat
  /\ u8_array (derive_seed [255])
  /\ (forall i, 0 <= i < 32 ->
        exists x, [255] !! Z.to_nat (i mod Z.of_nat (length [255])) = Some x
                  /\ derive_seed [255] !! Z.to_nat i = Some (Z.lxor x (i * 7)))
  /\ exists kp, @deriveKeypairFromPasskey toy_library [255] = Ok kp
                /\ @Keypair_fromSeed toy_library (derive_seed [255]) = Ok kp.
Proof.
  apply (@derive_seed_spec toy_library [255]).
  - discriminate.
  - apply u8_arrayb_spec. reflexivity.
Defined.

(** C2: the derivation is deterministic: inputs with the same bytes yield
    the same seed, keypair and address, whatever the state of the
    environment, which the call leaves untouched. *)
Theorem derive_deterministic `{Library} (b1 b2 : list Z) (w1 w2 : World) :
  (forall i : nat, b1 !! i = b2 !! i) ->
  derive_seed b1 = derive_seed b2
  /\ deriveKeypairFromPasskey b1 = deriveKeypairFromPasskey b2
  /\ createWalletFromPasskey b1 = createWalletFromPasskey b2
  /\ (lift (createWalletFromPasskey b1) w1).1
     = (lift (createWalletFromPasskey b2) w2).1
  /\ (lift (createWalletFromPasskey b1) w1).2 = w1.
Proof.
  intros Hbytes.
  assert (b1 = b2) as -> by (apply list_eq; exact Hbytes).
  repeat split.
Qed.

Lemma derive_deterministic_witness :
  derive_seed [1; 2; 3] = derive_seed [1; 2; 3]
  /\ @deriveKeypairFromPasskey toy_library [1; 2; 3]
     = @deriveKeypairFromPasskey toy_library [1; 2; 3]
  /\ @createWalletFromPasskey toy_library [1; 2; 3]
     = @createWalletFromPasskey toy_library [1; 2; 3]
  /\ (lift (@createWalletFromPasskey toy_library [1; 2; 3])
        (toy_world None (Some "H"))).1
     = (lift (@createWalletFromPasskey toy_library [1; 2; 3])
          (toy_world (Some toy_sponsor_secret) None)).1
  /\ (lift (@createWalletFromPasskey toy_library [1; 2; 3])
        (toy_world None (Some "H"))).2
     = toy_world None (Some "H").
Proof.
  apply (@derive_deterministic toy_library [1; 2; 3] [1; 2; 3]
           (toy_world None (Some "H"))
           (toy_world (Some toy_sponsor_secret) None)).
  intros i. reflexivity.
Defined.

(** C4, as the code has it: the derivation never fails, the empty input
    included; on the empty input the index is [NaN], the read is
    [undefined], and byte [i] of the seed is [i * 7]. *)
Theorem derive_total `{Library} (b : list Z) :
  (exists kp, deriveKeypairFromPasskey b = Ok kp
              /\ Keypair_fromSeed (derive_seed b) = Ok kp)
  /\ derive_seed [] = map (fun i => i * 7) (indices 32).
Proof.
  split.
  - destruct (Keypair_fromSeed_32 (derive_seed b) (derive_seed_length b))
      as [kp Hkp].
    exists kp. unfold deriveKeypairFromPasskey. rewrite Hkp. split; reflexivity.
  - rewrite derive_seed_map. apply map_ext_in.
    intros i Hi. apply indices_range in Hi.
    apply derive_byte_empty. lia.
Qed.

(** C4, counterexample: on the empty input the derivation returns a keypair,
    expanded from the seed [0, 7, 14, ..., 217]. *)
Lemma derive_empty_succeeds :
  derive_seed [] =
    [0; 7; 14; 21; 28; 35; 42; 49; 56; 63; 70; 77; 84; 91; 98; 105; 112;
     119; 126; 133; 140; 147; 154; 161; 168; 175; 182; 189; 196; 203; 210;
     217]
  /\ (forall L : Library,
        exists kp, @deriveKeypairFromPasskey L [] = Ok kp)
  /\ exists kp, @deriveKeypairFromPasskey toy_library [] = Ok kp
                /\ toBytes (publicKey kp) = derive_seed [].
Proof.
  split; [reflexivity |]. split.
  - intros L.
    destruct (@Keypair_fromSeed_32 L (derive_seed []) (derive_seed_length []))
      as [kp Hkp].
    exists kp. unfold deriveKeypairFromPasskey. now rewrite Hkp.
  - eexists. split; reflexivity.
Qed.

(** C7, as the code has it: flipping a bit in one of the first 32 bytes of
    the input changes the seed at that byte's position. *)
Theorem derive_flip_in_prefix (b : list Z) (j : nat) (k : Z) :
  u8_array b -> (j < length b)%nat -> (j < 32)%nat -> 0 <= k < 8 ->
  derive_seed (flip_bit b j k) !! j <> derive_seed b !! j
  /\ derive_seed (flip_bit b j k) <> derive_seed b.
Proof.
  intros Hb Hj Hj32 Hk.
  assert (Hat : derive_seed (flip_bit b j k) !! j <> derive_seed b !! j).
  { pose proof (flip_bit_u8 b j k Hb Hk) as Hb'.
    destruct (lookup_lt_is_Some_2 b j Hj) as [x Hx].
    assert (Hflip : flip_bit b j k = <[j := Z.lxor x (2 ^ k)]> b)
      by (unfold flip_bit; now rewrite Hx).
    assert (Hlen : length (flip_bit b j k) = length b)
      by (rewrite Hflip; apply length_insert).
    assert (Hmod : Z.to_nat (Z.of_nat j mod Z.of_nat (length b)) = j)
      by (rewrite Z.mod_small by lia; apply Nat2Z.id).
    assert (Hne : b <> []) by (destruct b; [cbn in Hj; lia | discriminate]).
    assert (Hne' : flip_bit b j k <> [])
      by (destruct (flip_bit b j k); [cbn in Hlen; lia | discriminate]).
    destruct (derive_byte_nonempty b (Z.of_nat j) Hne Hb ltac:(lia))
      as (y & Hy & Hbyte).
    destruct (derive_byte_nonempty _ (Z.of_nat j) Hne' Hb' ltac:(lia))
      as (y' & Hy' & Hbyte').
    rewrite Hlen in Hy'. rewrite Hmod in Hy, Hy'.
    rewrite Hflip in Hy'. rewrite list_lookup_insert_eq in Hy' by lia.
    assert (y = x) as -> by congruence.
    assert (y' = Z.lxor x (2 ^ k)) as -> by congruence.
    pose proof (derive_seed_lookup b (Z.of_nat j) ltac:(lia)) as Hs.
    pose proof (derive_seed_lookup (flip_bit b j k) (Z.of_nat j) ltac:(lia))
      as Hs'.
    rewrite Nat2Z.id in Hs, Hs'. rewrite Hs, Hs', Hbyte, Hbyte'.
    intros Heq. injection Heq as Heq.
    apply lxor_cancel_r in Heq.
    rewrite <- (Z.lxor_0_r x) in Heq at 2.
    rewrite !(Z.lxor_comm x) in Heq. apply lxor_cancel_r in Heq.
    pose proof (pow2_u8 k Hk). lia. }
  split; [exact Hat |]. intros Heq. apply Hat. now rewrite Heq.
Qed.

Lemma derive_flip_in_prefix_witness :
  derive_seed (flip_bit [1; 2; 3] 1 7) !! 1%nat <> derive_seed [1; 2; 3] !! 1%nat
  /\ derive_seed (flip_bit [1; 2; 3] 1 7) <> derive_seed [1; 2; 3].
Proof.
  apply (derive_flip_in_prefix [1; 2; 3] 1 7).
  - apply u8_arrayb_spec. reflexivity.
  - cbn; lia.
  - lia.
  - lia.
Defined.

(** C7, counterexample: in an input of 33 bytes, flipping bit 0 of the last
    byte changes the input and leaves the seed as it was. *)
Lemma derive_flip_beyond_prefix_unseen :
  replicate 33 0 <> []
  /\ u8_array (replicate 33 0)
  /\ flip_bit (replicate 33 0) 32 0 = replicate 32 0 ++ [1]
  /\ flip_bit (replicate 33 0) 32 0 <> replicate 33 0
  /\ derive_seed (flip_bit (replicate 33 0) 32 0)
     = derive_seed (replicate 33 0).
Proof.
  split; [discriminate |].
  split; [apply u8_arrayb_spec; reflexivity |].
  split; [reflexivity |].
  split; [| reflexivity].
  intros Heq. apply (f_equal (fun l => l !! 32%nat)) in Heq.
  vm_compute in Heq. discriminate.
Qed.

(** C9: two inputs of at least 32 bytes that agree on their first 32 bytes
    yield the same seed, keypair and address. *)
Theorem derive_ignores_tail `{Library} (b1 b2 : list Z) :
  (32 <= length b1)%nat -> (32 <= length b2)%nat ->
  take 32 b1 = take 32 b2 ->
  derive_seed b1 = derive_seed b2
  /\ deriveKeypairFromPasskey b1 = deriveKeypairFromPasskey b2
  /\ createWalletFromPasskey b1 = createWalletFromPasskey b2.
Proof.
  intros Hl1 Hl2 Htake.
  assert (Hseed : derive_seed b1 = derive_seed b2).
  { rewrite !derive_seed_map. apply map_ext_in.
    intros i Hi. apply indices_range in Hi.
    rewrite !derive_byte_long by lia.
    assert (Hlk : b1 !! Z.to_nat i = b2 !! Z.to_nat i).
    { rewrite <- (lookup_take_lt b1 32 (Z.to_nat i)) by lia.
      rewrite <- (lookup_take_lt b2 32 (Z.to_nat i)) by lia.
      now rewrite Htake. }
    now rewrite Hlk. }
  assert (Hkp : deriveKeypairFromPasskey b1 = deriveKeypairFromPasskey b2)
    by (unfold deriveKeypairFromPasskey; now rewrite Hseed).
  split; [exact Hseed |]. split; [exact Hkp |].
  unfold createWalletFromPasskey. now rewrite Hkp.
Qed.

Lemma derive_ignores_tail_witness :
  derive_seed (replicate 32 9 ++ [1; 2]) = derive_seed (replicate 32 9 ++ [77])
  /\ @deriveKeypairFromPasskey toy_library (replicate 32 9 ++ [1; 2])
     = @deriveKeypairFromPasskey toy_library (replicate 32 9 ++ [77])
  /\ @createWalletFromPasskey toy_library (replicate 32 9 ++ [1; 2])
     = @createWalletFromPasskey toy_library (replicate 32 9 ++ [77]).
Proof.
  apply (@derive_ignores_tail toy_library).
  - cbn; lia.
  - cbn; lia.
  - reflexivity.
Defined.

(** ** The base64url codec *)

Lemma list_ind3 {A} (P : list A -> Prop) :
  P [] -> (forall a, P [a]) -> (forall a b, P [a; b]) ->
  (forall a b c l, P l -> P (a :: b :: c :: l)) ->
  forall l, P l.
Proof.
  intros H0 H1 H2 H3. fix IH 1.
  intros [| a [| b [| c l]]]; [exact H0 | apply H1 | apply H2 |].
  apply H3, IH.
Qed.

(** Replace the character codes the codec names by their values. *)
Ltac cc_norm :=
  repeat match goal with
         | |- context [cc ?c] =>
             let v := eval vm_compute in (cc c) in change (cc c) with v
         end.

Ltac zbool :=
  repeat match goal with
         | |- context [?a <? ?b] => destruct (Z.ltb_spec a b)
         | |- context [?a <=? ?b] => destruct (Z.leb_spec a b)
         | |- context [?a =? ?b] => destruct (Z.eqb_spec a b)
         | H : context [?a <? ?b] |- _ => destruct (Z.ltb_spec a b)
         | H : context [?a <=? ?b] |- _ => destruct (Z.leb_spec a b)
         | H : context [?a =? ?b] |- _ => destruct (Z.eqb_spec a b)
         end.

Lemma b64_value_char (v : Z) : 0 <= v < 64 -> b64_value (b64_char v) = Some v.
Proof.
  intros Hv. unfold b64_value, b64_char. cc_norm.
  zbool; cbn [andb]; try lia; f_equal; lia.
Qed.

(** A character of the alphabet is none of the characters the codec
    rewrites, strips or skips. *)
Lemma b64_char_plain (v : Z) :
  0 <= v < 64 ->
  b64_char v <> 61 /\ b64_char v <> 45 /\ b64_char v <> 95
  /\ 0 <= b64_char v <= 255 /\ is_ascii_whitespace (b64_char v) = false.
Proof.
  intros Hv. unfold is_ascii_whitespace, b64_char. cc_norm.
  zbool; cbn [orb]; repeat split; lia.
Qed.

Lemma u8_array_cons (x : Z) (l : list Z) :
  u8_array (x :: l) <-> 0 <= x < 256 /\ u8_array l.
Proof. unfold u8_array. apply (Forall_cons (fun y => 0 <= y < 256)). Qed.

(** The encoding is the characters of the 6-bit values followed by the
    padding. *)
Lemma b64_encode_split (bs : list Z) :
  b64_encode bs =
  map b64_char (b64_sextets bs) ++ replicate (b64_padding bs) (cc "=").
Proof.
  induction bs as [| a | a b | a b c l IH] using list_ind3;
    try reflexivity.
  cbn [b64_encode b64_sextets b64_padding map app]. now rewrite IH.
Qed.

Lemma b64_sextets_range (bs : list Z) :
  u8_array bs -> Forall (fun v => 0 <= v < 64) (b64_sextets bs).
Proof.
  induction bs as [| a | a b | a b c l IH] using list_ind3;
    rewrite ?u8_array_cons; cbn [b64_sextets].
  - constructor.
  - intros (Ha & _). repeat constructor; Z.div_mod_to_equations; lia.
  - intros (Ha & Hb & _). repeat constructor; Z.div_mod_to_equations; lia.
  - intros (Ha & Hb & Hc & Hl).
    repeat (constructor; [Z.div_mod_to_equations; lia |]).
    apply IH, Hl.
Qed.

(** Regrouping the 6-bit values gives the bytes back. *)
Lemma b64_bytes_sextets (bs : list Z) :
  u8_array bs -> b64_bytes (b64_sextets bs) = bs.
Proof.
  induction bs as [| a | a b | a b c l IH] using list_ind3;
    rewrite ?u8_array_cons; cbn [b64_sextets b64_bytes].
  - reflexivity.
  - intros (Ha & _). f_equal. Z.div_mod_to_equations. lia.
  - intros (Ha & Hb & _). f_equal; [| f_equal]; Z.div_mod_to_equations; lia.
  - intros (Ha & Hb & Hc & Hl). rewrite (IH Hl).
    f_equal; [| f_equal; [| f_equal]]; Z.div_mod_to_equations; lia.
Qed.

Lemma b64_values_chars (vs : list Z) :
  Forall (fun v => 0 <= v < 64) vs -> b64_values (map b64_char vs) = Some vs.
Proof.
  induction 1 as [| v vs Hv _ IH]; [reflexivity |].
  cbn [map b64_values]. now rewrite (b64_value_char v Hv), IH.
Qed.

(** The length of an encoding is a multiple of four, of which at most two
    characters are padding. *)
Lemma b64_shape (bs : list Z) :
  (b64_padding bs <= 2)%nat
  /\ exists n, (length (b64_sextets bs) + b64_padding bs = 4 * n)%nat.
Proof.
  induction bs as [| a | a b | a b c l IH] using list_ind3;
    cbn [b64_sextets b64_padding length].
  - split; [lia | exists 0%nat; lia].
  - split; [lia | exists 1%nat; lia].
  - split; [lia | exists 1%nat; lia].
  - destruct IH as (Hp & n & Hn). split; [exact Hp | exists (S n); lia].
Qed.

(** *** The string operations *)

Lemma replace_all_one (c d : Z) (s : list Z) :
  replace_all c [d] s = map (fun x => if x =? c then d else x) s.
Proof.
  unfold replace_all. induction s as [| x s IH]; [reflexivity |].
  cbn [flat_map map]. rewrite IH. now destruct (x =? c).
Qed.

Lemma replace_all_none (c : Z) (s : list Z) :
  replace_all c [] s = List.filter (fun x => negb (x =? c)) s.
Proof.
  unfold replace_all. induction s as [| x s IH]; [reflexivity |].
  cbn [flat_map List.filter]. rewrite IH. now destruct (x =? c).
Qed.

Lemma filter_all {A} (p : A -> bool) (l : list A) :
  Forall (fun x => p x = true) l -> List.filter p l = l.
Proof.
  induction 1 as [| x l Hx _ IH]; [reflexivity |].
  cbn [List.filter]. now rewrite Hx, IH.
Qed.

Lemma filter_none {A} (p : A -> bool) (l : list A) :
  Forall (fun x => p x = false) l -> List.filter p l = [].
Proof.
  induction 1 as [| x l Hx _ IH]; [reflexivity |].
  cbn [List.filter]. now rewrite Hx, IH.
Qed.

(** Stripping the padding of a padded string of alphabet characters. *)
Lemma strip_padding_app (body : list Z) (p : nat) :
  Forall (fun c => c <> cc "=") body -> (p <= 2)%nat ->
  strip_padding (body ++ replicate p (cc "=")) = body.
Proof.
  intros Hbody Hp. unfold strip_padding.
  assert (Hrev : Forall (fun c => c <> cc "=") (rev body))
    by (apply Forall_rev; exact Hbody).
  destruct p as [| [| [| p]]]; [| | | lia]; cbn [replicate].
  - rewrite app_nil_r.
    destruct (rev body) as [| c1 r1] eqn:Hr; [reflexivity |].
    apply Forall_cons in Hrev as [Hc1 _].
    destruct (Z.eqb_spec c1 (cc "=")); [contradiction | reflexivity].
  - rewrite rev_app_distr. cbn [rev app]. rewrite Z.eqb_refl.
    destruct (rev body) as [| c2 r2] eqn:Hr.
    + apply (f_equal (@rev Z)) in Hr. rewrite rev_involutive in Hr.
      now rewrite Hr.
    + apply Forall_cons in Hrev as [Hc2 _].
      destruct (Z.eqb_spec c2 (cc "=")); [contradiction |].
      rewrite <- Hr. apply rev_involutive.
  - rewrite rev_app_distr. cbn [rev app]. rewrite !Z.eqb_refl.
    apply rev_involutive.
Qed.

(** *** Encoding *)

Lemma String_fromCharCode_bytes (b : list Z) :
  u8_array b -> String_fromCharCode b = b.
Proof.
  intros Hb. unfold String_fromCharCode.
  rewrite <- (map_id b) at 2. apply map_ext_Forall.
  eapply Forall_impl; [exact Hb |]. cbn. intros x Hx.
  apply Z.mod_small. lia.
Qed.

Lemma btoa_bytes (b : list Z) : u8_array b -> btoa b = Ok (b64_encode b).
Proof.
  intros Hb. unfold btoa.
  replace (forallb (fun c => c <=? 255) b) with true; [reflexivity |].
  symmetry. apply forallb_forall. intros x Hx.
  apply list_elem_of_In in Hx.
  unfold u8_array in Hb. rewrite Forall_forall in Hb.
  apply Hb in Hx. apply Z.leb_le. lia.
Qed.

(** The URL-safe form of an encoding: its alphabet characters with [+] and
    [/] rewritten, its padding gone. *)
Lemma url_safe_encoding (b : list Z) :
  u8_array b ->
  replace_all (cc "=") []
    (replace_all (cc "/") [cc "_"]
       (replace_all (cc "+") [cc "-"] (b64_encode b)))
  = map (fun v => let c := b64_char v in
                  let c := if c =? cc "+" then cc "-" else c in
                  if c =? cc "/" then cc "_" else c)
        (b64_sextets b).
Proof.
  intros Hb. pose proof (b64_sextets_range b Hb) as Hrange.
  rewrite b64_encode_split, !replace_all_one, replace_all_none.
  rewrite !map_app, List.filter_app, !map_map.
  rewrite filter_all, filter_none.
  - apply app_nil_r.
  - rewrite !List.Forall_map. apply Forall_forall. intros x Hx.
    apply elem_of_replicate in Hx as [-> _]. reflexivity.
  - rewrite List.Forall_map. eapply Forall_impl; [exact Hrange |].
    cbn. intros v Hv.
    destruct (b64_char_plain v Hv) as (H61 & H45 & H95 & _).
    revert H61 H45 H95. cc_norm. intros. zbool; cbn; lia.
Qed.

(** *** Decoding *)

(** Undoing the URL-safe rewriting on a character of the alphabet. *)
Lemma url_safe_char_back (v : Z) :
  0 <= v < 64 ->
  (let c := (let c := b64_char v in
             let c := if c =? cc "+" then cc "-" else c in
             if c =? cc "/" then cc "_" else c) in
   let c := if c =? cc "-" then cc "+" else c in
   if c =? cc "_" then cc "/" else c) = b64_char v.
Proof.
  intros Hv. destruct (b64_char_plain v Hv) as (H61 & H45 & H95 & _).
  revert H61 H45 H95. cbn zeta. cc_norm. intros. zbool; lia.
Qed.

Lemma atob_padded (b : list Z) :
  u8_array b ->
  atob (map b64_char (b64_sextets b) ++ replicate (b64_padding b) (cc "="))
  = Ok b.
Proof.
  intros Hb. pose proof (b64_sextets_range b Hb) as Hrange.
  destruct (b64_shape b) as (Hp & n & Hn).
  assert (Hplain : Forall (fun c => c <> cc "=") (map b64_char (b64_sextets b))).
  { rewrite List.Forall_map. eapply Forall_impl; [exact Hrange |].
    cbn. intros v Hv. destruct (b64_char_plain v Hv) as (H61 & _).
    exact H61. }
  unfold atob. rewrite filter_all.
  2:{ apply Forall_app. split.
      - rewrite List.Forall_map. eapply Forall_impl; [exact Hrange |].
        cbn. intros v Hv. destruct (b64_char_plain v Hv) as (_ & _ & _ & _ & Hws).
        now rewrite Hws.
      - apply Forall_forall. intros x Hx.
        apply elem_of_replicate in Hx as [-> _]. reflexivity. }
  rewrite length_app, length_map, length_replicate, Hn.
  replace (Z.of_nat (4 * n) mod 4 =? 0) with true
    by (symmetry; apply Z.eqb_eq; Z.div_mod_to_equations; lia).
  rewrite strip_padding_app by assumption.
  rewrite length_map.
  replace (Z.of_nat (length (b64_sextets b)) mod 4 =? 1) with false
    by (symmetry; apply Z.eqb_neq; Z.div_mod_to_equations; lia).
  rewrite b64_values_chars by exact Hrange.
  now rewrite b64_bytes_sextets.
Qed.

(** The padding that [padEnd] restores is the padding that was stripped. *)
Lemma padding_restored (b : list Z) :
  let len := Z.of_nat (length (b64_sextets b)) in
  Z.to_nat (len + (4 - len mod 4) mod 4 - len) = b64_padding b.
Proof.
  destruct (b64_shape b) as (Hp & n & Hn). cbn zeta.
  Z.div_mod_to_equations. lia.
Qed.

(** *** The copy loop *)

Lemma copy_step_insert (binary a : list Z) (k : nat) :
  copy_step binary a (Z.of_nat k)
  = <[k := match binary !! k with
           | Some c => ToUint8 c
           | None => ToUint8 0
           end]> a.
Proof.
  unfold copy_step, charCodeAt, ua_set.
  destruct (Z.ltb_spec (Z.of_nat k) 0); [lia |].
  rewrite Nat2Z.id. now destruct (binary !! k).
Qed.

Lemma copy_loop_bytes (b : list Z) :
  u8_array b ->
  for_loop (copy_step b) (length b) 0 (Uint8Array_new (length b)) = b.
Proof.
  intros Hb.
  rewrite (for_loop_fill_all _
             (fun i => match b !! Z.to_nat i with
                       | Some c => ToUint8 c
                       | None => ToUint8 0
                       end)).
  2:{ intros a k. rewrite copy_step_insert. now rewrite Nat2Z.id. }
  apply list_eq. intros i. rewrite !list_lookup_fmap.
  destruct (b !! i) as [x |] eqn:Hx.
  - rewrite lookup_seq_lt by (eapply lookup_lt_Some; exact Hx).
    cbn. rewrite Nat2Z.id, Hx.
    pose proof (u8_array_lookup _ _ _ Hb Hx).
    unfold ToUint8. now rewrite Z.mod_small by lia.
  - rewrite lookup_seq_ge by (eapply lookup_ge_None; exact Hx).
    reflexivity.
Qed.

(** C10: decoding the base64url encoding of an array of bytes gives the
    array back; neither step throws. *)
Theorem base64url_roundtrip (b : list Z) :
  u8_array b ->
  exists s, bufferToBase64url b = Ok s /\ base64urlToBuffer s = Ok b.
Proof.
  intros Hb. pose proof (b64_sextets_range b Hb) as Hrange.
  unfold bufferToBase64url.
  rewrite String_fromCharCode_bytes, btoa_bytes by exact Hb.
  cbn [result_bind]. eexists. split; [reflexivity |].
  rewrite url_safe_encoding by exact Hb.
  unfold base64urlToBuffer.
  rewrite !replace_all_one, !map_map.
  rewrite (map_ext_Forall _ b64_char)
    by (eapply Forall_impl; [exact Hrange |]; intros v Hv;
        apply (url_safe_char_back v Hv)).
  unfold padEnd. rewrite length_map, padding_restored.
  rewrite atob_padded by exact Hb.
  cbn [result_bind]. now rewrite copy_loop_bytes.
Qed.

Lemma base64url_roundtrip_witness :
  exists s, bufferToBase64url [1; 2; 3; 250; 251; 252; 253; 254; 255; 7] = Ok s
            /\ base64urlToBuffer s
               = Ok [1; 2; 3; 250; 251; 252; 253; 254; 255; 7].
Proof.
  apply (base64url_roundtrip [1; 2; 3; 250; 251; 252; 253; 254; 255; 7]).
  apply u8_arrayb_spec. reflexivity.
Defined.

(** ** The memo-transaction builder *)

Section BuilderFacts.
Context `{Library}.

(** What the builder returns once the memo program address is decoded and
    the ledger has answered. *)
Lemma createMemoTransaction_run (userWallet : PublicKey) (memo : string)
      (sponsorKeypair : Keypair) (w : World) (memoProgram : PublicKey)
      (h : option string) :
  PublicKey_new MEMO_PROGRAM_ID_text = Ok memoProgram ->
  rpc_blockhash w = Ok h ->
  createMemoTransaction userWallet memo sponsorKeypair w =
  (Ok {| signatures := [];
         feePayer := Some (publicKey sponsorKeypair);
         instructions := [memo_instruction memoProgram userWallet memo];
         recentBlockhash := h |},
   with_requests w (requests w ++ [GetLatestBlockhash])).
Proof.
  intros Hmemo Hhash.
  unfold createMemoTransaction, bind, lift, getLatestBlockhash, rpc, ret.
  rewrite Hmemo, Hhash. reflexivity.
Qed.

(** C6: the transaction the builder returns holds exactly one instruction,
    addressed to the fixed memo program, naming the subject as a signer
    without write permission and carrying the payload as data; its fee
    payer is the sponsor's public key. *)
Theorem memo_transaction_shape (userWallet : PublicKey) (memo : string)
        (sponsorKeypair : Keypair) (w : World) (memoProgram : PublicKey)
        (h : option string) :
  PublicKey_new MEMO_PROGRAM_ID_text = Ok memoProgram ->
  rpc_blockhash w = Ok h ->
  exists t w',
    createMemoTransaction userWallet memo sponsorKeypair w = (Ok t, w')
    /\ instructions t =
         [{| keys := [{| pubkey := userWallet; isSigner := true;
                         isWritable := false |}];
             programId := memoProgram;
             data := Buffer_from_utf8 memo |}]
    /\ feePayer t = Some (publicKey sponsorKeypair).
Proof.
  intros Hmemo Hhash. eexists _, _.
  rewrite (createMemoTransaction_run _ _ _ _ _ _ Hmemo Hhash).
  repeat split.
Qed.

(** C5, as the code has it: the builder checks no blockhash; it records
    the one the ledger returned, empty or unset included, and returns the
    envelope without any signature. *)
Theorem memo_transaction_blockhash_unchecked (userWallet : PublicKey)
        (memo : string) (sponsorKeypair : Keypair) (w : World)
        (memoProgram : PublicKey) (h : option string) :
  PublicKey_new MEMO_PROGRAM_ID_text = Ok memoProgram ->
  rpc_blockhash w = Ok h ->
  exists t w',
    createMemoTransaction userWallet memo sponsorKeypair w = (Ok t, w')
    /\ recentBlockhash t = h
    /\ signatures t = [].
Proof.
  intros Hmemo Hhash. eexists _, _.
  rewrite (createMemoTransaction_run _ _ _ _ _ _ Hmemo Hhash).
  repeat split.
Qed.

End BuilderFacts.

Lemma memo_transaction_shape_witness :
  exists t w',
    @createMemoTransaction toy_library (mkPublicKey (replicate 32 1)) "hello"
      (toy_key 2) (toy_world None (Some "H")) = (Ok t, w')
    /\ instructions t =
         [{| keys := [{| pubkey := mkPublicKey (replicate 32 1);
                         isSigner := true; isWritable := false |}];
             programId := mkPublicKey (text_bytes MEMO_PROGRAM_ID_text);
             data := @Buffer_from_utf8 toy_library "hello" |}]
    /\ feePayer t = Some (publicKey (toy_key 2)).
Proof.
  apply (@memo_transaction_shape toy_library (mkPublicKey (replicate 32 1))
           "hello" (toy_key 2) (toy_world None (Some "H"))
           (mkPublicKey (text_bytes MEMO_PROGRAM_ID_text)) (Some "H")).
  - reflexivity.
  - reflexivity.
Defined.

Lemma memo_transaction_blockhash_unchecked_witness :
  exists t w',
    @createMemoTransaction toy_library (mkPublicKey (replicate 32 1)) "hello"
      (toy_key 2) (toy_world None (Some "")) = (Ok t, w')
    /\ recentBlockhash t = Some ""
    /\ signatures t = [].
Proof.
  apply (@memo_transaction_blockhash_unchecked toy_library
           (mkPublicKey (replicate 32 1)) "hello" (toy_key 2)
           (toy_world None (Some ""))
           (mkPublicKey (text_bytes MEMO_PROGRAM_ID_text)) (Some "")).
  - reflexivity.
  - reflexivity.
Defined.

(** C5, counterexample: with an empty blockhash, and with none at all, the
    builder returns an envelope instead of failing. *)
Lemma memo_transaction_empty_blockhash_accepted :
  (@createMemoTransaction toy_library (mkPublicKey (replicate 32 1)) "hello"
     (toy_key 2) (toy_world None (Some ""))).1
  = Ok {| signatures := [];
          feePayer := Some (publicKey (toy_key 2));
          instructions :=
            [@memo_instruction toy_library
               (mkPublicKey (text_bytes MEMO_PROGRAM_ID_text))
               (mkPublicKey (replicate 32 1)) "hello"];
          recentBlockhash := Some "" |}
  /\ (@createMemoTransaction toy_library (mkPublicKey (replicate 32 1))
        "hello" (toy_key 2) (toy_world None None)).1
     = Ok {| signatures := [];
             feePayer := Some (publicKey (toy_key 2));
             instructions :=
               [@memo_instruction toy_library
                  (mkPublicKey (text_bytes MEMO_PROGRAM_ID_text))
                  (mkPublicKey (replicate 32 1)) "hello"];
             recentBlockhash := None |}.
Proof.
  split;
    (erewrite (@createMemoTransaction_run toy_library); reflexivity).
Qed.

(** ** Signing, serializing, sending *)

Section SendFacts.
Context `{Library}.

(** An envelope with an unsigned required signer does not serialize. *)
Lemma serialize_unsigned (t : Transaction) (pk : PublicKey) :
  In pk (requiredSigners t) -> signed_by t pk = false ->
  serialize t = Throw IncompleteSignatureError.
Proof.
  intros Hin Hun. unfold serialize.
  destruct (forallb (signed_by t) (requiredSigners t)) eqn:Hall;
    [| reflexivity].
  rewrite forallb_forall in Hall. specialize (Hall pk Hin). congruence.
Qed.

(** An envelope signed by the subject alone, the fee payer being someone
    else, does not serialize. *)
Lemma serialize_subject_only (subject sponsorKey : PublicKey)
      (sig : list Z) (ixs : list TransactionInstruction)
      (h : option string) :
  toBytes subject <> toBytes sponsorKey ->
  serialize {| signatures := [{| signature := Some sig;
                                 sig_publicKey := subject |}];
               feePayer := Some sponsorKey;
               instructions := ixs;
               recentBlockhash := h |}
  = Throw IncompleteSignatureError.
Proof.
  intros Hne. apply (serialize_unsigned _ sponsorKey).
  - left. reflexivity.
  - unfold signed_by, PublicKey_eqb. cbn [signatures existsb sig_publicKey].
    now rewrite bool_decide_eq_false_2.
Qed.

(** Serialization succeeds exactly when every required signer has signed. *)
Lemma serialize_Ok (t : Transaction) (bytes : list Z) :
  serialize t = Ok bytes <->
  forallb (signed_by t) (requiredSigners t) = true /\ bytes = wire_bytes t.
Proof.
  unfold serialize.
  destruct (forallb (signed_by t) (requiredSigners t)); split.
  - intros [= <-]. split; reflexivity.
  - intros [_ ->]. reflexivity.
  - discriminate.
  - intros [? _]. discriminate.
Qed.

(** The error handler of [sendSponsoredTransaction] sends nothing. *)
Lemma send_handler_run (e : JsError) (w : World) :
  bind (console_error ["Transaction failed:"; err_message e])
       (fun _ => @throw string
                   (Error_new ("Transaction failed: " ++ err_message e))) w
  = (Throw (Error_new ("Transaction failed: " ++ err_message e)),
     with_console w
       (console w ++ [{| level := ErrorLevel;
                         printed := ["Transaction failed:";
                                     err_message e] |}])).
Proof. reflexivity. Qed.

(** When the envelope that both signers have signed still has an unsigned
    required signer, the flow throws and no request has left. *)
Lemma send_incomplete (t0 t1 t : Transaction) (userKeypair sponsorKeypair : Keypair)
      (pk : PublicKey) (w : World) :
  partialSign t0 userKeypair = Ok t1 ->
  partialSign t1 sponsorKeypair = Ok t ->
  In pk (requiredSigners t) -> signed_by t pk = false ->
  exists w',
    sendSponsoredTransaction t0 userKeypair sponsorKeypair w =
    (Throw (Error_new ("Transaction failed: "
                       ++ err_message IncompleteSignatureError)), w')
    /\ requests w' = requests w.
Proof.
  intros H1 H2 Hin Hun.
  unfold sendSponsoredTransaction, try_catch.
  unfold bind at 1, lift at 1. rewrite H1.
  unfold bind at 1, lift at 1. rewrite H2.
  unfold bind at 1, lift at 1. rewrite (serialize_unsigned t pk Hin Hun).
  rewrite send_handler_run. eexists. split; reflexivity.
Qed.

(** Every transaction the flow sends is the wire format of an envelope in
    which every required signer has signed. *)
Lemma send_only_complete (t0 : Transaction) (userKeypair sponsorKeypair : Keypair)
      (w : World) (bytes : list Z) :
  In (SendRawTransaction bytes)
     (requests (sendSponsoredTransaction t0 userKeypair sponsorKeypair w).2) ->
  In (SendRawTransaction bytes) (requests w)
  \/ exists t, bytes = wire_bytes t
               /\ forallb (signed_by t) (requiredSigners t) = true.
Proof.
  unfold sendSponsoredTransaction, try_catch.
  unfold bind at 1, lift at 1.
  destruct (partialSign t0 userKeypair) as [t1 | e1];
    [| rewrite send_handler_run; cbn; auto].
  unfold bind at 1, lift at 1.
  destruct (partialSign t1 sponsorKeypair) as [t |e2];
    [| rewrite send_handler_run; cbn; auto].
  unfold bind at 1, lift at 1.
  destruct (serialize t) as [bs | e3] eqn:Hser;
    [| rewrite send_handler_run; cbn; auto].
  apply serialize_Ok in Hser as [Hall ->].
  intros Hin.
  assert (Hsent : In (SendRawTransaction bytes)
                     (requests w ++ [SendRawTransaction (wire_bytes t)])
                  \/ bytes = wire_bytes t).
  { revert Hin.
    unfold bind, sendRawTransaction, confirmTransaction, rpc, ret.
    cbn [rpc_send rpc_confirm requests with_requests].
    destruct (rpc_send w (wire_bytes t)) as [sig | e4]; cbn.
    - destruct (rpc_confirm w sig) as [[] | e5]; cbn;
        rewrite ?in_app_iff; cbn; intuition congruence.
    - rewrite ?in_app_iff; cbn; intuition congruence. }
  destruct Hsent as [Hsent | ->]; [| right; eauto].
  apply in_app_iff in Hsent as [Hold | [[= <-] | []]];
    [left; exact Hold | right; eauto].
Qed.

(** C3: an envelope in which a required signer is unsigned does not
    serialize: [serialize] throws IncompleteSignatureError, in particular
    on an envelope signed by the subject alone; in the send flow the check
    comes before the submission: when it fails the flow throws and no
    request has been sent, and whatever the flow sends is the wire format
    of a fully signed envelope. *)
Theorem serialize_rejects_incomplete :
  (forall (t : Transaction) (pk : PublicKey),
      In pk (requiredSigners t) -> signed_by t pk = false ->
      serialize t = Throw IncompleteSignatureError)
  /\ (forall (subject sponsorKey : PublicKey) (sig : list Z)
             (ixs : list TransactionInstruction) (h : option string),
        toBytes subject <> toBytes sponsorKey ->
        serialize {| signatures := [{| signature := Some sig;
                                       sig_publicKey := subject |}];
                     feePayer := Some sponsorKey;
                     instructions := ixs;
                     recentBlockhash := h |}
        = Throw IncompleteSignatureError)
  /\ (forall (t0 t1 t : Transaction) (userKeypair sponsorKeypair : Keypair)
             (pk : PublicKey) (w : World),
        partialSign t0 userKeypair = Ok t1 ->
        partialSign t1 sponsorKeypair = Ok t ->
        In pk (requiredSigners t) -> signed_by t pk = false ->
        exists w',
          sendSponsoredTransaction t0 userKeypair sponsorKeypair w
          = (Throw (Error_new ("Transaction failed: "
                               ++ err_message IncompleteSignatureError)), w')
          /\ requests w' = requests w)
  /\ (forall (t0 : Transaction) (userKeypair sponsorKeypair : Keypair)
             (w : World) (bytes : list Z),
        In (SendRawTransaction bytes)
           (requests
              (sendSponsoredTransaction t0 userKeypair sponsorKeypair w).2) ->
        In (SendRawTransaction bytes) (requests w)
        \/ exists t, bytes = wire_bytes t
                     /\ forallb (signed_by t) (requiredSigners t) = true).
Proof.
  split; [exact serialize_unsigned |].
  split; [exact serialize_subject_only |].
  split; [exact send_incomplete | exact send_only_complete].
Qed.

End SendFacts.

Lemma serialize_rejects_incomplete_witness :
  @serialize toy_library toy_subject_signed = Throw IncompleteSignatureError
  /\ exists w',
       @sendSponsoredTransaction toy_library toy_three_signers
         (toy_key 1) (toy_key 2) (toy_world None (Some "H"))
       = (Throw (Error_new ("Transaction failed: "
                            ++ err_message IncompleteSignatureError)), w')
       /\ requests w' = requests (toy_world None (Some "H")).
Proof.
  destruct (@serialize_rejects_incomplete toy_library)
    as (Hser & _ & Hflow & _).
  split.
  - apply (Hser toy_subject_signed (publicKey (toy_key 2))).
    + left. reflexivity.
    + vm_compute. reflexivity.
  - eapply (Hflow toy_three_signers _ _ (toy_key 1) (toy_key 2)
              (publicKey (toy_key 3))).
    + vm_compute. reflexivity.
    + vm_compute. reflexivity.
    + right. right. left. reflexivity.
    + vm_compute. reflexivity.
Defined.

(** ** Computations that do not look at the sponsor configuration *)

Lemma same_outside_refl (w : World) : same_outside w w.
Proof. repeat split. Qed.

Lemma oblivious_ret {A} (a : A) : oblivious (ret a).
Proof. intros w1 w2 Hw. split; [reflexivity | exact Hw]. Qed.

Lemma oblivious_throw {A} (e : JsError) : oblivious (@throw A e).
Proof. intros w1 w2 Hw. split; [reflexivity | exact Hw]. Qed.

Lemma oblivious_lift {A} (r : result A) : oblivious (lift r).
Proof. intros w1 w2 Hw. split; [reflexivity | exact Hw]. Qed.

Lemma oblivious_console_write (l : ConsoleLevel) (args : list string) :
  oblivious (console_write l args).
Proof.
  intros w1 w2 (Hc & Hb & Hs & Hf & Hr). split; [reflexivity |].
  unfold console_write, same_outside. cbn. rewrite Hc. repeat split; assumption.
Qed.

Lemma oblivious_rpc {A} (q : RpcRequest) (answer : World -> result A) :
  (forall w1 w2, same_outside w1 w2 -> answer w1 = answer w2) ->
  oblivious (rpc q answer).
Proof.
  intros Hans w1 w2 Hw. split; [exact (Hans w1 w2 Hw) |].
  destruct Hw as (Hc & Hb & Hs & Hf & Hr).
  unfold rpc, same_outside. cbn. rewrite Hr. repeat split; assumption.
Qed.

Lemma agree_bind {A B} (m : M A) (k : A -> M B) (w1 w2 : World) :
  agree m w1 w2 -> (forall a, oblivious (k a)) -> agree (bind m k) w1 w2.
Proof.
  unfold agree, bind. intros [Hres Hout] Hk.
  destruct (m w1) as [r1 w1'], (m w2) as [r2 w2']. cbn in Hres, Hout. subst r2.
  destruct r1 as [a | e]; [apply (Hk a _ _ Hout) |].
  split; [reflexivity | exact Hout].
Qed.

Lemma agree_try_catch {A} (m : M A) (h : JsError -> M A) (w1 w2 : World) :
  agree m w1 w2 -> (forall e, oblivious (h e)) ->
  agree (try_catch m h) w1 w2.
Proof.
  unfold agree, try_catch. intros [Hres Hout] Hh.
  destruct (m w1) as [r1 w1'], (m w2) as [r2 w2']. cbn in Hres, Hout. subst r2.
  destruct r1 as [a | e]; [| apply (Hh e _ _ Hout)].
  split; [reflexivity | exact Hout].
Qed.

Lemma oblivious_bind {A B} (m : M A) (k : A -> M B) :
  oblivious m -> (forall a, oblivious (k a)) -> oblivious (bind m k).
Proof. intros Hm Hk w1 w2 Hw. apply agree_bind; [apply Hm, Hw | exact Hk]. Qed.

Lemma oblivious_try_catch {A} (m : M A) (h : JsError -> M A) :
  oblivious m -> (forall e, oblivious (h e)) -> oblivious (try_catch m h).
Proof.
  intros Hm Hh w1 w2 Hw. apply agree_try_catch; [apply Hm, Hw | exact Hh].
Qed.

Lemma oblivious_agree {A} (m : M A) (w1 w2 : World) :
  oblivious m -> same_outside w1 w2 -> agree m w1 w2.
Proof. intros Hm Hw. exact (Hm w1 w2 Hw). Qed.

Lemma agree_bind_run {A B} (m : M A) (k : A -> M B) (w1 w2 w1' w2' : World)
      (a : A) :
  m w1 = (Ok a, w1') -> m w2 = (Ok a, w2') ->
  agree (k a) w1' w2' -> agree (bind m k) w1 w2.
Proof. unfold agree, bind. intros -> ->. trivial. Qed.

Ltac oblivious_steps :=
  repeat first
    [ apply oblivious_try_catch
    | apply oblivious_bind
    | apply oblivious_ret
    | apply oblivious_throw
    | apply oblivious_lift
    | apply oblivious_console_write
    | match goal with |- forall _, _ => intro end ].

Section SponsorFacts.
Context `{Library}.

Lemma oblivious_getLatestBlockhash : oblivious getLatestBlockhash.
Proof. apply oblivious_rpc. intros w1 w2 (_ & Hb & _). exact Hb. Qed.

Lemma oblivious_sendRawTransaction (bytes : list Z) :
  oblivious (sendRawTransaction bytes).
Proof.
  apply oblivious_rpc. intros w1 w2 (_ & _ & Hs & _). now rewrite Hs.
Qed.

Lemma oblivious_confirmTransaction (sig : string) :
  oblivious (confirmTransaction sig).
Proof.
  apply oblivious_rpc. intros w1 w2 (_ & _ & _ & Hf & _). now rewrite Hf.
Qed.

Lemma oblivious_createMemoTransaction (userWallet : PublicKey)
      (memo : string) (sponsorKeypair : Keypair) :
  oblivious (createMemoTransaction userWallet memo sponsorKeypair).
Proof.
  unfold createMemoTransaction. oblivious_steps.
  apply oblivious_getLatestBlockhash.
Qed.

Lemma oblivious_sendSponsoredTransaction (t : Transaction)
      (userKeypair sponsorKeypair : Keypair) :
  oblivious (sendSponsoredTransaction t userKeypair sponsorKeypair).
Proof.
  unfold sendSponsoredTransaction. oblivious_steps.
  - apply oblivious_sendRawTransaction.
  - apply oblivious_confirmTransaction.
Qed.

(** *** Sponsor resolution *)

(** Without a configured secret the sponsor is the next random key, and
    nothing is written to the console. *)
Lemma getSponsorWallet_unconfigured (w : World) :
  sponsor_unconfigured w ->
  getSponsorWallet w = (Ok (entropy w (drawn w)), with_drawn w (S (drawn w))).
Proof.
  unfold getSponsorWallet, bind, getenv.
  intros [Hnone | [Hempty | Hplace]].
  - rewrite Hnone. reflexivity.
  - rewrite Hempty. reflexivity.
  - rewrite Hplace. reflexivity.
Qed.

(** With a secret that decodes, the sponsor is the decoded key. *)
Lemma getSponsorWallet_configured (w : World) (key : string)
      (secret : list Z) (kp : Keypair) :
  env w !! "LAZORKIT_SPONSOR_PRIVATE_KEY" = Some key ->
  truthy key && negb (String.eqb key sponsor_placeholder) = true ->
  bs58_decode key = Ok secret ->
  Keypair_fromSecretKey secret = Ok kp ->
  getSponsorWallet w = (Ok kp, w).
Proof.
  intros Henv Hkey Hdec Hkp.
  unfold getSponsorWallet, bind at 1, getenv. rewrite Henv, Hkey.
  unfold try_catch, bind, lift. now rewrite Hdec, Hkp.
Qed.

(** With a secret that does not decode, the sponsor is the next random
    key, and a warning is written. *)
Lemma getSponsorWallet_invalid (w : World) (key : string) (e : JsError) :
  env w !! "LAZORKIT_SPONSOR_PRIVATE_KEY" = Some key ->
  truthy key && negb (String.eqb key sponsor_placeholder) = true ->
  result_bind (bs58_decode key) Keypair_fromSecretKey = Throw e ->
  exists w',
    getSponsorWallet w = (Ok (entropy w (drawn w)), w')
    /\ console w' =
       console w ++ [{| level := WarnLevel;
                        printed :=
                          ["Invalid sponsor key, using random sponsor"] |}].
Proof.
  intros Henv Hkey Hdec.
  unfold getSponsorWallet, bind at 1, getenv. rewrite Henv, Hkey.
  unfold try_catch, bind at 1, lift.
  unfold result_bind in Hdec.
  destruct (bs58_decode key) as [secret | e1].
  - rewrite Hdec. eexists. split; reflexivity.
  - eexists. split; reflexivity.
Qed.

(** C8, on the code: when no sponsor secret is configured the sponsor is
    drawn at random and sponsor resolution writes nothing to the console;
    the whole flow then returns the same result, prints the same lines and
    sends the same requests as a run in which the same key is the
    persisted sponsor: nothing tells its caller that the sponsor was
    ephemeral. *)
Theorem fallback_sponsor_unreported (wallet : LazorkitWallet)
        (memo : string) (w1 w2 : World) (key : string) (secret : list Z) :
  sponsor_unconfigured w1 ->
  env w2 !! "LAZORKIT_SPONSOR_PRIVATE_KEY" = Some key ->
  truthy key && negb (String.eqb key sponsor_placeholder) = true ->
  bs58_decode key = Ok secret ->
  Keypair_fromSecretKey secret = Ok (entropy w1 (drawn w1)) ->
  same_outside w1 w2 ->
  (getSponsorWallet w1).1 = Ok (entropy w1 (drawn w1))
  /\ console (getSponsorWallet w1).2 = console w1
  /\ (executeGaslessTransaction wallet memo w1).1
     = (executeGaslessTransaction wallet memo w2).1
  /\ console (executeGaslessTransaction wallet memo w1).2
     = console (executeGaslessTransaction wallet memo w2).2
  /\ requests (executeGaslessTransaction wallet memo w1).2
     = requests (executeGaslessTransaction wallet memo w2).2.
Proof.
  intros Hun Henv Hkey Hdec Hkp Hout.
  rewrite (getSponsorWallet_unconfigured w1 Hun).
  split; [reflexivity |]. split; [reflexivity |].
  assert (Hagree : agree (executeGaslessTransaction wallet memo) w1 w2).
  { unfold executeGaslessTransaction.
    apply agree_try_catch; [| oblivious_steps].
    eapply agree_bind_run; [reflexivity | reflexivity |].
    eapply agree_bind_run.
    - apply getSponsorWallet_unconfigured. exact Hun.
    - eapply getSponsorWallet_configured; [exact Henv | exact Hkey
                                           | exact Hdec | exact Hkp].
    - apply oblivious_agree.
      + repeat first
          [ apply oblivious_createMemoTransaction
          | apply oblivious_sendSponsoredTransaction
          | apply oblivious_getLatestBlockhash
          | apply oblivious_sendRawTransaction
          | apply oblivious_confirmTransaction
          | progress oblivious_steps ].
      + destruct Hout as (Hc & Hb & Hs & Hf & Hr).
        unfold same_outside. cbn. rewrite Hc. repeat split; assumption. }
  destruct Hagree as (Hres & Hc & _ & _ & _ & Hr).
  repeat split; assumption.
Qed.

End SponsorFacts.

Lemma fallback_sponsor_unreported_witness :
  (@getSponsorWallet toy_library (toy_world None (Some "H"))).1
  = Ok (toy_key 0)
  /\ console (@getSponsorWallet toy_library (toy_world None (Some "H"))).2 = []
  /\ (@executeGaslessTransaction toy_library toy_wallet "hello"
        (toy_world None (Some "H"))).1
     = (@executeGaslessTransaction toy_library toy_wallet "hello"
          (toy_world (Some toy_sponsor_secret) (Some "H"))).1
  /\ console (@executeGaslessTransaction toy_library toy_wallet "hello"
                (toy_world None (Some "H"))).2
     = console (@executeGaslessTransaction toy_library toy_wallet "hello"
                  (toy_world (Some toy_sponsor_secret) (Some "H"))).2
  /\ requests (@executeGaslessTransaction toy_library toy_wallet "hello"
                 (toy_world None (Some "H"))).2
     = requests (@executeGaslessTransaction toy_library toy_wallet "hello"
                   (toy_world (Some toy_sponsor_secret) (Some "H"))).2.
Proof.
  apply (@fallback_sponsor_unreported toy_library toy_wallet "hello"
           (toy_world None (Some "H"))
           (toy_world (Some toy_sponsor_secret) (Some "H"))
           toy_sponsor_secret (text_bytes toy_sponsor_secret)).
  - left. reflexivity.
  - reflexivity.
  - reflexivity.
  - reflexivity.
  - reflexivity.
  - repeat split.
Defined.

(** The flow without a configured sponsor secret, run: four lines are
    logged, none of them a warning, and the result names the sponsor's key
    and nothing else about it. *)
Lemma unconfigured_sponsor_run :
  (@executeGaslessTransaction toy_library toy_wallet "hello"
     (toy_world None (Some "H"))).1
  = Ok {| gr_signature := "5VERv8NMvzbJMEkV8xnrLkEaWRtSz9CosKDYjCJjBRnb";
          sponsor := "AAAAAAAAAAAAAAAAAAAAAAAAAAAAAAAA";
          feeSaved := (5 # 1000000)%Q |}
  /\ console (@executeGaslessTransaction toy_library toy_wallet "hello"
                (toy_world None (Some "H"))).2
     = [{| level := LogLevel; printed := ["Creating gasless transaction..."] |};
        {| level := LogLevel;
           printed := ["Transaction created with sponsor:";
                       "AAAAAAAAAAAAAAAAAAAAAAAAAAAAAAAA"] |};
        {| level := LogLevel;
           printed := ["Fee payer:"; "AAAAAAAAAAAAAAAAAAAAAAAAAAAAAAAA"] |};
        {| level := LogLevel;
           printed := ["Transaction sent:";
                       "5VERv8NMvzbJMEkV8xnrLkEaWRtSz9CosKDYjCJjBRnb"] |}].
Proof. split; vm_compute; reflexivity. Qed.

(** The same flow with a secret that does not decode: here the fallback is
    announced by a warning. *)
Lemma invalid_sponsor_run :
  console (@getSponsorWallet toy_library (toy_world (Some "zz") (Some "H"))).2
  = [{| level := WarnLevel;
        printed := ["Invalid sponsor key, using random sponsor"] |}].
Proof. vm_compute. reflexivity. Qed.

(** * Further properties of the key derivation *)

Lemma mod_double (i n : Z) :
  0 <= i -> 0 < n ->
  i mod n = if i mod (2 * n) <? n then i mod (2 * n) else i mod (2 * n) - n.
Proof.
  intros Hi Hn.
  pose proof (Z.mod_pos_bound i (2 * n) ltac:(lia)) as Hq.
  pose proof (Z.div_mod i (2 * n) ltac:(lia)) as Hdiv.
  destruct (Z.ltb_spec (i mod (2 * n)) n) as [Hlt | Hge].
  - symmetry. apply (Z.mod_unique_pos i n (2 * (i / (2 * n)))); lia.
  - symmetry. apply (Z.mod_unique_pos i n (2 * (i / (2 * n)) + 1)); lia.
Qed.

(** The loop reads the same byte from [b ++ b] as from [b]. *)
Lemma derive_byte_doubled (b : list Z) (i : Z) :
  0 <= i -> derive_byte (b ++ b) i = derive_byte b i.
Proof.
  intros Hi. destruct b as [| x0 b0]; [reflexivity |].
  set (b := x0 :: b0).
  assert (Hn : 0 < Z.of_nat (length b)) by (cbn [b length]; lia).
  unfold derive_byte, js_rem, ua_length, ua_get.
  rewrite length_app.
  replace (Z.of_nat (length b + length b)) with (2 * Z.of_nat (length b))
    by lia.
  destruct (Z.eqb_spec (2 * Z.of_nat (length b)) 0); [lia |].
  destruct (Z.eqb_spec (Z.of_nat (length b)) 0); [lia |].
  rewrite !Z.rem_mod_nonneg by lia.
  pose proof (Z.mod_pos_bound i (2 * Z.of_nat (length b)) ltac:(lia)) as Hq.
  pose proof (Z.mod_pos_bound i (Z.of_nat (length b)) Hn) as Hr.
  destruct (Z.ltb_spec (i mod (2 * Z.of_nat (length b))) 0); [lia |].
  destruct (Z.ltb_spec (i mod Z.of_nat (length b)) 0); [lia |].
  rewrite (mod_double i (Z.of_nat (length b)) Hi Hn).
  destruct (Z.ltb_spec (i mod (2 * Z.of_nat (length b))) (Z.of_nat (length b)))
    as [Hlt | Hge].
  - now rewrite lookup_app_l by lia.
  - rewrite lookup_app_r by lia.
    replace (Z.to_nat (i mod (2 * Z.of_nat (length b))) - length b)%nat
      with (Z.to_nat (i mod (2 * Z.of_nat (length b)) - Z.of_nat (length b)))
      by lia.
    reflexivity.
Qed.

(** X1: a credential key and the same key written twice in a row derive the
    same seed, keypair and wallet: distinct inputs collide. *)
Theorem derive_doubled_input_collides `{Library} (b : list Z) :
  b <> [] ->
  b ++ b <> b
  /\ derive_seed (b ++ b) = derive_seed b
  /\ deriveKeypairFromPasskey (b ++ b) = deriveKeypairFromPasskey b
  /\ createWalletFromPasskey (b ++ b) = createWalletFromPasskey b.
Proof.
  intros Hne.
  assert (Hseed : derive_seed (b ++ b) = derive_seed b).
  { rewrite !derive_seed_map. apply map_ext_in. intros i Hi.
    apply indices_range in Hi. apply derive_byte_doubled. lia. }
  assert (Hkp : deriveKeypairFromPasskey (b ++ b) = deriveKeypairFromPasskey b)
    by (unfold deriveKeypairFromPasskey; now rewrite Hseed).
  split.
  - intros Heq. apply (f_equal (@length Z)) in Heq.
    rewrite length_app in Heq. destruct b; [congruence | cbn in Heq; lia].
  - split; [exact Hseed |]. split; [exact Hkp |].
    unfold createWalletFromPasskey. now rewrite Hkp.
Qed.

Lemma derive_doubled_input_collides_witness :
  [1; 2; 3] ++ [1; 2; 3] <> [1; 2; 3]
  /\ derive_seed ([1; 2; 3] ++ [1; 2; 3]) = derive_seed [1; 2; 3]
  /\ @deriveKeypairFromPasskey toy_library ([1; 2; 3] ++ [1; 2; 3])
     = @deriveKeypairFromPasskey toy_library [1; 2; 3]
  /\ @createWalletFromPasskey toy_library ([1; 2; 3] ++ [1; 2; 3])
     = @createWalletFromPasskey toy_library [1; 2; 3].
Proof.
  apply (@derive_doubled_input_collides toy_library [1; 2; 3]).
  discriminate.
Defined.

(** Each of the first 32 input bytes is the seed byte at its position XOR
    the position's constant. *)
Lemma derive_seed_reveals (b : list Z) (i : nat) (x : Z) :
  u8_array b -> b !! i = Some x -> (i < 32)%nat ->
  exists s, derive_seed b !! i = Some s /\ x = Z.lxor s (Z.of_nat i * 7).
Proof.
  intros Hb Hx Hi.
  pose proof (lookup_lt_Some _ _ _ Hx) as Hlen.
  assert (Hne : b <> []) by (destruct b; [cbn in Hlen; lia | discriminate]).
  destruct (derive_byte_nonempty b (Z.of_nat i) Hne Hb ltac:(lia))
    as (y & Hy & Hbyte).
  rewrite Z.mod_small, Nat2Z.id in Hy by lia.
  assert (y = x) as -> by congruence.
  pose proof (derive_seed_lookup b (Z.of_nat i) ltac:(lia)) as Hs.
  rewrite Nat2Z.id in Hs.
  exists (Z.lxor x (Z.of_nat i * 7)). split; [now rewrite Hs, Hbyte |].
  now rewrite Z.lxor_assoc, Z.lxor_nilpotent, Z.lxor_0_r.
Qed.

(** X2: the seed gives the input back: the first 32 bytes of the input are
    the seed bytes XOR [i * 7], so two inputs of the same length, at most
    32 bytes, with the same seed are the same input. *)
Theorem derive_seed_invertible (b1 b2 : list Z) :
  u8_array b1 -> u8_array b2 ->
  length b1 = length b2 -> (length b1 <= 32)%nat ->
  derive_seed b1 = derive_seed b2 ->
  b1 = b2
  /\ forall (i : nat) (x : Z),
       b1 !! i = Some x ->
       exists s, derive_seed b1 !! i = Some s
                 /\ x = Z.lxor s (Z.of_nat i * 7).
Proof.
  intros Hb1 Hb2 Hlen H32 Hseed. split.
  - apply list_eq. intros i.
    destruct (b1 !! i) as [x1 |] eqn:H1.
    + pose proof (lookup_lt_Some _ _ _ H1) as Hi.
      destruct (lookup_lt_is_Some_2 b2 i ltac:(lia)) as [x2 H2].
      destruct (derive_seed_reveals b1 i x1 Hb1 H1 ltac:(lia))
        as (s1 & Hs1 & ->).
      destruct (derive_seed_reveals b2 i x2 Hb2 H2 ltac:(lia))
        as (s2 & Hs2 & ->).
      rewrite Hseed in Hs1. rewrite H2. congruence.
    + apply lookup_ge_None in H1. symmetry. apply lookup_ge_None. lia.
  - intros i x Hx. apply derive_seed_reveals; [exact Hb1 | exact Hx |].
    pose proof (lookup_lt_Some _ _ _ Hx). lia.
Qed.

Lemma derive_seed_invertible_witness :
  [1; 2; 3] = [1; 2; 3]
  /\ forall (i : nat) (x : Z),
       [1; 2; 3] !! i = Some x ->
       exists s, derive_seed [1; 2; 3] !! i = Some s
                 /\ x = Z.lxor s (Z.of_nat i * 7).
Proof.
  apply (derive_seed_invertible [1; 2; 3] [1; 2; 3]).
  - apply u8_arrayb_spec. reflexivity.
  - apply u8_arrayb_spec. reflexivity.
  - reflexivity.
  - cbn. lia.
  - reflexivity.
Defined.

(** * Further properties of the base64url codec *)

Lemma bufferToBase64url_run (b : list Z) :
  u8_array b -> bufferToBase64url b = Ok (map url_char (b64_sextets b)).
Proof.
  intros Hb. unfold bufferToBase64url.
  rewrite String_fromCharCode_bytes, btoa_bytes by exact Hb.
  cbn [result_bind]. now rewrite url_safe_encoding.
Qed.

Lemma base64urlToBuffer_url (b : list Z) :
  u8_array b -> base64urlToBuffer (map url_char (b64_sextets b)) = Ok b.
Proof.
  intros Hb. pose proof (b64_sextets_range b Hb) as Hrange.
  unfold base64urlToBuffer.
  rewrite !replace_all_one, !map_map.
  rewrite (map_ext_Forall _ b64_char)
    by (eapply Forall_impl; [exact Hrange |]; intros v Hv;
        apply (url_safe_char_back v Hv)).
  unfold padEnd. rewrite length_map, padding_restored.
  rewrite atob_padded by exact Hb.
  cbn [result_bind]. now rewrite copy_loop_bytes.
Qed.

Lemma url_char_safe (v : Z) : 0 <= v < 64 -> is_url_safe (url_char v) = true.
Proof.
  intros Hv. unfold is_url_safe, url_char, b64_char. cbn zeta. cc_norm.
  zbool; cbn; try reflexivity; lia.
Qed.

Lemma b64_sextets_length (b : list Z) :
  Z.of_nat (length (b64_sextets b)) = (4 * Z.of_nat (length b) + 2) / 3.
Proof.
  induction b as [| x | x y | x y z l IH] using list_ind3;
    cbn [b64_sextets length]; try reflexivity.
  rewrite !Nat2Z.inj_succ, IH. Z.div_mod_to_equations. lia.
Qed.



(** X6: the encoder is injective on byte arrays: two arrays with the same
    encoding are the same array. *)
Theorem bufferToBase64url_injective (b1 b2 : list Z) :
  u8_array b1 -> u8_array b2 ->
  bufferToBase64url b1 = bufferToBase64url b2 -> b1 = b2.
Proof.
  intros Hb1 Hb2 Heq.
  rewrite !bufferToBase64url_run in Heq by assumption.
  injection Heq as Heq.
  pose proof (base64urlToBuffer_url b1 Hb1) as H1.
  rewrite Heq, (base64urlToBuffer_url b2 Hb2) in H1. congruence.
Qed.

Lemma bufferToBase64url_injective_witness : [1; 2; 3] = [1; 2; 3].
Proof.
  apply (bufferToBase64url_injective [1; 2; 3] [1; 2; 3]).
  - apply u8_arrayb_spec. reflexivity.
  - apply u8_arrayb_spec. reflexivity.
  - reflexivity.
Defined.

Lemma replace_all_absent (c : Z) (d s : list Z) :
  Forall (fun x => x <> c) s -> replace_all c d s = s.
Proof.
  unfold replace_all. induction 1 as [| x s Hx _ IH]; [reflexivity |].
  cbn [flat_map]. rewrite IH.
  destruct (Z.eqb_spec x c); [contradiction | reflexivity].
Qed.

Lemma b64_encode_chars (b : list Z) (c : Z) :
  u8_array b -> c <> cc "=" ->
  (forall v, 0 <= v < 64 -> b64_char v <> c) ->
  Forall (fun x => x <> c) (b64_encode b).
Proof.
  intros Hb Hpad Hchar. rewrite b64_encode_split. apply Forall_app. split.
  - rewrite List.Forall_map.
    eapply Forall_impl; [apply b64_sextets_range, Hb |]. exact Hchar.
  - apply Forall_forall. intros x Hx.
    apply elem_of_replicate in Hx as [-> _]. congruence.
Qed.

(** X4: the decoder also takes the padded standard base64 of a byte array,
    as [btoa] gives it, and returns the array. *)
Theorem base64urlToBuffer_accepts_padded (b : list Z) :
  u8_array b ->
  exists s, btoa (String_fromCharCode b) = Ok s
            /\ base64urlToBuffer s = Ok b.
Proof.
  intros Hb. exists (b64_encode b).
  split; [rewrite String_fromCharCode_bytes by exact Hb;
          apply btoa_bytes, Hb |].
  unfold base64urlToBuffer.
  rewrite (replace_all_absent (cc "-")).
  2:{ apply b64_encode_chars; [exact Hb | discriminate |].
      intros v Hv. apply (b64_char_plain v Hv). }
  rewrite (replace_all_absent (cc "_")).
  2:{ apply b64_encode_chars; [exact Hb | discriminate |].
      intros v Hv. apply (b64_char_plain v Hv). }
  destruct (b64_shape b) as (Hp & n & Hn).
  assert (Hlen : length (b64_encode b) = (4 * n)%nat)
    by (rewrite b64_encode_split, length_app, length_map, length_replicate;
        exact Hn).
  unfold padEnd. rewrite Hlen.
  replace (Z.to_nat (Z.of_nat (4 * n) + (4 - Z.of_nat (4 * n) mod 4) mod 4
                     - Z.of_nat (4 * n))) with 0%nat
    by (Z.div_mod_to_equations; lia).
  cbn [replicate]. rewrite app_nil_r, b64_encode_split.
  rewrite atob_padded by exact Hb.
  cbn [result_bind]. now rewrite copy_loop_bytes.
Qed.

Lemma base64urlToBuffer_accepts_padded_witness :
  exists s, btoa (String_fromCharCode [104; 105]) = Ok s
            /\ base64urlToBuffer s = Ok [104; 105].
Proof.
  apply (base64urlToBuffer_accepts_padded [104; 105]).
  apply u8_arrayb_spec. reflexivity.
Defined.

Lemma b64_values_bad_end (s : list Z) : b64_values (s ++ [cc "="]) = None.
Proof.
  induction s as [| c s IH]; [reflexivity |].
  cbn [app b64_values]. rewrite IH. now destruct (b64_value c).
Qed.

Lemma strip_padding_three (s : list Z) :
  strip_padding (s ++ replicate 3 (cc "=")) = s ++ [cc "="].
Proof.
  unfold strip_padding. rewrite rev_app_distr. cbn [replicate rev app].
  rewrite !Z.eqb_refl. cbn [rev]. now rewrite rev_involutive.
Qed.

(** X5: a string without whitespace whose length leaves remainder 1 modulo 4
    is rejected: the decoder throws InvalidCharacterError, whatever the
    characters are. *)
Theorem base64urlToBuffer_rejects_bad_length (s : list Z) :
  forallb (fun c => negb (is_ascii_whitespace c)) s = true ->
  Z.of_nat (length s) mod 4 = 1 ->
  base64urlToBuffer s = Throw InvalidCharacterError.
Proof.
  intros Hws Hlen. unfold base64urlToBuffer.
  rewrite !replace_all_one.
  set (base64 := map _ (map _ s)).
  assert (Hlen' : length base64 = length s)
    by (unfold base64; now rewrite !length_map).
  assert (Hws' : Forall (fun c => negb (is_ascii_whitespace c) = true) base64).
  { unfold base64. rewrite !List.Forall_map. apply Forall_forall.
    intros x Hx. apply list_elem_of_In in Hx.
    rewrite forallb_forall in Hws. specialize (Hws x Hx).
    revert Hws. unfold is_ascii_whitespace. cc_norm.
    zbool; cbn; congruence || lia. }
  unfold padEnd. rewrite Hlen', Hlen.
  replace (Z.to_nat (Z.of_nat (length s) + (4 - 1) mod 4
                     - Z.of_nat (length s))) with 3%nat
    by (change ((4 - 1) mod 4) with 3; lia).
  unfold atob. rewrite filter_all.
  2:{ apply Forall_app. split; [exact Hws' |].
      apply Forall_forall. intros x Hx.
      apply elem_of_replicate in Hx as [-> _]. reflexivity. }
  rewrite length_app, length_replicate, Hlen'.
  replace (Z.of_nat (length s + 3) mod 4 =? 0) with true
    by (symmetry; apply Z.eqb_eq; Z.div_mod_to_equations; lia).
  rewrite strip_padding_three, length_app, Hlen'. cbn [length].
  replace (Z.of_nat (length s + 1) mod 4 =? 1) with false
    by (symmetry; apply Z.eqb_neq; Z.div_mod_to_equations; lia).
  now rewrite b64_values_bad_end.
Qed.

Lemma base64urlToBuffer_rejects_bad_length_witness :
  base64urlToBuffer [65; 81; 73; 68; 65] = Throw InvalidCharacterError.
Proof.
  apply (base64urlToBuffer_rejects_bad_length [65; 81; 73; 68; 65]).
  - reflexivity.
  - reflexivity.
Defined.

(** * Further properties of the sponsored flow *)

(** ** Running a sequence step by step *)

Lemma bind_Ok {A B} (m : M A) (k : A -> M B) (w w' : World) (a : A) :
  m w = (Ok a, w') -> bind m k w = k a w'.
Proof. unfold bind. now intros ->. Qed.


Lemma try_catch_Ok {A} (m : M A) (h : JsError -> M A) (w w' : World) (a : A) :
  m w = (Ok a, w') -> try_catch m h w = (Ok a, w').
Proof. unfold try_catch. now intros ->. Qed.


Section FlowFacts.
Context `{Library}.

(** Sponsor resolution, evaluated. *)
Lemma getSponsorWallet_run (w : World) :
  getSponsorWallet w =
  let random := (Ok (entropy w (drawn w)), with_drawn w (S (drawn w))) in
  match env w !! "LAZORKIT_SPONSOR_PRIVATE_KEY" with
  | Some key =>
      if truthy key && negb (String.eqb key sponsor_placeholder) then
        match result_bind (bs58_decode key) Keypair_fromSecretKey with
        | Ok kp => (Ok kp, w)
        | Throw _ =>
            (Ok (entropy w (drawn w)),
             with_drawn
               (with_console w
                  (console w
                   ++ [{| level := WarnLevel;
                          printed :=
                            ["Invalid sponsor key, using random sponsor"] |}]))
               (S (drawn w)))
        end
      else random
  | None => random
  end.
Proof.
  unfold getSponsorWallet, bind at 1, getenv. cbv beta zeta.
  destruct (env w !! "LAZORKIT_SPONSOR_PRIVATE_KEY") as [key |];
    [| reflexivity].
  destruct (truthy key && negb (String.eqb key sponsor_placeholder));
    [| reflexivity].
  unfold try_catch, bind at 1, lift, result_bind.
  destruct (bs58_decode key) as [secret | e1]; [| reflexivity].
  destruct (Keypair_fromSecretKey secret) as [kp | e2]; reflexivity.
Qed.

(** The three ways sponsor resolution ends. *)
Lemma getSponsorWallet_cases (w : World) :
  (exists key secret kp,
      env w !! "LAZORKIT_SPONSOR_PRIVATE_KEY" = Some key
      /\ bs58_decode key = Ok secret
      /\ Keypair_fromSecretKey secret = Ok kp
      /\ getSponsorWallet w = (Ok kp, w))
  \/ getSponsorWallet w
     = (Ok (entropy w (drawn w)), with_drawn w (S (drawn w)))
  \/ getSponsorWallet w
     = (Ok (entropy w (drawn w)),
        with_drawn
          (with_console w
             (console w
              ++ [{| level := WarnLevel;
                     printed :=
                       ["Invalid sponsor key, using random sponsor"] |}]))
          (S (drawn w))).
Proof.
  rewrite getSponsorWallet_run. cbv zeta.
  destruct (env w !! "LAZORKIT_SPONSOR_PRIVATE_KEY") as [key |] eqn:Henv;
    [| right; left; reflexivity].
  destruct (truthy key && negb (String.eqb key sponsor_placeholder));
    [| right; left; reflexivity].
  unfold result_bind.
  destruct (bs58_decode key) as [secret | e1] eqn:Hdec;
    [| right; right; reflexivity].
  destruct (Keypair_fromSecretKey secret) as [kp | e2] eqn:Hkp;
    [| right; right; reflexivity].
  left. exists key, secret, kp. repeat split; assumption.
Qed.

(** X7: sponsor resolution never throws and sends nothing to the ledger:
    it returns either the key decoded from the configured secret, leaving
    everything as it was, or the next random key, of which it then has
    drawn exactly one. *)
Theorem sponsor_resolution_total (w : World) :
  exists kp w',
    getSponsorWallet w = (Ok kp, w')
    /\ requests w' = requests w
    /\ ((w' = w
         /\ exists key secret,
              env w !! "LAZORKIT_SPONSOR_PRIVATE_KEY" = Some key
              /\ bs58_decode key = Ok secret
              /\ Keypair_fromSecretKey secret = Ok kp)
        \/ (kp = entropy w (drawn w) /\ drawn w' = S (drawn w))).
Proof.
  destruct (getSponsorWallet_cases w)
    as [(key & secret & kp & Henv & Hdec & Hkp & Hrun) | [Hrun | Hrun]];
    rewrite Hrun; eexists _, _; (split; [reflexivity |]);
    (split; [reflexivity |]).
  - left. split; [reflexivity |]. eauto.
  - right. split; reflexivity.
  - right. split; reflexivity.
Qed.

(** ** [sendSponsoredTransaction], evaluated *)

Lemma sendSponsoredTransaction_run (t : Transaction)
      (userKeypair sponsorKeypair : Keypair) (w : World) :
  sendSponsoredTransaction t userKeypair sponsorKeypair w =
  match partialSign t userKeypair with
  | Throw e => send_failure e w
  | Ok t1 =>
      match partialSign t1 sponsorKeypair with
      | Throw e => send_failure e w
      | Ok t2 =>
          match serialize t2 with
          | Throw e => send_failure e w
          | Ok bytes =>
              let w1 :=
                with_requests w (requests w ++ [SendRawTransaction bytes]) in
              match rpc_send w bytes with
              | Throw e => send_failure e w1
              | Ok sig =>
                  let w2 :=
                    with_requests w
                      (requests w ++ [SendRawTransaction bytes;
                                      ConfirmTransaction sig]) in
                  match rpc_confirm w sig with
                  | Throw e => send_failure e w2
                  | Ok _ => (Ok sig, w2)
                  end
              end
          end
      end
  end.
Proof.
  unfold sendSponsoredTransaction, try_catch.
  unfold bind at 1, lift at 1.
  destruct (partialSign t userKeypair) as [t1 | e]; [| reflexivity].
  unfold bind at 1, lift at 1.
  destruct (partialSign t1 sponsorKeypair) as [t2 | e]; [| reflexivity].
  unfold bind at 1, lift at 1.
  destruct (serialize t2) as [bytes | e]; [| reflexivity].
  unfold bind, sendRawTransaction, confirmTransaction, rpc, ret.
  cbn [rpc_send rpc_confirm requests with_requests].
  destruct (rpc_send w bytes) as [sig | e]; [| reflexivity].
  rewrite <- app_assoc. cbn [app].
  destruct (rpc_confirm w sig) as [[] | e]; reflexivity.
Qed.

(** The send flow when every step succeeds. *)
Lemma send_success_run (t t1 t2 : Transaction)
      (userKeypair sponsorKeypair : Keypair) (w : World) (sig : string) :
  partialSign t userKeypair = Ok t1 ->
  partialSign t1 sponsorKeypair = Ok t2 ->
  forallb (signed_by t2) (requiredSigners t2) = true ->
  rpc_send w (wire_bytes t2) = Ok sig ->
  rpc_confirm w sig = Ok tt ->
  sendSponsoredTransaction t userKeypair sponsorKeypair w
  = (Ok sig,
     with_requests w
       (requests w ++ [SendRawTransaction (wire_bytes t2);
                       ConfirmTransaction sig])).
Proof.
  intros H1 H2 Hall Hsend Hconf.
  rewrite sendSponsoredTransaction_run, H1, H2.
  assert (Hser : serialize t2 = Ok (wire_bytes t2))
    by (apply serialize_Ok; split; [exact Hall | reflexivity]).
  rewrite Hser. cbv zeta. now rewrite Hsend, Hconf.
Qed.


(** X9: the send flow returns a signature exactly when both signers sign,
    every required signer has signed, and the ledger accepts and confirms
    the transaction; it then has sent the wire bytes and the confirmation
    request, in this order, and written nothing to the console. *)
Theorem send_success_iff (t : Transaction)
        (userKeypair sponsorKeypair : Keypair) (w w' : World) (sig : string) :
  sendSponsoredTransaction t userKeypair sponsorKeypair w = (Ok sig, w')
  <-> exists t1 t2,
        partialSign t userKeypair = Ok t1
        /\ partialSign t1 sponsorKeypair = Ok t2
        /\ forallb (signed_by t2) (requiredSigners t2) = true
        /\ rpc_send w (wire_bytes t2) = Ok sig
        /\ rpc_confirm w sig = Ok tt
        /\ w' = with_requests w
                  (requests w ++ [SendRawTransaction (wire_bytes t2);
                                  ConfirmTransaction sig]).
Proof.
  rewrite sendSponsoredTransaction_run. unfold send_failure. split.
  - destruct (partialSign t userKeypair) as [t1 | e1] eqn:H1;
      [| discriminate].
    destruct (partialSign t1 sponsorKeypair) as [t2 | e2] eqn:H2;
      [| discriminate].
    destruct (serialize t2) as [bytes | e3] eqn:Hser; [| discriminate].
    apply serialize_Ok in Hser as [Hall ->]. cbv zeta.
    destruct (rpc_send w (wire_bytes t2)) as [sig' | e4] eqn:Hsend;
      [| discriminate].
    destruct (rpc_confirm w sig') as [[] | e5] eqn:Hconf; [| discriminate].
    intros [= -> <-]. exists t1, t2. repeat split; assumption.
  - intros (t1 & t2 & H1 & H2 & Hall & Hsend & Hconf & ->).
    rewrite H1, H2.
    assert (Hser : serialize t2 = Ok (wire_bytes t2))
      by (apply serialize_Ok; split; [exact Hall | reflexivity]).
    rewrite Hser. cbv zeta. now rewrite Hsend, Hconf.
Qed.

(** X10: when the ledger accepts the transaction and the confirmation then
    fails, the flow throws although the transaction has been sent. *)
Theorem send_unconfirmed_still_sent (t t1 t2 : Transaction)
        (userKeypair sponsorKeypair : Keypair) (w : World) (sig : string)
        (e : JsError) :
  partialSign t userKeypair = Ok t1 ->
  partialSign t1 sponsorKeypair = Ok t2 ->
  forallb (signed_by t2) (requiredSigners t2) = true ->
  rpc_send w (wire_bytes t2) = Ok sig ->
  rpc_confirm w sig = Throw e ->
  exists w',
    sendSponsoredTransaction t userKeypair sponsorKeypair w
    = (Throw (Error_new ("Transaction failed: " ++ err_message e)), w')
    /\ requests w' =
       requests w ++ [SendRawTransaction (wire_bytes t2);
                      ConfirmTransaction sig].
Proof.
  intros H1 H2 Hall Hsend Hconf.
  rewrite sendSponsoredTransaction_run, H1, H2.
  assert (Hser : serialize t2 = Ok (wire_bytes t2))
    by (apply serialize_Ok; split; [exact Hall | reflexivity]).
  rewrite Hser. cbv zeta. rewrite Hsend, Hconf.
  eexists. split; reflexivity.
Qed.

End FlowFacts.


Lemma send_success_iff_witness :
  exists w',
    @sendSponsoredTransaction toy_library toy_unsigned (toy_key 1) (toy_key 2)
      (toy_world None (Some "H"))
    = (Ok "5VERv8NMvzbJMEkV8xnrLkEaWRtSz9CosKDYjCJjBRnb", w').
Proof.
  eexists.
  apply (@send_success_iff toy_library toy_unsigned (toy_key 1) (toy_key 2)
           (toy_world None (Some "H"))).
  eexists _, _.
  split; [vm_compute; reflexivity |].
  split; [vm_compute; reflexivity |].
  split; [vm_compute; reflexivity |].
  split; [reflexivity |]. split; reflexivity.
Defined.

Lemma send_unconfirmed_still_sent_witness :
  exists w',
    @sendSponsoredTransaction toy_library toy_unsigned (toy_key 1) (toy_key 2)
      toy_world_unconfirmed
    = (Throw (Error_new ("Transaction failed: "
                         ++ err_message (Error_new "block height exceeded"))),
       w')
    /\ exists bytes,
         requests w' =
         requests toy_world_unconfirmed
         ++ [SendRawTransaction bytes;
             ConfirmTransaction
               "5VERv8NMvzbJMEkV8xnrLkEaWRtSz9CosKDYjCJjBRnb"].
Proof.
  destruct (@send_unconfirmed_still_sent toy_library toy_unsigned
              _ _ (toy_key 1) (toy_key 2) toy_world_unconfirmed
              "5VERv8NMvzbJMEkV8xnrLkEaWRtSz9CosKDYjCJjBRnb"
              (Error_new "block height exceeded")
              eq_refl eq_refl eq_refl eq_refl eq_refl) as (w' & Hrun & Hreq).
  exists w'. split; [exact Hrun |]. eexists. exact Hreq.
Defined.

Section ExecuteFacts.
Context `{Library}.


(** X12: the whole gasless flow, when every step succeeds with no sponsor
    secret configured: the sponsor is the next random key; the ledger
    receives the blockhash request, the wire bytes and the confirmation
    request, in this order; the result carries the ledger's signature and
    the sponsor's address, which is the fee payer of the transaction. *)
Theorem execute_success (wallet : LazorkitWallet) (memo : string) (w : World)
        (userWallet memoProgram : PublicKey) (h : option string)
        (t1 t2 : Transaction) (sig : string) :
  let sponsorKeypair := entropy w (drawn w) in
  let t := {| signatures := [];
              feePayer := Some (publicKey sponsorKeypair);
              instructions := [memo_instruction memoProgram userWallet memo];
              recentBlockhash := h |} in
  sponsor_unconfigured w ->
  PublicKey_new (address wallet) = Ok userWallet ->
  PublicKey_new MEMO_PROGRAM_ID_text = Ok memoProgram ->
  rpc_blockhash w = Ok h ->
  partialSign t (keypair wallet) = Ok t1 ->
  partialSign t1 sponsorKeypair = Ok t2 ->
  forallb (signed_by t2) (requiredSigners t2) = true ->
  rpc_send w (wire_bytes t2) = Ok sig ->
  rpc_confirm w sig = Ok tt ->
  exists w',
    executeGaslessTransaction wallet memo w
    = (Ok {| gr_signature := sig;
             sponsor := toBase58 (publicKey sponsorKeypair);
             feeSaved := (5 # 1000000)%Q |}, w')
    /\ requests w' =
       requests w ++ [GetLatestBlockhash;
                      SendRawTransaction (wire_bytes t2);
                      ConfirmTransaction sig]
    /\ drawn w' = S (drawn w)
    /\ console w' =
       console w
       ++ [{| level := LogLevel;
              printed := ["Creating gasless transaction..."] |};
           {| level := LogLevel;
              printed := ["Transaction created with sponsor:";
                          toBase58 (publicKey sponsorKeypair)] |};
           {| level := LogLevel;
              printed := ["Fee payer:";
                          toBase58 (publicKey sponsorKeypair)] |};
           {| level := LogLevel;
              printed := ["Transaction sent:"; sig] |}].
Proof.
  intros sponsorKeypair t Hun Haddr Hmemo Hhash H1 H2 Hall Hsend Hconf.
  unfold executeGaslessTransaction.
  eexists. split.
  - apply try_catch_Ok.
    erewrite bind_Ok by reflexivity.
    erewrite bind_Ok by (apply getSponsorWallet_unconfigured; exact Hun).
    erewrite bind_Ok by (unfold lift; rewrite Haddr; reflexivity).
    erewrite bind_Ok
      by (apply createMemoTransaction_run; [exact Hmemo | exact Hhash]).
    erewrite bind_Ok by reflexivity.
    erewrite bind_Ok by reflexivity.
    erewrite bind_Ok.
    2:{ apply send_success_run with (t1 := t1) (t2 := t2);
          [exact H1 | exact H2 | exact Hall | exact Hsend | exact Hconf]. }
    erewrite bind_Ok by reflexivity.
    reflexivity.
  - cbn. rewrite <- !app_assoc. repeat split; reflexivity.
Qed.

End ExecuteFacts.


Lemma execute_success_witness :
  exists w',
    (@executeGaslessTransaction toy_library toy_wallet "hello"
       (toy_world None (Some "H"))).1
    = Ok {| gr_signature := "5VERv8NMvzbJMEkV8xnrLkEaWRtSz9CosKDYjCJjBRnb";
            sponsor := "AAAAAAAAAAAAAAAAAAAAAAAAAAAAAAAA";
            feeSaved := (5 # 1000000)%Q |}
    /\ exists bytes,
         requests w' =
         [GetLatestBlockhash; SendRawTransaction bytes;
          ConfirmTransaction "5VERv8NMvzbJMEkV8xnrLkEaWRtSz9CosKDYjCJjBRnb"]
         /\ w' = (@executeGaslessTransaction toy_library toy_wallet "hello"
                    (toy_world None (Some "H"))).2.
Proof.
  destruct (@execute_success toy_library toy_wallet "hello"
              (toy_world None (Some "H"))
              (publicKey (toy_key 1)) toy_memo_program (Some "H")
              _ _ "5VERv8NMvzbJMEkV8xnrLkEaWRtSz9CosKDYjCJjBRnb"
              (or_introl eq_refl) eq_refl eq_refl eq_refl eq_refl eq_refl
              eq_refl eq_refl eq_refl)
    as (w' & Hrun & Hreq & _ & _).
  exists w'. rewrite Hrun. split; [reflexivity |].
  eexists. split; [exact Hreq | reflexivity].
Defined.

(** * Session storage *)

(** X13: in a browser, a stored credential id is read back, and storing it
    touches no other key; on the server side storing does nothing and
    nothing is read. *)
Theorem credential_store_lookup (credentialId : string)
        (window : option (gmap string string)) :
  getStoredCredentialId (storeCredentialId credentialId window)
  = match window with Some _ => Some credentialId | None => None end
  /\ match window, storeCredentialId credentialId window with
     | Some before, Some after =>
         forall key, key <> "passkey_credential_id" ->
                     after !! key = before !! key
     | None, None => True
     | _, _ => False
     end.
Proof.
  destruct window as [localStorage |]; cbn.
  - split; [apply lookup_insert_eq |].
    intros key Hkey. now apply lookup_insert_ne.
  - split; [reflexivity | exact I].
Qed.

(** X14: the two functions that end a session, one in each file, do the
    same; after either no session exists, no wallet and no credential id is
    read, and every key but the three session keys is as before. *)
Theorem clear_session_complete (window : option (gmap string string)) :
  clearWalletSession window = clearStoredCredential window
  /\ hasExistingSession (clearWalletSession window) = false
  /\ getSessionWallet (clearWalletSession window) = None
  /\ getStoredCredentialId (clearWalletSession window) = None
  /\ match window, clearWalletSession window with
     | Some before, Some after =>
         forall key,
           key <> "passkey_credential_id" -> key <> "wallet_address" ->
           key <> "wallet_public_key" ->
           after !! key = before !! key
     | None, None => True
     | _, _ => False
     end.
Proof.
  destruct window as [localStorage |]; cbn;
    [| repeat split; reflexivity].
  split; [reflexivity |].
  assert (Hcred :
            delete "wallet_public_key"
              (delete "wallet_address"
                 (delete "passkey_credential_id" localStorage))
            !! "passkey_credential_id" = None).
  { rewrite !lookup_delete_ne by discriminate. apply lookup_delete_eq. }
  assert (Haddr :
            delete "wallet_public_key"
              (delete "wallet_address"
                 (delete "passkey_credential_id" localStorage))
            !! "wallet_address" = None).
  { rewrite lookup_delete_ne by discriminate. apply lookup_delete_eq. }
  rewrite Hcred, Haddr. cbn.
  repeat split.
  intros key H1 H2 H3. now rewrite !lookup_delete_ne by congruence.
Qed.

(** * The browser side *)

Lemma bbind_Ok {A B} (m : BM A) (k : A -> BM B) (b b' : Browser) (a : A) :
  m b = (Ok a, b') -> bbind m k b = k a b'.
Proof. unfold bbind. now intros ->. Qed.

Lemma bbind_Throw {A B} (m : BM A) (k : A -> BM B) (b b' : Browser)
      (e : JsError) :
  m b = (Throw e, b') -> bbind m k b = (Throw e, b').
Proof. unfold bbind. now intros ->. Qed.

Lemma btry_catch_Ok {A} (m : BM A) (h : JsError -> BM A) (b b' : Browser)
      (a : A) :
  m b = (Ok a, b') -> btry_catch m h b = (Ok a, b').
Proof. unfold btry_catch. now intros ->. Qed.

Lemma btry_catch_Throw {A} (m : BM A) (h : JsError -> BM A) (b b' : Browser)
      (e : JsError) :
  m b = (Throw e, b') -> btry_catch m h b = h e b'.
Proof. unfold btry_catch. now intros ->. Qed.

Lemma random_bytes_u8 (b : Browser) (start n : nat) :
  u8_array (random_bytes_at b start n) /\ length (random_bytes_at b start n) = n.
Proof.
  unfold random_bytes_at. split.
  - unfold u8_array. rewrite List.Forall_map. apply Forall_forall.
    intros k _. unfold ToUint8. apply Z.mod_pos_bound. lia.
  - now rewrite length_map, length_seq.
Qed.

Lemma random_text (b : Browser) (start n : nat) :
  bufferToBase64url (random_bytes_at b start n)
  = Ok (map url_char (b64_sextets (random_bytes_at b start n))).
Proof. apply bufferToBase64url_run, random_bytes_u8. Qed.

(** [createPasskey], evaluated. *)
Lemma createPasskey_run (username : string) (b : Browser) :
  createPasskey username b =
  let b1 := with_random_drawn b (random_drawn b + 32 + 32)%nat in
  let fail cause :=
    passkey_failure "Failed to create passkey: " "Passkey creation failed:"
      cause b1 in
  match startRegistration b (creation_options username b) with
  | Throw e => fail e
  | Ok credential =>
      match rc_publicKey credential with
      | None => fail TypeError_undefined
      | Some text =>
          match base64urlToBuffer text with
          | Throw e => fail e
          | Ok publicKeyBytes =>
              match base64urlToBuffer (rc_rawId credential) with
              | Throw e => fail e
              | Ok rawIdBytes =>
                  (Ok {| pc_credentialId := rc_id credential;
                         pc_publicKey := publicKeyBytes;
                         pc_rawId := rawIdBytes |}, b1)
              end
          end
      end
  end.
Proof.
  pose proof (random_text b (random_drawn b) 32) as Hc.
  pose proof (random_text b (random_drawn b + 32) 32) as Hu.
  cbv beta iota zeta delta
      [createPasskey btry_catch bbind generateChallenge getRandomValues
       blift RP_NAME RP_ID env_or bret bthrow in_world console_error
       console_write creation_options rp_name_of rp_id_of passkey_failure
       with_line].
  cbn [random_drawn random_values world startRegistration with_random_drawn].
  fold (random_bytes_at b (random_drawn b) 32).
  fold (random_bytes_at b (random_drawn b + 32) 32).
  rewrite Hc, Hu.
  destruct (startRegistration b _) as [credential | e]; [| reflexivity].
  destruct (rc_publicKey credential) as [text |]; [| reflexivity].
  destruct (base64urlToBuffer text) as [publicKeyBytes | e]; [| reflexivity].
  destruct (base64urlToBuffer (rc_rawId credential)) as [rawIdBytes | e];
    reflexivity.
Qed.

(** [authenticatePasskey], evaluated. *)
Lemma authenticatePasskey_run (b : Browser) :
  authenticatePasskey b =
  let b1 := with_random_drawn b (random_drawn b + 32)%nat in
  let fail cause :=
    passkey_failure "Failed to authenticate with passkey: "
      "Passkey authentication failed:" cause b1 in
  match startAuthentication b (request_options b) with
  | Throw e => fail e
  | Ok credential =>
      match base64urlToBuffer (ac_signature credential) with
      | Throw e => fail e
      | Ok signature =>
          match base64urlToBuffer (ac_authenticatorData credential) with
          | Throw e => fail e
          | Ok authenticatorData =>
              match base64urlToBuffer (ac_clientDataJSON credential) with
              | Throw e => fail e
              | Ok clientDataJSON =>
                  (Ok {| pa_credentialId := ac_id credential;
                         pa_signature := signature;
                         pa_authenticatorData := authenticatorData;
                         pa_clientDataJSON := clientDataJSON |}, b1)
              end
          end
      end
  end.
Proof.
  pose proof (random_text b (random_drawn b) 32) as Hc.
  cbv beta iota zeta delta
      [authenticatePasskey btry_catch bbind generateChallenge getRandomValues
       blift RP_ID env_or bret bthrow in_world console_error
       console_write request_options rp_id_of passkey_failure with_line].
  cbn [random_drawn random_values world startAuthentication
       with_random_drawn].
  fold (random_bytes_at b (random_drawn b) 32).
  rewrite Hc.
  destruct (startAuthentication b _) as [credential | e]; [| reflexivity].
  destruct (base64urlToBuffer (ac_signature credential)) as [sig | e];
    [| reflexivity].
  destruct (base64urlToBuffer (ac_authenticatorData credential))
    as [authenticatorData | e]; [| reflexivity].
  destruct (base64urlToBuffer (ac_clientDataJSON credential))
    as [clientDataJSON | e]; reflexivity.
Qed.

Section WalletFacts.
Context `{Library}.

(** The derivation of a wallet from a credential key never throws. *)
Lemma createWalletFromPasskey_total (publicKeyBytes : list Z) :
  exists kp,
    deriveKeypairFromPasskey publicKeyBytes = Ok kp
    /\ createWalletFromPasskey publicKeyBytes
       = Ok {| w_keypair := kp;
               w_address := toBase58 (publicKey kp);
               w_publicKey := bs58_encode (toBytes (publicKey kp)) |}.
Proof.
  destruct (Keypair_fromSeed_32 (derive_seed publicKeyBytes)
              (derive_seed_length publicKeyBytes)) as [kp Hkp].
  exists kp. unfold createWalletFromPasskey, deriveKeypairFromPasskey.
  rewrite Hkp. split; reflexivity.
Qed.

(** [createLazorkitWallet], evaluated. *)
Lemma createLazorkitWallet_run (username : string) (b : Browser) :
  createLazorkitWallet username b =
  let b0 := with_line b LogLevel ["Creating passkey credential..."] in
  match createPasskey username b0 with
  | (Throw e, b1) =>
      (Throw e,
       with_line b1 ErrorLevel
         ["Failed to create Lazorkit wallet:"; err_message e])
  | (Ok created, b1) =>
      let b2 := with_line b1 LogLevel ["Deriving wallet from passkey..."] in
      match createWalletFromPasskey (pc_publicKey created) with
      | Throw e =>
          (Throw e,
           with_line b2 ErrorLevel
             ["Failed to create Lazorkit wallet:"; err_message e])
      | Ok wallet =>
          (Ok {| address := w_address wallet;
                 lw_publicKey := w_publicKey wallet;
                 credentialId := pc_credentialId created;
                 keypair := w_keypair wallet |},
           with_line
             (with_window b2
                (stored_session (pc_credentialId created) (w_address wallet)
                   (w_publicKey wallet) (window b1)))
             LogLevel ["Lazorkit wallet created:"; w_address wallet])
      end
  end.
Proof.
  cbv beta iota zeta delta
      [createLazorkitWallet btry_catch bbind in_world console_log
       console_error console_write blift bret bthrow with_line].
  destruct (createPasskey username _) as [[created | e] b1]; [| reflexivity].
  destruct (createWalletFromPasskey (pc_publicKey created)) as [wallet | e];
    [| reflexivity].
  unfold localStorage_setItem, storeCredentialId, stored_session, bbind.
  cbn [window with_world with_window].
  destruct (window b1) as [localStorage |]; reflexivity.
Qed.

End WalletFacts.

Section RecoverFacts.
Context `{Library}.

(** [recoverLazorkitWallet], evaluated. *)
Lemma recoverLazorkitWallet_run (b : Browser) :
  recoverLazorkitWallet b =
  let b0 := with_line b LogLevel ["Authenticating with passkey..."] in
  match authenticatePasskey b0 with
  | (Throw e, b1) =>
      (Throw e,
       with_line b1 ErrorLevel ["Failed to recover wallet:"; err_message e])
  | (Ok authenticated, b1) =>
      match window b1 with
      | Some localStorage =>
          match localStorage !! "wallet_address" with
          | Some storedAddress =>
              if truthy storedAddress then
                let b2 :=
                  with_line b1 LogLevel ["Wallet recovered:"; storedAddress] in
                (Ok {| address := storedAddress;
                       lw_publicKey :=
                         default "" (localStorage !! "wallet_public_key");
                       credentialId := pa_credentialId authenticated;
                       keypair := entropy (world b1) (drawn (world b1)) |},
                 with_world b2
                   (with_drawn (world b2) (S (drawn (world b1)))))
              else no_wallet_found b1
          | None => no_wallet_found b1
          end
      | None => no_wallet_found b1
      end
  end.
Proof.
  cbv beta iota zeta delta
      [recoverLazorkitWallet btry_catch bbind in_world console_log
       console_error console_write blift bret bthrow with_line
       no_wallet_found Keypair_generate localStorage_getItem].
  destruct (authenticatePasskey _) as [[authenticated | e] b1];
    [| reflexivity].
  destruct (window b1) as [localStorage |] eqn:Hwin; [| reflexivity].
  destruct (localStorage !! "wallet_address") as [storedAddress |];
    [| reflexivity].
  destruct (truthy storedAddress); [| reflexivity].
  cbn [window with_world]. rewrite Hwin.
  destruct (localStorage !! "wallet_public_key") as [item |];
    [| reflexivity].
  unfold truthy_item, truthy. cbn [default].
  destruct (String.eqb_spec item ""); [subst item |]; reflexivity.
Qed.

End RecoverFacts.

(** ** Creating a passkey *)

(** X15: [createPasskey] returns a credential exactly when the
    authenticator answers the request and the response carries a public key
    and a raw id that both decode; it then has drawn 64 random values and
    touched neither the storage nor the console. *)
Theorem createPasskey_success_iff (username : string) (b b' : Browser)
        (created : PasskeyCreated) :
  createPasskey username b = (Ok created, b')
  <-> exists credential text,
        startRegistration b (creation_options username b) = Ok credential
        /\ rc_publicKey credential = Some text
        /\ base64urlToBuffer text = Ok (pc_publicKey created)
        /\ base64urlToBuffer (rc_rawId credential) = Ok (pc_rawId created)
        /\ pc_credentialId created = rc_id credential
        /\ b' = with_random_drawn b (random_drawn b + 32 + 32)%nat.
Proof.
  rewrite createPasskey_run. cbv zeta. unfold passkey_failure. split.
  - destruct (startRegistration b (creation_options username b))
      as [credential | e]; [| discriminate].
    destruct (rc_publicKey credential) as [text |] eqn:Hpk; [| discriminate].
    destruct (base64urlToBuffer text) as [publicKeyBytes | e] eqn:Hdec;
      [| discriminate].
    destruct (base64urlToBuffer (rc_rawId credential)) as [rawIdBytes | e]
      eqn:Hraw; [| discriminate].
    intros [= <- <-]. exists credential, text. repeat split; assumption.
  - intros (credential & text & Hreg & Hpk & Hdec & Hraw & Hid & ->).
    rewrite Hreg, Hpk, Hdec, Hraw, <- Hid. now destruct created.
Qed.

Lemma createPasskey_success_iff_witness :
  createPasskey "alice" (toy_browser (Some ∅))
  = (Ok {| pc_credentialId := "credential-1";
           pc_publicKey := [1; 2; 3];
           pc_rawId := [1; 2; 3] |},
     with_random_drawn (toy_browser (Some ∅)) 64).
Proof.
  apply (createPasskey_success_iff "alice" (toy_browser (Some ∅))).
  exists toy_registration, [65; 81; 73; 68].
  repeat split; reflexivity.
Defined.

(** X16: the challenge and the user id that [createPasskey] hands to the
    authenticator are the base64url texts of two separate runs of 32 random
    bytes: each has 43 URL-safe characters and decodes to its bytes. *)
Theorem createPasskey_challenge (username : string) (b b' : Browser)
        (created : PasskeyCreated) :
  createPasskey username b = (Ok created, b') ->
  exists options credential,
    startRegistration b options = Ok credential
    /\ pc_credentialId created = rc_id credential
    /\ co_user_name options = username
    /\ base64urlToBuffer (co_challenge options)
       = Ok (random_bytes_at b (random_drawn b) 32)
    /\ base64urlToBuffer (co_user_id options)
       = Ok (random_bytes_at b (random_drawn b + 32) 32)
    /\ length (co_challenge options) = 43%nat
    /\ length (co_user_id options) = 43%nat
    /\ forallb is_url_safe (co_challenge options) = true
    /\ forallb is_url_safe (co_user_id options) = true.
Proof.
  rewrite createPasskey_run. cbv zeta. unfold passkey_failure.
  destruct (startRegistration b (creation_options username b))
    as [credential | e] eqn:Hreg; [| discriminate].
  destruct (rc_publicKey credential) as [text |]; [| discriminate].
  destruct (base64urlToBuffer text) as [publicKeyBytes | e]; [| discriminate].
  destruct (base64urlToBuffer (rc_rawId credential)) as [rawIdBytes | e];
    [| discriminate].
  intros [= <- <-].
  exists (creation_options username b), credential.
  assert (Hshape : forall start,
            base64urlToBuffer
              (map url_char (b64_sextets (random_bytes_at b start 32)))
            = Ok (random_bytes_at b start 32)
            /\ length (map url_char
                         (b64_sextets (random_bytes_at b start 32))) = 43%nat
            /\ forallb is_url_safe
                 (map url_char (b64_sextets (random_bytes_at b start 32)))
               = true).
  { intros start. destruct (random_bytes_u8 b start 32) as [Hu8 Hlen].
    split; [apply base64urlToBuffer_url, Hu8 |]. split.
    - rewrite length_map. apply Nat2Z.inj.
      rewrite b64_sextets_length, Hlen. reflexivity.
    - apply forallb_forall. intros c Hc. apply in_map_iff in Hc.
      destruct Hc as (v & <- & Hv). apply url_char_safe.
      pose proof (b64_sextets_range _ Hu8) as Hrange.
      rewrite Forall_forall in Hrange. apply Hrange, list_elem_of_In, Hv. }
  destruct (Hshape (random_drawn b)) as (Hc1 & Hc2 & Hc3).
  destruct (Hshape (random_drawn b + 32)%nat) as (Hu1 & Hu2 & Hu3).
  cbn [creation_options co_challenge co_user_id co_user_name].
  repeat split; assumption || reflexivity.
Qed.

Lemma createPasskey_challenge_witness :
  exists options credential,
    startRegistration (toy_browser (Some ∅)) options = Ok credential
    /\ "credential-1" = rc_id credential
    /\ co_user_name options = "alice"
    /\ base64urlToBuffer (co_challenge options)
       = Ok (random_bytes_at (toy_browser (Some ∅)) 0 32)
    /\ base64urlToBuffer (co_user_id options)
       = Ok (random_bytes_at (toy_browser (Some ∅)) 32 32)
    /\ length (co_challenge options) = 43%nat
    /\ length (co_user_id options) = 43%nat
    /\ forallb is_url_safe (co_challenge options) = true
    /\ forallb is_url_safe (co_user_id options) = true.
Proof.
  apply (createPasskey_challenge "alice" (toy_browser (Some ∅))
           (with_random_drawn (toy_browser (Some ∅)) 64)
           {| pc_credentialId := "credential-1";
              pc_publicKey := [1; 2; 3];
              pc_rawId := [1; 2; 3] |}).
  rewrite createPasskey_run. reflexivity.
Defined.



(** X18: a registration response without a public key makes [createPasskey]
    fail: the decoder is called on [undefined], and the [TypeError] comes
    back wrapped. *)
Theorem createPasskey_missing_public_key (username : string) (b : Browser)
        (credential : RegistrationCredential) :
  startRegistration b (creation_options username b) = Ok credential ->
  rc_publicKey credential = None ->
  exists b',
    createPasskey username b
    = (Throw (Error_new ("Failed to create passkey: "
                         ++ err_message TypeError_undefined)), b')
    /\ window b' = window b.
Proof.
  intros Hreg Hpk. rewrite createPasskey_run, Hreg, Hpk. cbv zeta.
  eexists. split; reflexivity.
Qed.

Lemma createPasskey_missing_public_key_witness :
  exists b',
    createPasskey "alice" toy_browser_no_key
    = (Throw (Error_new ("Failed to create passkey: "
                         ++ err_message TypeError_undefined)), b')
    /\ window b' = window toy_browser_no_key.
Proof.
  apply (createPasskey_missing_public_key "alice" toy_browser_no_key
           {| rc_id := "credential-1";
              rc_rawId := [65; 81; 73; 68];
              rc_publicKey := None |}).
  - reflexivity.
  - reflexivity.
Defined.

(** [createPasskey] when the authenticator answers and the response
    decodes; a console line written before does not change the request. *)
Lemma createPasskey_success_run (username : string) (b : Browser)
      (l : ConsoleLevel) (args : list string)
      (credential : RegistrationCredential)
      (text publicKeyBytes rawId : list Z) :
  startRegistration b (creation_options username b) = Ok credential ->
  rc_publicKey credential = Some text ->
  base64urlToBuffer text = Ok publicKeyBytes ->
  base64urlToBuffer (rc_rawId credential) = Ok rawId ->
  createPasskey username (with_line b l args)
  = (Ok {| pc_credentialId := rc_id credential;
           pc_publicKey := publicKeyBytes;
           pc_rawId := rawId |},
     with_random_drawn (with_line b l args) (random_drawn b + 32 + 32)%nat).
Proof.
  intros Hreg Hpk Hdec Hraw. rewrite createPasskey_run. cbv zeta.
  change (startRegistration (with_line b l args)
            (creation_options username (with_line b l args)))
    with (startRegistration b (creation_options username b)).
  now rewrite Hreg, Hpk, Hdec, Hraw.
Qed.

(** The errors of [createPasskey]. *)
Lemma createPasskey_errors (username : string) (b b' : Browser) (e : JsError) :
  createPasskey username b = (Throw e, b') ->
  exists cause,
    e = Error_new ("Failed to create passkey: " ++ err_message cause)
    /\ window b' = window b.
Proof.
  rewrite createPasskey_run. cbv zeta. unfold passkey_failure.
  destruct (startRegistration b (creation_options username b))
    as [credential | e1];
    [| intros [= <- <-]; eexists; repeat split; reflexivity].
  destruct (rc_publicKey credential) as [text |];
    [| intros [= <- <-]; exists TypeError_undefined;
       repeat split; reflexivity].
  destruct (base64urlToBuffer text) as [publicKeyBytes | e2];
    [| intros [= <- <-]; eexists; repeat split; reflexivity].
  destruct (base64urlToBuffer (rc_rawId credential)) as [rawIdBytes | e3];
    [discriminate | intros [= <- <-]; eexists; repeat split; reflexivity].
Qed.

(** [authenticatePasskey] when the authenticator answers and the response
    decodes. *)
Lemma authenticatePasskey_success_run (b : Browser)
      (credential : AuthenticationCredential)
      (sig authenticatorData clientDataJSON : list Z)
      (l : ConsoleLevel) (args : list string) :
  startAuthentication b (request_options b) = Ok credential ->
  base64urlToBuffer (ac_signature credential) = Ok sig ->
  base64urlToBuffer (ac_authenticatorData credential) = Ok authenticatorData ->
  base64urlToBuffer (ac_clientDataJSON credential) = Ok clientDataJSON ->
  authenticatePasskey (with_line b l args)
  = (Ok {| pa_credentialId := ac_id credential;
           pa_signature := sig;
           pa_authenticatorData := authenticatorData;
           pa_clientDataJSON := clientDataJSON |},
     with_random_drawn (with_line b l args) (random_drawn b + 32)%nat).
Proof.
  intros Hauth Hsig Hdata Hjson. rewrite authenticatePasskey_run. cbv zeta.
  change (startAuthentication (with_line b l args)
            (request_options (with_line b l args)))
    with (startAuthentication b (request_options b)).
  now rewrite Hauth, Hsig, Hdata, Hjson.
Qed.

(** ** Creating and recovering a wallet *)

Section SessionFacts.
Context `{Library}.

(** The successful creation of a wallet, with what it leaves behind. *)
Lemma createLazorkitWallet_success (username : string) (b : Browser)
        (localStorage : gmap string string)
        (credential : RegistrationCredential) (text publicKeyBytes rawId : list Z) :
  window b = Some localStorage ->
  startRegistration b (creation_options username b) = Ok credential ->
  rc_publicKey credential = Some text ->
  base64urlToBuffer text = Ok publicKeyBytes ->
  base64urlToBuffer (rc_rawId credential) = Ok rawId ->
  exists kp b',
    deriveKeypairFromPasskey publicKeyBytes = Ok kp
    /\ createLazorkitWallet username b
       = (Ok {| address := toBase58 (publicKey kp);
                lw_publicKey := bs58_encode (toBytes (publicKey kp));
                credentialId := rc_id credential;
                keypair := kp |}, b')
    /\ window b' =
       Some (<["wallet_public_key" := bs58_encode (toBytes (publicKey kp))]>
               (<["wallet_address" := toBase58 (publicKey kp)]>
                  (<["passkey_credential_id" := rc_id credential]>
                     localStorage)))
    /\ getStoredCredentialId (window b') = Some (rc_id credential)
    /\ hasExistingSession (window b')
       = truthy (rc_id credential) && truthy (toBase58 (publicKey kp))
    /\ entropy (world b') = entropy (world b)
    /\ drawn (world b') = drawn (world b)
    /\ startAuthentication b' = startAuthentication b.
Proof.
  intros Hwin Hreg Hpk Hdec Hraw.
  destruct (createWalletFromPasskey_total publicKeyBytes) as (kp & Hkp & Hw).
  assert (Hcreated :
            createPasskey username
              (with_line b LogLevel ["Creating passkey credential..."])
            = (Ok {| pc_credentialId := rc_id credential;
                     pc_publicKey := publicKeyBytes;
                     pc_rawId := rawId |},
               with_random_drawn
                 (with_line b LogLevel ["Creating passkey credential..."])
                 (random_drawn b + 32 + 32)%nat)).
  { apply createPasskey_success_run with (credential := credential)
                                         (text := text);
      assumption. }
  exists kp. eexists.
  rewrite createLazorkitWallet_run. cbv zeta. rewrite Hcreated.
  cbn [pc_publicKey pc_credentialId]. rewrite Hw.
  cbn [w_address w_publicKey w_keypair window with_line with_world
       with_window with_random_drawn stored_session].
  rewrite Hwin. cbn [stored_session].
  split; [exact Hkp |]. split; [reflexivity |]. split; [reflexivity |].
  assert (Hcred :
            (<["wallet_public_key" := bs58_encode (toBytes (publicKey kp))]>
               (<["wallet_address" := toBase58 (publicKey kp)]>
                  (<["passkey_credential_id" := rc_id credential]>
                     localStorage)))
            !! "passkey_credential_id" = Some (rc_id credential)).
  { rewrite !lookup_insert_ne by discriminate. apply lookup_insert_eq. }
  assert (Haddr :
            (<["wallet_public_key" := bs58_encode (toBytes (publicKey kp))]>
               (<["wallet_address" := toBase58 (publicKey kp)]>
                  (<["passkey_credential_id" := rc_id credential]>
                     localStorage)))
            !! "wallet_address" = Some (toBase58 (publicKey kp))).
  { rewrite lookup_insert_ne by discriminate. apply lookup_insert_eq. }
  cbn [window with_line with_world with_window with_random_drawn].
  unfold hasExistingSession, getStoredCredentialId.
  rewrite Hcred, Haddr. repeat split; reflexivity.
Qed.

(** X19: in a browser, when the authenticator answers and its response
    decodes, [createLazorkitWallet] returns the wallet derived from the
    credential's public key and leaves a session behind: the credential id,
    the address and the public key are in the storage under their three
    keys, every other key is as before, and the credential id is read
    back. *)
Theorem createLazorkitWallet_stores_session (username : string) (b : Browser)
        (localStorage : gmap string string)
        (credential : RegistrationCredential) (text publicKeyBytes rawId : list Z) :
  window b = Some localStorage ->
  startRegistration b (creation_options username b) = Ok credential ->
  rc_publicKey credential = Some text ->
  base64urlToBuffer text = Ok publicKeyBytes ->
  base64urlToBuffer (rc_rawId credential) = Ok rawId ->
  exists kp b',
    deriveKeypairFromPasskey publicKeyBytes = Ok kp
    /\ createLazorkitWallet username b
       = (Ok {| address := toBase58 (publicKey kp);
                lw_publicKey := bs58_encode (toBytes (publicKey kp));
                credentialId := rc_id credential;
                keypair := kp |}, b')
    /\ window b' =
       Some (<["wallet_public_key" := bs58_encode (toBytes (publicKey kp))]>
               (<["wallet_address" := toBase58 (publicKey kp)]>
                  (<["passkey_credential_id" := rc_id credential]>
                     localStorage)))
    /\ getStoredCredentialId (window b') = Some (rc_id credential)
    /\ hasExistingSession (window b')
       = truthy (rc_id credential) && truthy (toBase58 (publicKey kp)).
Proof.
  intros Hwin Hreg Hpk Hdec Hraw.
  destruct (createLazorkitWallet_success username b localStorage credential
              text publicKeyBytes rawId Hwin Hreg Hpk Hdec Hraw)
    as (kp & b' & Hkp & Hrun & Hstore & Hcred & Hsession & _).
  exists kp, b'. repeat split; assumption.
Qed.

(** X20: when [createLazorkitWallet] fails, the failure is that of the
    passkey creation, and nothing has been stored. *)
Theorem createLazorkitWallet_failure_stores_nothing (username : string)
        (b b' : Browser) (e : JsError) :
  createLazorkitWallet username b = (Throw e, b') ->
  window b' = window b
  /\ exists cause,
       e = Error_new ("Failed to create passkey: " ++ err_message cause).
Proof.
  rewrite createLazorkitWallet_run. cbv zeta.
  destruct (createPasskey username _) as [[created | e1] b1] eqn:Hcreated.
  - destruct (createWalletFromPasskey_total (pc_publicKey created))
      as (kp & _ & Hw).
    rewrite Hw. discriminate.
  - intros [= <- <-].
    apply createPasskey_errors in Hcreated as (cause & -> & Hwin).
    split; [exact Hwin | eauto].
Qed.

(** X21: without a stored wallet address (no [window], no entry, or an
    empty one) recovery throws "No wallet found", after the authenticator
    has been asked and has answered; no key is generated. *)
Theorem recoverLazorkitWallet_without_address (b : Browser)
        (credential : AuthenticationCredential)
        (sig authenticatorData clientDataJSON : list Z) :
  startAuthentication b (request_options b) = Ok credential ->
  base64urlToBuffer (ac_signature credential) = Ok sig ->
  base64urlToBuffer (ac_authenticatorData credential) = Ok authenticatorData ->
  base64urlToBuffer (ac_clientDataJSON credential) = Ok clientDataJSON ->
  match window b with
  | Some localStorage => truthy_item (localStorage !! "wallet_address") = false
  | None => True
  end ->
  exists b',
    recoverLazorkitWallet b
    = (Throw (Error_new "No wallet found. Please create a new wallet."), b')
    /\ random_drawn b' = (random_drawn b + 32)%nat
    /\ drawn (world b') = drawn (world b)
    /\ window b' = window b.
Proof.
  intros Hauth Hsig Hdata Hjson Hnone.
  rewrite recoverLazorkitWallet_run. cbv zeta.
  rewrite (authenticatePasskey_success_run _ credential sig authenticatorData
             clientDataJSON) by assumption.
  cbn [window with_random_drawn with_line with_world].
  unfold no_wallet_found.
  assert (Hclose :
            forall b' : Browser,
              random_drawn b' = (random_drawn b + 32)%nat ->
              drawn (world b') = drawn (world b) ->
              window b' = window b ->
              exists b'',
                (@Throw LazorkitWallet
                   (Error_new "No wallet found. Please create a new wallet."),
                 b')
                = (Throw (Error_new
                            "No wallet found. Please create a new wallet."),
                   b'')
                /\ random_drawn b'' = (random_drawn b + 32)%nat
                /\ drawn (world b'') = drawn (world b)
                /\ window b'' = window b)
    by (intros b' ? ? ?; exists b'; repeat split; assumption).
  destruct (window b) as [localStorage |] eqn:Hwin;
    [| apply Hclose; reflexivity || exact Hwin].
  destruct (localStorage !! "wallet_address") as [storedAddress |];
    [| apply Hclose; reflexivity || exact Hwin].
  cbn [truthy_item] in Hnone. rewrite Hnone.
  apply Hclose; reflexivity || exact Hwin.
Qed.

(** The successful recovery of a wallet. *)
Lemma recoverLazorkitWallet_success (b : Browser)
        (localStorage : gmap string string) (storedAddress : string)
        (credential : AuthenticationCredential)
        (sig authenticatorData clientDataJSON : list Z) :
  window b = Some localStorage ->
  localStorage !! "wallet_address" = Some storedAddress ->
  truthy storedAddress = true ->
  startAuthentication b (request_options b) = Ok credential ->
  base64urlToBuffer (ac_signature credential) = Ok sig ->
  base64urlToBuffer (ac_authenticatorData credential) = Ok authenticatorData ->
  base64urlToBuffer (ac_clientDataJSON credential) = Ok clientDataJSON ->
  exists b',
    recoverLazorkitWallet b
    = (Ok {| address := storedAddress;
             lw_publicKey := default "" (localStorage !! "wallet_public_key");
             credentialId := ac_id credential;
             keypair := entropy (world b) (drawn (world b)) |}, b')
    /\ drawn (world b') = S (drawn (world b))
    /\ window b' = window b.
Proof.
  intros Hwin Haddr Htruthy Hauth Hsig Hdata Hjson.
  rewrite recoverLazorkitWallet_run. cbv zeta.
  rewrite (authenticatePasskey_success_run _ credential sig authenticatorData
             clientDataJSON) by assumption.
  cbn [window with_random_drawn with_line with_world].
  rewrite Hwin, Haddr, Htruthy.
  eexists. split; [reflexivity |]. split; [reflexivity |].
  cbn. exact Hwin.
Qed.

(** X22: with a stored wallet address, recovery returns that address and
    the stored public key (or the empty string) together with the id of
    whatever credential the authenticator presented and a keypair that is
    the next random key; the stored credential id is not looked at. *)
Theorem recoverLazorkitWallet_fresh_keypair (b : Browser)
        (localStorage : gmap string string) (storedAddress : string)
        (credential : AuthenticationCredential)
        (sig authenticatorData clientDataJSON : list Z) :
  window b = Some localStorage ->
  localStorage !! "wallet_address" = Some storedAddress ->
  truthy storedAddress = true ->
  startAuthentication b (request_options b) = Ok credential ->
  base64urlToBuffer (ac_signature credential) = Ok sig ->
  base64urlToBuffer (ac_authenticatorData credential) = Ok authenticatorData ->
  base64urlToBuffer (ac_clientDataJSON credential) = Ok clientDataJSON ->
  exists b',
    recoverLazorkitWallet b
    = (Ok {| address := storedAddress;
             lw_publicKey := default "" (localStorage !! "wallet_public_key");
             credentialId := ac_id credential;
             keypair := entropy (world b) (drawn (world b)) |}, b')
    /\ drawn (world b') = S (drawn (world b))
    /\ window b' = window b.
Proof.
  apply recoverLazorkitWallet_success.
Qed.

(** X23: creating a wallet and then recovering it in the same browser: the
    recovered wallet has the address and the public key of the created one
    and the id of the credential presented at recovery, but its keypair is
    the next random key and not the keypair derived at creation. *)
Theorem create_then_recover (username : string) (b : Browser)
        (localStorage : gmap string string)
        (credential : RegistrationCredential)
        (text publicKeyBytes rawId : list Z)
        (authentication : AuthenticationCredential)
        (sig authenticatorData clientDataJSON : list Z) :
  window b = Some localStorage ->
  startRegistration b (creation_options username b) = Ok credential ->
  rc_publicKey credential = Some text ->
  base64urlToBuffer text = Ok publicKeyBytes ->
  base64urlToBuffer (rc_rawId credential) = Ok rawId ->
  (forall options, startAuthentication b options = Ok authentication) ->
  base64urlToBuffer (ac_signature authentication) = Ok sig ->
  base64urlToBuffer (ac_authenticatorData authentication)
  = Ok authenticatorData ->
  base64urlToBuffer (ac_clientDataJSON authentication) = Ok clientDataJSON ->
  (forall kp, deriveKeypairFromPasskey publicKeyBytes = Ok kp ->
              truthy (toBase58 (publicKey kp)) = true) ->
  exists kp created b1 recovered b2,
    createLazorkitWallet username b = (Ok created, b1)
    /\ recoverLazorkitWallet b1 = (Ok recovered, b2)
    /\ deriveKeypairFromPasskey publicKeyBytes = Ok kp
    /\ keypair created = kp
    /\ address recovered = address created
    /\ lw_publicKey recovered = lw_publicKey created
    /\ credentialId recovered = ac_id authentication
    /\ keypair recovered = entropy (world b) (drawn (world b)).
Proof.
  intros Hwin Hreg Hpk Hdec Hraw Hauth Hsig Hdata Hjson Haddress.
  destruct (createLazorkitWallet_success username b localStorage credential
              text publicKeyBytes rawId Hwin Hreg Hpk Hdec Hraw)
    as (kp & b1 & Hkp & Hrun & Hstore & _ & _ & Hentropy & Hdrawn & Hsame).
  destruct (recoverLazorkitWallet_success b1 _ (toBase58 (publicKey kp))
              authentication sig authenticatorData clientDataJSON Hstore)
    as (b2 & Hrec & _ & _);
    [rewrite lookup_insert_ne by discriminate; apply lookup_insert_eq
    | apply Haddress, Hkp
    | rewrite Hsame; apply Hauth
    | assumption | assumption | assumption |].
  eexists kp, _, b1, _, b2.
  split; [exact Hrun |]. split; [exact Hrec |].
  split; [exact Hkp |]. split; [reflexivity |]. split; [reflexivity |].
  split; [cbn; now rewrite lookup_insert_eq |].
  split; [reflexivity |]. cbn. now rewrite Hentropy, Hdrawn.
Qed.

End SessionFacts.

Lemma createLazorkitWallet_stores_session_witness :
  exists wallet b',
    @createLazorkitWallet toy_library "alice" (toy_browser (Some ∅))
    = (Ok wallet, b')
    /\ credentialId wallet = "credential-1"
    /\ @deriveKeypairFromPasskey toy_library [1; 2; 3] = Ok (keypair wallet)
    /\ getStoredCredentialId (window b') = Some "credential-1".
Proof.
  destruct (@createLazorkitWallet_stores_session toy_library "alice"
              (toy_browser (Some ∅)) ∅ toy_registration [65; 81; 73; 68]
              [1; 2; 3] [1; 2; 3]
              eq_refl eq_refl eq_refl eq_refl eq_refl)
    as (kp & b' & Hkp & Hrun & _ & Hcred & _).
  eexists _, b'. split; [exact Hrun |].
  split; [reflexivity |]. split; [exact Hkp | exact Hcred].
Defined.

Lemma createLazorkitWallet_failure_stores_nothing_witness :
  window (@createLazorkitWallet toy_library "alice" toy_browser_refusing).2
  = window toy_browser_refusing
  /\ exists cause,
       Error_new "Failed to create passkey: The operation was not allowed"
       = Error_new ("Failed to create passkey: " ++ err_message cause).
Proof.
  apply (@createLazorkitWallet_failure_stores_nothing toy_library "alice"
           toy_browser_refusing).
  rewrite createLazorkitWallet_run. cbv zeta.
  rewrite createPasskey_run. reflexivity.
Defined.

Lemma recoverLazorkitWallet_without_address_witness :
  exists b',
    recoverLazorkitWallet (toy_browser (Some ∅))
    = (Throw (Error_new "No wallet found. Please create a new wallet."), b')
    /\ random_drawn b' = (random_drawn (toy_browser (Some ∅)) + 32)%nat
    /\ drawn (world b') = drawn (world (toy_browser (Some ∅)))
    /\ window b' = window (toy_browser (Some ∅)).
Proof.
  apply (recoverLazorkitWallet_without_address
           (toy_browser (Some ∅)) toy_authentication
           [1; 2; 3] [1; 2; 3] [1; 2; 3]).
  - reflexivity.
  - reflexivity.
  - reflexivity.
  - reflexivity.
  - reflexivity.
Defined.

Lemma recoverLazorkitWallet_fresh_keypair_witness :
  exists b',
    recoverLazorkitWallet (toy_browser (Some toy_storage))
    = (Ok {| address := "BBBBBBBBBBBBBBBBBBBBBBBBBBBBBBBB";
             lw_publicKey := default "" (toy_storage !! "wallet_public_key");
             credentialId := "credential-2";
             keypair := toy_key 0 |}, b')
    /\ drawn (world b') = 1%nat
    /\ window b' = Some toy_storage.
Proof.
  apply (recoverLazorkitWallet_fresh_keypair
           (toy_browser (Some toy_storage)) toy_storage
           "BBBBBBBBBBBBBBBBBBBBBBBBBBBBBBBB" toy_authentication
           [1; 2; 3] [1; 2; 3] [1; 2; 3]).
  - reflexivity.
  - reflexivity.
  - reflexivity.
  - reflexivity.
  - reflexivity.
  - reflexivity.
  - reflexivity.
Defined.

Lemma create_then_recover_witness :
  exists created b1 recovered b2,
    @createLazorkitWallet toy_library "alice" (toy_browser (Some ∅))
    = (Ok created, b1)
    /\ recoverLazorkitWallet b1 = (Ok recovered, b2)
    /\ address recovered = address created
    /\ credentialId recovered = "credential-2"
    /\ keypair recovered = toy_key 0
    /\ @deriveKeypairFromPasskey toy_library [1; 2; 3] = Ok (keypair created).
Proof.
  destruct (@create_then_recover toy_library "alice" (toy_browser (Some ∅))
              ∅ toy_registration [65; 81; 73; 68] [1; 2; 3] [1; 2; 3]
              toy_authentication [1; 2; 3] [1; 2; 3] [1; 2; 3]
              eq_refl eq_refl eq_refl eq_refl eq_refl (fun _ => eq_refl)
              eq_refl eq_refl eq_refl)
    as (kp & created & b1 & recovered & b2 & Hc & Hr & Hkp & Hk & Ha & _
        & Hid & Hfresh).
  - intros kp [= <-]. reflexivity.
  - exists created, b1, recovered, b2.
    split; [exact Hc |]. split; [exact Hr |]. split; [exact Ha |].
    split; [exact Hid |]. split; [exact Hfresh |]. now rewrite Hk.
Defined.

(** * The wallet API route *)

Section RouteFacts.
Context {number : Type} (number_truthy : number -> bool) `{Library}.

(** [handleGetSponsor], evaluated. *)
Lemma handleGetSponsor_run (w : World) :
  @handleGetSponsor number _ w =
  let demo (w0 : World) :=
    (Ok (respond
           (JsonObject
              {[ "sponsor" :=
                   JsonString (toBase58 (publicKey (entropy w (drawn w))));
                 "isDemo" := JsonBool true ]})),
     with_drawn w0 (S (drawn w))) in
  match env w !! "LAZORKIT_SPONSOR_PRIVATE_KEY" with
  | Some key =>
      if truthy key && negb (String.eqb key sponsor_placeholder) then
        match result_bind (bs58_decode key) Keypair_fromSecretKey with
        | Ok kp =>
            (Ok (respond
                   (JsonObject
                      {[ "sponsor" := JsonString (toBase58 (publicKey kp)) ]})),
             w)
        | Throw _ =>
            demo (with_console w
                    (console w ++ [{| level := ErrorLevel;
                                      printed := ["Invalid sponsor key"] |}]))
        end
      else demo w
  | None => demo w
  end.
Proof.
  unfold handleGetSponsor, bind at 1, getenv. cbv beta zeta.
  destruct (env w !! "LAZORKIT_SPONSOR_PRIVATE_KEY") as [key |];
    [| reflexivity].
  destruct (truthy key && negb (String.eqb key sponsor_placeholder));
    [| reflexivity].
  unfold try_catch, bind at 1, lift, result_bind.
  destruct (bs58_decode key) as [secret | e1]; [| reflexivity].
  unfold bind at 1.
  destruct (Keypair_fromSecretKey secret) as [kp | e2]; reflexivity.
Qed.

(** The sponsor request never throws. *)
Lemma handleGetSponsor_total (w : World) :
  exists r w',
    @handleGetSponsor number _ w = (Ok r, w')
    /\ status r = 200 /\ requests w' = requests w.
Proof.
  rewrite handleGetSponsor_run. cbv zeta.
  destruct (env w !! "LAZORKIT_SPONSOR_PRIVATE_KEY") as [key |];
    [| eexists _, _; repeat split].
  destruct (truthy key && negb (String.eqb key sponsor_placeholder));
    [| eexists _, _; repeat split].
  destruct (result_bind (bs58_decode key) Keypair_fromSecretKey);
    eexists _, _; repeat split.
Qed.

(** [POST], evaluated. *)
Lemma POST_run (parsed : result (json number)) (w : World) :
  POST number_truthy parsed w =
  let failed (e : JsError) :=
    (Ok internal_error,
     with_console w
       (console w ++ [{| level := ErrorLevel;
                         printed := ["API error:"; err_message e] |}])) in
  match parsed with
  | Throw e => failed e
  | Ok JsonNull => failed TypeError_null
  | Ok body =>
      match json_field body "action" with
      | Some (JsonString name) =>
          if String.eqb name "get_sponsor" then handleGetSponsor w
          else if String.eqb name "validate_session"
               then (Ok (handleValidateSession number_truthy body), w)
               else (Ok invalid_action, w)
      | _ => (Ok invalid_action, w)
      end
  end.
Proof.
  cbv zeta. unfold POST.
  destruct parsed as [body | e]; [| reflexivity].
  assert (Hbody :
            forall action : option (json number),
              try_catch
                (match action with
                 | Some (JsonString name) =>
                     if String.eqb name "get_sponsor" then handleGetSponsor
                     else if String.eqb name "validate_session"
                          then ret (handleValidateSession number_truthy body)
                          else ret invalid_action
                 | _ => ret invalid_action
                 end)
                (fun error =>
                   bind (console_error ["API error:"; err_message error])
                     (fun _ => ret internal_error)) w
              = match action with
                | Some (JsonString name) =>
                    if String.eqb name "get_sponsor" then handleGetSponsor w
                    else if String.eqb name "validate_session"
                         then (Ok (handleValidateSession number_truthy body), w)
                         else (Ok invalid_action, w)
                | _ => (Ok invalid_action, w)
                end).
  { intros [[| | | name | |] |]; try reflexivity.
    destruct (String.eqb name "get_sponsor"); [| now destruct (String.eqb _ _)].
    destruct (handleGetSponsor_total w) as (r & w' & Hrun & _).
    rewrite Hrun. now apply try_catch_Ok. }
  destruct body; try exact (Hbody _); reflexivity.
Qed.

(** X26: the sponsor request is always answered with status 200 and sends
    nothing to the ledger.  When the configured secret decodes, the answer
    names the configured key, without an [isDemo] field, and nothing has
    changed; in every other case (no secret, the placeholder, a secret that
    does not decode) it names the next random key together with
    [isDemo: true]. *)
Theorem get_sponsor_demo_flag (w : World) :
  exists r w',
    @handleGetSponsor number _ w = (Ok r, w')
    /\ status r = 200
    /\ requests w' = requests w
    /\ match configured_sponsor w with
       | Some kp =>
           payload r
           = JsonObject
               {[ "sponsor" := JsonString (toBase58 (publicKey kp)) ]}
           /\ json_field (payload r) "isDemo" = None
           /\ w' = w
       | None =>
           payload r
           = JsonObject
               {[ "sponsor" :=
                    JsonString (toBase58 (publicKey (entropy w (drawn w))));
                  "isDemo" := JsonBool true ]}
           /\ json_field (payload r) "isDemo" = Some (JsonBool true)
           /\ drawn w' = S (drawn w)
       end.
Proof.
  rewrite handleGetSponsor_run. unfold configured_sponsor. cbv zeta.
  assert (Hflag :
            json_field
              (@JsonObject number
                 {[ "sponsor" :=
                      JsonString (toBase58 (publicKey (entropy w (drawn w))));
                    "isDemo" := JsonBool true ]}) "isDemo"
            = Some (JsonBool true)).
  { cbn [json_field].
    now rewrite lookup_insert_ne, lookup_singleton_eq by discriminate. }
  destruct (env w !! "LAZORKIT_SPONSOR_PRIVATE_KEY") as [key |];
    [| eexists _, _; repeat split; exact Hflag].
  destruct (truthy key && negb (String.eqb key sponsor_placeholder));
    [| eexists _, _; repeat split; exact Hflag].
  destruct (result_bind (bs58_decode key) Keypair_fromSecretKey) as [kp | e];
    [| eexists _, _; repeat split; exact Hflag].
  eexists _, _. repeat split.
Qed.

(** X27: with no usable sponsor secret, the sponsor that the API announces
    and the sponsor that a following gasless flow uses are two separate
    random keys; with a secret that decodes both are the configured key. *)
Theorem api_and_flow_sponsors (w : World) :
  exists r w1 kp w2,
    @handleGetSponsor number _ w = (Ok r, w1)
    /\ getSponsorWallet w1 = (Ok kp, w2)
    /\ match configured_sponsor w with
       | Some configured =>
           json_field (payload r) "sponsor"
           = Some (JsonString (toBase58 (publicKey configured)))
           /\ kp = configured
       | None =>
           json_field (payload r) "sponsor"
           = Some (JsonString
                     (toBase58 (publicKey (entropy w (drawn w)))))
           /\ kp = entropy w (S (drawn w))
       end.
Proof.
  rewrite handleGetSponsor_run. unfold configured_sponsor. cbv zeta.
  destruct (env w !! "LAZORKIT_SPONSOR_PRIVATE_KEY") as [key |] eqn:Henv.
  2:{ eexists _, _, _, _. split; [reflexivity |].
      rewrite getSponsorWallet_run. cbn [env with_drawn]. rewrite Henv.
      cbv zeta. split; [reflexivity |]. cbn [payload respond json_field].
      split; [apply lookup_insert_eq | reflexivity]. }
  destruct (truthy key && negb (String.eqb key sponsor_placeholder)) eqn:Hkey.
  2:{ eexists _, _, _, _. split; [reflexivity |].
      rewrite getSponsorWallet_run. cbn [env with_drawn]. rewrite Henv, Hkey.
      cbv zeta. split; [reflexivity |]. cbn [payload respond json_field].
      split; [apply lookup_insert_eq | reflexivity]. }
  destruct (result_bind (bs58_decode key) Keypair_fromSecretKey)
    as [configured | e] eqn:Hdec.
  - eexists _, _, _, _. split; [reflexivity |].
    rewrite getSponsorWallet_run, Henv, Hkey, Hdec.
    split; [reflexivity |]. cbn [payload respond json_field].
    split; [apply lookup_singleton_eq | reflexivity].
  - eexists _, _, _, _. split; [reflexivity |].
    rewrite getSponsorWallet_run. cbn [env with_drawn with_console].
    rewrite Henv, Hkey, Hdec.
    split; [reflexivity |]. cbn [payload respond json_field].
    split; [apply lookup_insert_eq | reflexivity].
Qed.

(** X24: the route answers every POST: it never throws and sends nothing to
    the ledger.  The status is 500 exactly when the body could not be read
    or is [null]; a body whose [action] is neither of the two known names
    gets 400 "Invalid action", and nothing has changed. *)
Theorem POST_always_responds (parsed : result (json number)) (w : World) :
  exists r w',
    POST number_truthy parsed w = (Ok r, w')
    /\ requests w' = requests w
    /\ (status r = 200 \/ status r = 400 \/ status r = 500)
    /\ (status r = 500 <->
        (exists e, parsed = Throw e) \/ parsed = Ok JsonNull)
    /\ forall body,
         parsed = Ok body -> body <> JsonNull ->
         json_field body "action" <> Some (JsonString "get_sponsor") ->
         json_field body "action" <> Some (JsonString "validate_session") ->
         r = invalid_action /\ w' = w.
Proof.
  rewrite POST_run. cbv zeta.
  assert (H400 : forall body : json number,
            parsed = Ok body -> body <> JsonNull ->
            exists r w',
              (Ok (@invalid_action number), w) = (Ok r, w')
              /\ requests w' = requests w
              /\ (status r = 200 \/ status r = 400 \/ status r = 500)
              /\ (status r = 500 <->
                  (exists e, parsed = Throw e) \/ parsed = Ok JsonNull)
              /\ forall body',
                   parsed = Ok body' -> body' <> JsonNull ->
                   json_field body' "action"
                   <> Some (JsonString "get_sponsor") ->
                   json_field body' "action"
                   <> Some (JsonString "validate_session") ->
                   r = invalid_action /\ w' = w).
  { intros body -> Hnull. eexists _, _. split; [reflexivity |].
    split; [reflexivity |]. split; [right; left; reflexivity |].
    split; [| intros; split; reflexivity].
    split; [discriminate | intros [[e [=]] | [= ->]]; contradiction]. }
  destruct parsed as [body | e].
  2:{ eexists _, _. split; [reflexivity |]. split; [reflexivity |].
      split; [right; right; reflexivity |].
      split; [split; [eauto | reflexivity] | discriminate]. }
  assert (Hnull : body = JsonNull \/ body <> JsonNull)
    by (destruct body; (left; reflexivity) || (right; discriminate)).
  destruct Hnull as [-> | Hnull].
  { eexists _, _. split; [reflexivity |]. split; [reflexivity |].
    split; [right; right; reflexivity |].
    split; [split; [eauto | reflexivity] |].
    intros body' [= <-] Hne. contradiction. }
  assert (Hrun :
            match body with
            | JsonNull =>
                (Ok internal_error,
                 with_console w
                   (console w
                    ++ [{| level := ErrorLevel;
                           printed := ["API error:";
                                       err_message TypeError_null] |}]))
            | _ =>
                match json_field body "action" with
                | Some (JsonString name) =>
                    if String.eqb name "get_sponsor" then handleGetSponsor w
                    else if String.eqb name "validate_session"
                         then (Ok (handleValidateSession number_truthy body),
                               w)
                         else (Ok invalid_action, w)
                | _ => (Ok invalid_action, w)
                end
            end
            = match json_field body "action" with
              | Some (JsonString name) =>
                  if String.eqb name "get_sponsor" then handleGetSponsor w
                  else if String.eqb name "validate_session"
                       then (Ok (handleValidateSession number_truthy body), w)
                       else (Ok invalid_action, w)
              | _ => (Ok invalid_action, w)
              end)
    by (destruct body; [contradiction | reflexivity ..]).
  rewrite Hrun. clear Hrun.
  destruct (json_field body "action") as [[| | | name | |] |] eqn:Haction;
    try (apply (H400 body); [reflexivity | exact Hnull]).
  destruct (String.eqb_spec name "get_sponsor") as [-> | Hget].
  { destruct (handleGetSponsor_total w) as (r & w' & Hsp & Hst & Hreq).
    exists r, w'. split; [exact Hsp |]. split; [exact Hreq |].
    split; [left; exact Hst |]. split.
    - rewrite Hst. split; [discriminate |].
      intros [[e [=]] | [= ->]]; contradiction.
    - intros body' [= <-] _ Hne. contradiction. }
  destruct (String.eqb_spec name "validate_session") as [-> | Hval];
    [| apply (H400 body); [reflexivity | exact Hnull]].
  eexists _, _. split; [reflexivity |]. split; [reflexivity |].
  assert (Hst : status (handleValidateSession number_truthy body) = 200
                \/ status (handleValidateSession number_truthy body) = 400).
  { unfold handleValidateSession.
    destruct (negb _ || negb _); [right | left]; reflexivity. }
  split; [destruct Hst as [-> | ->]; auto |]. split.
  - split; [destruct Hst as [-> | ->]; discriminate |].
    intros [[e [=]] | [= ->]]; contradiction.
  - intros body' [= <-] _ _ Hne. contradiction.
Qed.

(** X25: session validation verifies nothing: a body with truthy
    [credentialId] and [walletAddress] gets status 200 with [valid: true]
    and the address echoed, whatever the two values are; any other body
    gets status 400; in both cases nothing is read, written or sent. *)
Theorem validate_session_unverified (fields : gmap string (json number))
        (w : World) :
  fields !! "action" = Some (JsonString "validate_session") ->
  exists r,
    POST number_truthy (Ok (JsonObject fields)) w = (Ok r, w)
    /\ if json_truthy number_truthy (fields !! "credentialId")
          && json_truthy number_truthy (fields !! "walletAddress")
       then status r = 200
            /\ json_field (payload r) "valid" = Some (JsonBool true)
            /\ json_field (payload r) "walletAddress"
               = fields !! "walletAddress"
       else status r = 400
            /\ json_field (payload r) "valid" = Some (JsonBool false).
Proof.
  intros Haction. rewrite POST_run. cbv zeta. cbn [json_field].
  rewrite Haction. cbn [String.eqb Ascii.eqb Bool.eqb].
  eexists. split; [reflexivity |].
  unfold handleValidateSession. cbn [json_field].
  destruct (json_truthy number_truthy (fields !! "credentialId")) eqn:Hc;
    cbn [negb orb andb].
  - destruct (fields !! "walletAddress") as [address |] eqn:Ha.
    + destruct (json_truthy number_truthy (Some address)); cbn [negb].
      * cbn [status payload respond json_field]. split; [reflexivity |].
        split; [apply lookup_insert_eq |].
        now rewrite lookup_insert_ne, lookup_singleton_eq by discriminate.
      * cbn [status payload json_field]. split; [reflexivity |].
        apply lookup_insert_eq.
    + cbn [json_truthy negb status payload json_field].
      split; [reflexivity | apply lookup_insert_eq].
  - cbn [status payload json_field].
    split; [reflexivity | apply lookup_insert_eq].
Qed.

End RouteFacts.

Lemma validate_session_unverified_witness :
  exists r,
    @POST Z (fun n => negb (n =? 0)) toy_library
      (Ok (JsonObject toy_validation_request)) (toy_world None None)
    = (Ok r, toy_world None None)
    /\ status r = 200
    /\ json_field (payload r) "valid" = Some (JsonBool true)
    /\ json_field (payload r) "walletAddress"
       = Some (JsonString "not-an-address").
Proof.
  destruct (@validate_session_unverified Z (fun n => negb (n =? 0))
              toy_library toy_validation_request (toy_world None None)
              eq_refl) as (r & Hrun & Hr).
  exists r. split; [exact Hrun |]. exact Hr.
Defined.
